(** * The Done back end: single-table data access and request authorization

    A shallow embedding of the Lambda handlers of the Done to-do application
    (the handler files under lambdas/) together with the parts of their
    environment that the handlers observe: the JavaScript values they
    compute with, the DynamoDB document client they call, the JWKS client
    and the JWT verifier.

    Layout: the embedding first (modules [Js], [DynamoDB], [Lambda] and one
    module per handler file, each exporting [handler]), then the properties. *)

From Stdlib Require Import ZArith String Ascii List.
From Stdlib Require OrdersEx.
From stdpp Require Import gmap strings list sorting pretty.
From Equations Require Import Equations.

Local Open Scope Z_scope.
Set Warnings "-register-all,-clear-no-such-hyp".

(** ** JavaScript values *)

Module Js.

(** The values a handler manipulates: what [JSON.parse] returns, extended
    with [undefined], [NaN] and the two infinities (which arise from
    property reads and from [parseInt]).  [JNum n] is the Number whose value
    is the integer [n]; fractional numbers are not modelled.  The fields of
    [JObj] are listed in the engine's own-property order. *)
Inductive JValue :=
| JUndefined
| JNull
| JBool (b : bool)
| JNum (n : Z)
| JNaN
| JInfinity (negative : bool)
| JStr (s : string)
| JArr (l : list JValue)
| JObj (fields : list (string * JValue)).

(** A thrown JavaScript error: its constructor name and its [message]. *)
Record JsError := mkError { name : string; message : string }.

(** The result of evaluating code that may throw. *)
Inductive Exc (A : Type) :=
| Ok (a : A)
| Throw (e : JsError).
Arguments Ok {A} a.
Arguments Throw {A} e.

#[export] Instance Exc_ret : MRet Exc := fun A a => Ok a.
#[export] Instance Exc_bind : MBind Exc := fun A B f m =>
  match m with
  | Ok a => f a
  | Throw e => Throw e
  end.

Definition TypeError (msg : string) : JsError := mkError "TypeError" msg.
Definition SyntaxError (msg : string) : JsError := mkError "SyntaxError" msg.
Definition Error (msg : string) : JsError := mkError "Error" msg.

(** [ToBoolean]: what [if (v)], [!v], [a && b] and [.filter] test. *)
Definition truthy (v : JValue) : bool :=
  match v with
  | JUndefined | JNull | JNaN => false
  | JBool b => b
  | JNum n => negb (n =? 0)
  | JStr s => negb (bool_decide (s = ""))
  | JInfinity _ | JArr _ | JObj _ => true
  end.

Definition nullish (v : JValue) : bool :=
  match v with
  | JUndefined | JNull => true
  | _ => false
  end.

(** A string-or-undefined value such as a header or a query parameter. *)
Definition truthy_str (o : option string) : bool :=
  match o with
  | Some s => negb (bool_decide (s = ""))
  | None => false
  end.

(** [a || b] on string-or-undefined values. *)
Definition or_else (a b : option string) : option string :=
  if truthy_str a then a else b.

(** The own enumerable string keys of a value, in enumeration order: the
    fields of an object, the indices of an array or of a string. *)
Definition own_keys (v : JValue) : list string :=
  match v with
  | JObj fs => fs.*1
  | JArr l => pretty <$> seq 0 (length l)
  | JStr s => pretty <$> seq 0 (String.length s)
  | _ => []
  end.

(** [Object.keys(v)] throws on [undefined] and [null]. *)
Definition Object_keys (v : JValue) : Exc (list string) :=
  if nullish v
  then Throw (TypeError "Cannot convert undefined or null to object")
  else Ok (own_keys v).

(** The keys visited by [for (const key in v)]: none for [undefined]/[null]. *)
Definition for_in (v : JValue) : list string := own_keys v.

Definition assoc {A} (k : string) (fs : list (string * A)) : option A :=
  snd <$> find (fun kv => bool_decide (kv.1 = k)) fs.

Definition index_of_key (k : string) (n : nat) : option nat :=
  find (fun i => bool_decide (pretty i = k)) (seq 0 n).

(** [v[k]] for a value [v] that is neither [undefined] nor [null]: a missing
    property reads as [undefined].  Only own data properties are modelled
    (no [length], no methods): the handlers read none of the others. *)
Definition member (v : JValue) (k : string) : JValue :=
  match v with
  | JObj fs => default JUndefined (assoc k fs)
  | JArr l => default JUndefined (i ← index_of_key k (length l); l !! i)
  | JStr s =>
      default JUndefined
        (i ← index_of_key k (String.length s);
         c ← String.get i s;
         Some (JStr (String c EmptyString)))
  | _ => JUndefined
  end.

(** [v.k] / [v[k]]: reading a property of [undefined] or [null] throws. *)
Definition get (v : JValue) (k : string) : Exc JValue :=
  if nullish v
  then Throw (TypeError ("Cannot read properties of undefined or null (reading '" +:+ k +:+ "')"))
  else Ok (member v k).

(** [o[k] = v] on an object under construction: overwrite in place or append. *)
Fixpoint obj_set {A} (o : list (string * A)) (k : string) (v : A) : list (string * A) :=
  match o with
  | [] => [(k, v)]
  | (k', v') :: o' => if bool_decide (k' = k) then (k, v) :: o' else (k', v') :: obj_set o' k v
  end.

(** [...(c && { k: v })] inside an object literal: spreads the one field when
    [c] is truthy and nothing otherwise. *)
Definition spread_if (c : JValue) (k : string) (v : JValue) : list (string * JValue) :=
  if truthy c then [(k, v)] else [].

(** *** [String.prototype.split] with a string separator *)

Fixpoint split_go (sep : string) (skip : nat) (cur : string) (s : string) : list string :=
  match s with
  | EmptyString => [cur]
  | String c s' =>
      match skip with
      | S n => split_go sep n cur s'
      | O =>
          if String.prefix sep s
          then cur :: split_go sep (Nat.pred (String.length sep)) "" s'
          else split_go sep 0 (cur +:+ String c EmptyString) s'
      end
  end.

(** [s.split(sep)] for a non-empty separator. *)
Definition split (sep : string) (s : string) : list string := split_go sep 0 "" s.

(** *** [parseInt] with no radix argument *)

Definition is_space (c : ascii) : bool :=
  let n := nat_of_ascii c in
  bool_decide (n = 32 ∨ (9 ≤ n ∧ n ≤ 13))%nat.

Fixpoint skip_spaces (s : string) : string :=
  match s with
  | String c s' => if is_space c then skip_spaces s' else s
  | EmptyString => s
  end.

Definition digit_value (radix : Z) (c : ascii) : option Z :=
  let n := Z.of_nat (nat_of_ascii c) in
  let d :=
    if bool_decide (48 ≤ n ≤ 57) then Some (n - 48)
    else if bool_decide (97 ≤ n ≤ 122) then Some (n - 87)
    else if bool_decide (65 ≤ n ≤ 90) then Some (n - 55)
    else None in
  d ≫= fun d => if bool_decide (d < radix) then Some d else None.

(** The value of the longest prefix of digits; [acc] is [None] until a digit
    has been read. *)
Fixpoint digits (radix : Z) (acc : option Z) (s : string) : option Z :=
  match s with
  | String c s' =>
      match digit_value radix c with
      | Some d => digits radix (Some (default 0 acc * radix + d)) s'
      | None => acc
      end
  | EmptyString => acc
  end.

(** An optional sign: whether it is a minus, and the rest. *)
Definition strip_sign (s : string) : bool * string :=
  match s with
  | String c s' =>
      if bool_decide (c = "-"%char) then (true, s')
      else if bool_decide (c = "+"%char) then (false, s')
      else (false, s)
  | EmptyString => (false, s)
  end.

(** A leading [0x] or [0X] selects radix 16. *)
Definition strip_radix (s : string) : Z * string :=
  match s with
  | String c (String x s') =>
      if bool_decide (c = "0"%char) && bool_decide (x = "x"%char ∨ x = "X"%char)
      then (16, s') else (10, s)
  | _ => (10, s)
  end.

(** [Number.MAX_SAFE_INTEGER] and [Number.MIN_SAFE_INTEGER] *)
Definition MAX_SAFE_INTEGER : Z := 9007199254740991.
Definition MIN_SAFE_INTEGER : Z := -9007199254740991.

(** An integer between the two, which a Number holds exactly. *)
Definition safe_integer (n : Z) : bool :=
  (MIN_SAFE_INTEGER <=? n) && (n <=? MAX_SAFE_INTEGER).

(** The Number value for a mathematical integer: the integer itself up to
    2^53 in magnitude; beyond that the nearest integer with 53 significant
    bits, ties to the even one, and an infinity when that reaches 2^1024. *)
Definition Number_of (n : Z) : JValue :=
  let a := Z.abs n in
  if a <=? 2 ^ 53 then JNum n
  else
    let e := Z.log2 a - 52 in
    let q := Z.shiftr a e in
    let r := a - Z.shiftl q e in
    let half := Z.shiftl 1 (e - 1) in
    let q := if (half <? r) || ((r =? half) && Z.odd q) then q + 1 else q in
    let m := Z.shiftl q e in
    if 2 ^ 1024 <=? m then JInfinity (n <? 0)
    else JNum (if n <? 0 then - m else m).

(** [parseInt(s)]: the Number for the integer that the longest prefix of
    digits denotes (correctly rounded, as V8 computes it), [NaN] when there
    is no digit. *)
Definition parseInt (s : string) : JValue :=
  let '(neg, s) := strip_sign (skip_spaces s) in
  let '(radix, s) := strip_radix s in
  match digits radix None s with
  | Some n => Number_of (if neg : bool then - n else n)
  | None => JNaN
  end.

(** *** The request body *)

(** [event.body] seen through [!event.body] and [JSON.parse(event.body)]:
    absent (null or the empty string), a non-empty text that is not JSON, or
    a text that parses to [v]. *)
Inductive Body :=
| NoBody
| Malformed
| Json (v : JValue).

Definition JSON_parse (b : Body) : Exc JValue :=
  match b with
  | Json v => Ok v
  | NoBody | Malformed => Throw (SyntaxError "Unexpected token in JSON")
  end.

End Js.
Export Js.

(** ** The DynamoDB document client *)

Module DynamoDB.

(** The primary key of the single table: partition key [pk], sort key [sk]. *)
Definition Key : Type := string * string.

(** What the marshaller of the document client accepts as an attribute
    value, at any depth: no [NaN] and no infinity, no number outside the
    safe integers, and no [undefined].  (Release 3.418.0 of the client
    refuses an [undefined] attribute; a later release drops it when it is a
    direct attribute of the item.  The properties below that assert a write
    are about values without [undefined].) *)
Fixpoint marshallable (v : JValue) : bool :=
  match v with
  | JUndefined | JNaN | JInfinity _ => false
  | JNum n => safe_integer n
  | JArr l => forallb marshallable l
  | JObj fs => forallb (fun kv => marshallable (snd kv)) fs
  | _ => true
  end.

(** An item as the handlers write it: a JavaScript object with [pk] and [sk]
    among its fields. *)
Definition ItemObject : Type := list (string * JValue).

Inductive WriteRequest :=
| PutRequest (Item : ItemObject)
| DeleteRequest (pk sk : JValue).

Record UpdateInput := {
  UKey : Key;
  (** [SET lhs = rhs, ...]: one pair for each comma-separated part *)
  UpdateExpression : list (string * string);
  ExpressionAttributeNames : list (string * string);
  ExpressionAttributeValues : list (string * JValue)
}.

(** The requests a handler issued, oldest first. *)
Inductive Call :=
| CPut (Item : ItemObject)
| CUpdate (input : UpdateInput)
| CDelete (key : Key)
| CBatchWrite (requests : list WriteRequest)
| CQuery (pk : string) (ExclusiveStartKey : option Key).

(** The store: the table (each item under its key, holding its non-key
    attributes), the table's name, whether the service answers, how many
    items a query page holds, whether a page that is full comes with a
    continuation token even when nothing follows it, and the history of
    requests.  The service's limits on sizes (of an item, of a key, of an
    expression) are not modelled: requests are taken to be within them. *)
Record Store := {
  table : gmap Key (gmap string JValue);
  tableName : string;
  online : bool;
  pageLimit : nat;
  eagerToken : bool;
  log : list Call
}.

Definition record (c : Call) (s : Store) : Store :=
  {| table := table s; tableName := tableName s; online := online s;
     pageLimit := pageLimit s; eagerToken := eagerToken s; log := log s ++ [c] |}.

Definition with_table (t : gmap Key (gmap string JValue)) (s : Store) : Store :=
  {| table := t; tableName := tableName s; online := online s;
     pageLimit := pageLimit s; eagerToken := eagerToken s; log := log s |}.

(** The error of the marshaller; its message is the one for [undefined] and
    stands for the others, which name the refused value. *)
Definition MarshallError : JsError :=
  Error "Pass options.removeUndefinedValues=true to remove undefined values from map/array/set.".
Definition ServiceUnavailable : JsError := mkError "ServiceUnavailable" "Service Unavailable".
Definition ResourceNotFound : JsError :=
  mkError "ResourceNotFoundException" "Requested resource not found".
(** A request the service refuses; the message texts below are indicative. *)
Definition ValidationException (msg : string) : JsError := mkError "ValidationException" msg.

(** The checks every request goes through before the table is touched:
    the values marshal, the service answers, the table exists. *)
Definition accept_request (TableName : string) (values : list JValue) (s : Store) : Exc unit :=
  if negb (forallb marshallable values) then Throw MarshallError
  else if negb (online s) then Throw ServiceUnavailable
  else if negb (bool_decide (TableName = tableName s)) then Throw ResourceNotFound
  else Ok ().

Definition key_of (pk sk : JValue) : option Key :=
  match pk, sk with
  | JStr p, JStr q => Some (p, q)
  | _, _ => None
  end.

Definition item_key (it : ItemObject) : option Key :=
  key_of (member (JObj it) "pk") (member (JObj it) "sk").

(** The non-key attributes of an item object, as stored. *)
Definition item_attrs (it : ItemObject) : gmap string JValue :=
  delete "pk" (delete "sk" (list_to_map it)).

(** [docClient.put]: creates the item or replaces the one under its key. *)
Definition docClient_put (TableName : string) (Item : ItemObject) (s : Store) : Store * Exc unit :=
  let s := record (CPut Item) s in
  match accept_request TableName Item.*2 s with
  | Throw e => (s, Throw e)
  | Ok _ =>
      match item_key Item with
      | None => (s, Throw (ValidationException "One of the required keys was not given a value"))
      | Some k => (with_table (<[k := item_attrs Item]> (table s)) s, Ok ())
      end
  end.

(** [docClient.delete]: removes the item; deleting an absent key succeeds. *)
Definition docClient_delete (TableName : string) (k : Key) (s : Store) : Store * Exc unit :=
  let s := record (CDelete k) s in
  match accept_request TableName [] s with
  | Throw e => (s, Throw e)
  | Ok _ => (with_table (delete k (table s)) s, Ok ())
  end.

(** *** Update expressions *)

Definition name_char (c : ascii) : bool :=
  let n := nat_of_ascii c in
  bool_decide ((48 ≤ n ∧ n ≤ 57) ∨ (65 ≤ n ∧ n ≤ 90) ∨ (97 ≤ n ∧ n ≤ 122) ∨ n = 95)%nat.

Fixpoint name_chars (s : string) : bool :=
  match s with
  | EmptyString => true
  | String c s' => name_char c && name_chars s'
  end.

(** A placeholder: the sigil followed by one or more name characters. *)
Definition placeholder (sigil : ascii) (tok : string) : bool :=
  match tok with
  | String c rest => bool_decide (c = sigil) && negb (bool_decide (rest = "")) && name_chars rest
  | EmptyString => false
  end.

(** The attribute a left-hand side denotes: a [#name] placeholder is looked
    up in the attribute names, anything else is a literal attribute name. *)
Definition resolve_path (names : list (string * string)) (lhs : string) : option string :=
  match lhs with
  | String "#" _ => if placeholder "#" lhs then assoc lhs names else None
  | _ => if negb (bool_decide (lhs = "")) && name_chars lhs then Some lhs else None
  end.

Definition resolve_value (values : list (string * JValue)) (rhs : string) : option JValue :=
  if placeholder ":" rhs then assoc rhs values else None.

(** The assignments of a [SET] expression, resolved; [None] when a part does
    not parse or uses an undeclared placeholder. *)
Definition resolve_sets (input : UpdateInput) : option (list (string * JValue)) :=
  mapM (fun part : string * string =>
          a ← resolve_path (ExpressionAttributeNames input) part.1;
          v ← resolve_value (ExpressionAttributeValues input) part.2;
          Some (a, v))
       (UpdateExpression input).

Definition apply_sets (sets : list (string * JValue)) (attrs : gmap string JValue)
  : gmap string JValue :=
  foldl (fun m av => <[av.1 := av.2]> m) attrs sets.

(** What the service validates before it applies an update: the
    attribute-name map, when given, is not empty; the expression resolves;
    no two assignments target the same attribute; no assignment targets a
    key attribute. *)
Definition validate_update (input : UpdateInput) : Exc (list (string * JValue)) :=
  if bool_decide (ExpressionAttributeNames input = [])
  then Throw (ValidationException "ExpressionAttributeNames must not be empty")
  else
    match resolve_sets input with
    | None => Throw (ValidationException "Invalid UpdateExpression")
    | Some sets =>
        if negb (bool_decide (NoDup sets.*1))
        then Throw (ValidationException "Invalid UpdateExpression: Two document paths overlap with each other")
        else if bool_decide ("pk" ∈ sets.*1 ∨ "sk" ∈ sets.*1)
        then Throw (ValidationException "Cannot update attribute. This attribute is part of the key")
        else Ok sets
    end.

Record UpdateOutput := { Attributes : option (list (string * JValue)) }.

(** [docClient.update] with no [ConditionExpression] and no [ReturnValues]:
    edits the item under the key, or creates it when the key is absent, and
    returns no attributes. *)
Definition docClient_update (TableName : string) (input : UpdateInput) (s : Store)
  : Store * Exc UpdateOutput :=
  let s := record (CUpdate input) s in
  match accept_request TableName (ExpressionAttributeValues input).*2 s with
  | Throw e => (s, Throw e)
  | Ok _ =>
      match validate_update input with
      | Throw e => (s, Throw e)
      | Ok sets =>
          let old := default ∅ (table s !! UKey input) in
          (with_table (<[UKey input := apply_sets sets old]> (table s)) s,
           Ok {| Attributes := None |})
      end
  end.

(** *** Batch writes *)

Definition request_key (r : WriteRequest) : option Key :=
  match r with
  | PutRequest it => item_key it
  | DeleteRequest pk sk => key_of pk sk
  end.

Definition request_values (r : WriteRequest) : list JValue :=
  match r with
  | PutRequest it => it.*2
  | DeleteRequest pk sk => [pk; sk]
  end.

Definition apply_request (t : gmap Key (gmap string JValue)) (r : WriteRequest)
  : gmap Key (gmap string JValue) :=
  match r, request_key r with
  | PutRequest it, Some k => <[k := item_attrs it]> t
  | DeleteRequest _ _, Some k => delete k t
  | _, None => t
  end.

(** [docClient.batchWrite] on one table: between 1 and 25 requests, each with
    a key, no key twice.  Every accepted request is processed. *)
Definition docClient_batchWrite (TableName : string) (requests : list WriteRequest) (s : Store)
  : Store * Exc unit :=
  let s := record (CBatchWrite requests) s in
  match accept_request TableName (requests ≫= request_values) s with
  | Throw e => (s, Throw e)
  | Ok _ =>
      if bool_decide (requests = [])
      then (s, Throw (ValidationException "The batch write request list for a table cannot be null or empty"))
      else if bool_decide (25 < length requests)%nat
      then (s, Throw (ValidationException "Too many items requested for the BatchWriteItem call"))
      else
        match mapM request_key requests with
        | None => (s, Throw (ValidationException "The provided key element does not match the schema"))
        | Some keys =>
            if negb (bool_decide (NoDup keys))
            then (s, Throw (ValidationException "Provided list of item keys contains duplicates"))
            else (with_table (foldl apply_request (table s) requests) s, Ok ())
        end
  end.

(** *** Queries on one partition *)

(** Sort keys are ordered as strings. *)
Definition sk_le (a b : Key * gmap string JValue) : Prop :=
  Is_true (String.leb a.1.2 b.1.2).

#[export] Instance sk_le_dec a b : Decision (sk_le a b) := _.

(** The items of a partition in sort-key order. *)
Definition partition (pk : string) (t : gmap Key (gmap string JValue))
  : list (Key * gmap string JValue) :=
  merge_sort sk_le (filter (fun kv => kv.1.1 = pk) (map_to_list t)).

Record QueryOutput := {
  Items : option (list (Key * gmap string JValue));
  LastEvaluatedKey : option Key
}.

(** The items of the partition after the start key. *)
Definition remaining (pk : string) (start : option Key) (t : gmap Key (gmap string JValue))
  : list (Key * gmap string JValue) :=
  match start with
  | None => partition pk t
  | Some k => filter (fun kv => Is_true (String.ltb k.2 kv.1.2)) (partition pk t)
  end.

(** Whether the page taken from [rest] is the last one the service
    announces: nothing follows it, and it is not a full page announced
    eagerly. *)
Definition final_page (s : Store) (rest : list (Key * gmap string JValue)) : bool :=
  bool_decide (length rest ≤ pageLimit s)%nat
  && negb (eagerToken s && bool_decide (length rest = pageLimit s)).

(** [docClient.query] with [KeyConditionExpression: "pk = :pk"]: one page of
    at most [pageLimit] items after [ExclusiveStartKey], and the key of the
    page's last item unless the page is final. *)
Definition docClient_query (TableName : string) (pk : string) (ExclusiveStartKey : option Key)
    (s : Store) : Store * Exc QueryOutput :=
  let s := record (CQuery pk ExclusiveStartKey) s in
  match accept_request TableName [] s with
  | Throw e => (s, Throw e)
  | Ok _ =>
      let rest := remaining pk ExclusiveStartKey (table s) in
      let page := take (pageLimit s) rest in
      (s, Ok {| Items := Some page;
                LastEvaluatedKey := if final_page s rest then None else fst <$> last page |})
  end.

End DynamoDB.
Export DynamoDB.

(** ** What every API handler receives and returns *)

Module Lambda.

(** The API Gateway proxy event, as far as the handlers read it. *)
Record Event := {
  headers : gmap string string;
  queryStringParameters : option (gmap string string);
  body : Body
}.

(** A time value: an integer number of milliseconds, at most 8.64e15 in
    magnitude. *)
Definition time_value (t : Z) : bool :=
  (-8640000000000000 <=? t) && (t <=? 8640000000000000).

(** The ambient inputs of one invocation: [process.env.TABLE_NAME], the
    reading of [Date.now()], which is a time value, and the values
    [uuidv4()] returns, in call order. *)
Record Env := {
  TABLE_NAME : option string;
  now : Z;
  now_time_value : time_value now = true;
  uuidv4 : nat → string
}.

(** The proxy result.  [responseHeaders] holds the value of
    [Access-Control-Allow-Methods] (the other two CORS headers do not vary);
    [responseBody] is the object handed to [JSON.stringify]. *)
Record Response := {
  statusCode : Z;
  responseHeaders : option string;
  responseBody : JValue
}.

Definition reply (status : Z) (methods : string) (fields : list (string * JValue)) : Response :=
  {| statusCode := status; responseHeaders := Some methods; responseBody := JObj fields |}.

(** [event.headers["X-User-Id"] || event.headers["x-user-id"]] *)
Definition userId_header (event : Event) : option string :=
  or_else (headers event !! "X-User-Id") (headers event !! "x-user-id").

(** [event?.queryStringParameters?.name] *)
Definition query_parameter (event : Event) (name : string) : option string :=
  queryStringParameters event ≫= fun q => q !! name.

(** A string that passed an [if (!x) return ...] guard. *)
Definition present (o : option string) : option string :=
  if truthy_str o then o else None.

(** [!event.body] *)
Definition body_missing (b : Body) : bool :=
  match b with
  | NoBody => true
  | _ => false
  end.

(** [process.env.TABLE_NAME || ""] *)
Definition table_name_or_empty (env : Env) : string :=
  default "" (present (TABLE_NAME env)).

(** The bookkeeping of a PATCH handler; the three update handlers build
    their [SET] expression with the same statements. *)

(** [updateExpressionParts]: ["updatedAt = :updatedAt"], then one
    ["#key = :key"] for each key of the body. *)
Definition updateExpressionParts (requestBody : JValue) : list (string * string) :=
  ("updatedAt", ":updatedAt") ::
  ((fun key => ("#" +:+ key, ":" +:+ key)) <$> for_in requestBody).

(** [expressionAttributeValues]: [":updatedAt"] is the clock reading, then
    [":key"] is assigned [requestBody[key]] for each key of the body. *)
Definition expressionAttributeValues (now : Z) (requestBody : JValue) : list (string * JValue) :=
  foldl (fun o key => obj_set o (":" +:+ key) (member requestBody key))
        [(":updatedAt", JNum now)] (for_in requestBody).

(** [Object.keys(requestBody).reduce(...)]: ["#key"] names [key]. *)
Definition expressionAttributeNames (requestBody : JValue) : Exc (list (string * string)) :=
  keys ← Object_keys requestBody;
  Ok (foldl (fun obj key => obj_set obj ("#" +:+ key) key) [] keys).

Definition attributes_value (a : option (list (string * JValue))) : JValue :=
  match a with
  | Some fs => JObj fs
  | None => JUndefined
  end.

End Lambda.
Export Lambda.

(** ** updateUserTask.ts *)

Module updateUserTask.

Definition Key (userId taskId : string) : DynamoDB.Key :=
  ("USER#" +:+ userId, "TASK#" +:+ taskId).

Definition handler (env : Env) (event : Event) (s : Store) : Store * Exc Response :=
  let headers := "OPTIONS,PATCH" in
  match present (userId_header event) with
  | None => (s, Ok (reply 400 headers [("message", JStr "User ID is missing in the request headers")]))
  | Some userId =>
      if body_missing (body event)
      then (s, Ok (reply 400 headers [("message", JStr "Request body is missing")]))
      else
        match present (query_parameter event "taskId") with
        | None =>
            (s, Ok (reply 400 headers
                      [("message", JStr "Task ID is missing in the request query string parameters")]))
        | Some taskId =>
            match JSON_parse (body event) with
            | Throw e => (s, Throw e)
            | Ok requestBody =>
                match expressionAttributeNames requestBody with
                | Throw e => (s, Throw e)
                | Ok names =>
                    let params :=
                      {| UKey := Key userId taskId;
                         UpdateExpression := updateExpressionParts requestBody;
                         ExpressionAttributeNames := names;
                         ExpressionAttributeValues := expressionAttributeValues (now env) requestBody |} in
                    match docClient_update (table_name_or_empty env) params s with
                    | (s', Ok updatedTask) =>
                        (s', Ok (reply 200 headers
                                   [("message", JStr "Task updated successfully");
                                    ("data", attributes_value (Attributes updatedTask))]))
                    | (s', Throw error) =>
                        (s', Ok (reply 500 headers
                                   [("message", JStr "Error updating task");
                                    ("error", JStr (message error))]))
                    end
                end
            end
        end
  end.

End updateUserTask.

(** ** updateUserSettings.ts *)

Module updateUserSettings.

Definition Key (userId : string) : DynamoDB.Key :=
  ("USER#" +:+ userId, "SETTINGS#").

Definition handler (env : Env) (event : Event) (s : Store) : Store * Exc Response :=
  let headers := "OPTIONS,PATCH" in
  match present (userId_header event) with
  | None => (s, Ok (reply 400 headers [("message", JStr "User ID is missing in the request headers")]))
  | Some userId =>
      if body_missing (body event)
      then (s, Ok (reply 400 headers [("message", JStr "Request body is missing")]))
      else
        match JSON_parse (body event) with
        | Throw e => (s, Throw e)
        | Ok requestBody =>
            match expressionAttributeNames requestBody with
            | Throw e => (s, Throw e)
            | Ok names =>
                let params :=
                  {| UKey := Key userId;
                     UpdateExpression := updateExpressionParts requestBody;
                     ExpressionAttributeNames := names;
                     ExpressionAttributeValues := expressionAttributeValues (now env) requestBody |} in
                match docClient_update (table_name_or_empty env) params s with
                | (s', Ok updatedUser) =>
                    (s', Ok (reply 200 headers
                               [("message", JStr "User updated successfully");
                                ("data", attributes_value (Attributes updatedUser))]))
                | (s', Throw error) =>
                    (s', Ok (reply 500 headers
                               [("message", JStr "Error updating user");
                                ("error", JStr (message error))]))
                end
            end
        end
  end.

End updateUserSettings.

(** ** updateTaskNotification.ts *)

Module updateTaskNotification.

Definition Key (taskId notificationId : string) : DynamoDB.Key :=
  ("TASK#" +:+ taskId, "NOTIFICATION#" +:+ notificationId).

(** [...(response.Attributes?.k !== undefined && { k: response.Attributes.k })] *)
Definition returned_attribute (a : option (list (string * JValue))) (k : string)
  : list (string * JValue) :=
  match a with
  | Some fs =>
      match member (JObj fs) k with
      | JUndefined => []
      | v => [(k, v)]
      end
  | None => []
  end.

Definition handler (env : Env) (event : Event) (s : Store) : Store * Exc Response :=
  let headers := "OPTIONS,PATCH" in
  match present (userId_header event) with
  | None => (s, Ok (reply 400 headers [("message", JStr "User ID is missing in the request headers")]))
  | Some userId =>
      if body_missing (body event)
      then (s, Ok (reply 400 headers [("message", JStr "Request body is missing")]))
      else
        match present (query_parameter event "taskId") with
        | None =>
            (s, Ok (reply 400 headers
                      [("message", JStr "Task ID is missing in the request query string parameters")]))
        | Some taskId =>
            match present (query_parameter event "notificationId") with
            | None =>
                (s, Ok (reply 400 headers
                          [("message",
                            JStr "Notification ID is missing in the request query string parameters")]))
            | Some notificationId =>
                match JSON_parse (body event) with
                | Throw e => (s, Throw e)
                | Ok requestBody =>
                    match expressionAttributeNames requestBody with
                    | Throw e => (s, Throw e)
                    | Ok names =>
                        let params :=
                          {| UKey := Key taskId notificationId;
                             UpdateExpression := updateExpressionParts requestBody;
                             ExpressionAttributeNames := names;
                             ExpressionAttributeValues :=
                               expressionAttributeValues (now env) requestBody |} in
                        match docClient_update (table_name_or_empty env) params s with
                        | (s', Ok response) =>
                            let cleanedNotification :=
                              [("taskId", JStr taskId); ("notificationId", JStr notificationId)]
                              ++ returned_attribute (Attributes response) "notificationEnabled"
                              ++ returned_attribute (Attributes response) "reminderTimeBeforeDue"
                              ++ returned_attribute (Attributes response) "createdAt"
                              ++ returned_attribute (Attributes response) "updatedAt" in
                            (s', Ok (reply 200 headers
                                       [("message", JStr "Task notification updated successfully");
                                        ("data", JObj cleanedNotification)]))
                        | (s', Throw error) =>
                            (s', Ok (reply 500 headers
                                       [("message", JStr "Error updating task notification");
                                        ("error", JStr (message error))]))
                        end
                    end
                end
            end
        end
  end.

End updateTaskNotification.

(** ** createTaskNotification.ts *)

Module createTaskNotification.

Definition Key (userId taskId notificationId : string) : DynamoDB.Key :=
  ("USER#" +:+ userId, "TASK#" +:+ taskId +:+ "NOTIFICATION#" +:+ notificationId).

(** [a ?? b] *)
Definition coalesce (a b : JValue) : JValue := if nullish a then b else a.

Definition handler (env : Env) (event : Event) (s : Store) : Store * Exc Response :=
  let headers := "OPTIONS,POST" in
  match present (userId_header event) with
  | None => (s, Ok (reply 400 headers [("message", JStr "User ID is missing in the request headers")]))
  | Some userId =>
      if body_missing (body event)
      then (s, Ok (reply 400 headers [("message", JStr "Request body is missing")]))
      else
        match present (query_parameter event "taskId") with
        | None =>
            (s, Ok (reply 400 headers
                      [("message", JStr "Task ID is missing in the request query string parameters")]))
        | Some taskId =>
            let notificationId := uuidv4 env 0 in
            match
              requestBody ← JSON_parse (body event);
              notificationEnabled ← get requestBody "notificationEnabled";
              reminderTimeBeforeDue ← get requestBody "reminderTimeBeforeDue";
              Ok (coalesce notificationEnabled (JBool true), reminderTimeBeforeDue)
            with
            | Throw e => (s, Throw e)
            | Ok (notificationEnabled, reminderTimeBeforeDue) =>
                let currentTime := now env in
                let key := Key userId taskId notificationId in
                let Item :=
                  [("pk", JStr key.1); ("sk", JStr key.2);
                   ("notificationEnabled", notificationEnabled);
                   ("reminderTimeBeforeDue", reminderTimeBeforeDue);
                   ("createdAt", JNum currentTime);
                   ("updatedAt", JNum currentTime)] in
                match docClient_put (table_name_or_empty env) Item s with
                | (s', Ok _) =>
                    let cleanedNotifications :=
                      [("taskId", JStr taskId);
                       ("notificationId", JStr notificationId);
                       ("notificationEnabled", notificationEnabled);
                       ("reminderTimeBeforeDue", reminderTimeBeforeDue);
                       ("createdAt", JNum currentTime);
                       ("updatedAt", JNum currentTime)] in
                    (s', Ok (reply 200 headers
                               [("message", JStr "Task notification created successfully");
                                ("data", JObj cleanedNotifications)]))
                | (s', Throw error) =>
                    (s', Ok (reply 500 headers
                               [("message", JStr "Error creating task notification");
                                ("error", JStr (message error))]))
                end
            end
        end
  end.

End createTaskNotification.

(** ** deleteTaskNotification.ts *)

Module deleteTaskNotification.

Definition Key (userId taskId notificationId : string) : DynamoDB.Key :=
  ("USER#" +:+ userId, "TASK#" +:+ taskId +:+ "NOTIFICATION#" +:+ notificationId).

Definition handler (env : Env) (event : Event) (s : Store) : Store * Exc Response :=
  let headers := "OPTIONS,DELETE" in
  match present (userId_header event) with
  | None => (s, Ok (reply 400 headers [("message", JStr "User ID is missing in the request headers")]))
  | Some userId =>
      match present (query_parameter event "taskId") with
      | None =>
          (s, Ok (reply 400 headers
                    [("message", JStr "Task ID is missing in the request query string parameters")]))
      | Some taskId =>
          match present (query_parameter event "notificationId") with
          | None =>
              (s, Ok (reply 400 headers
                        [("message",
                          JStr "Notification ID is missing in the request query string parameters")]))
          | Some notificationId =>
              match docClient_delete (table_name_or_empty env) (Key userId taskId notificationId) s with
              | (s', Ok _) =>
                  (s', Ok (reply 200 headers
                             [("message", JStr "Task notification deleted successfully")]))
              | (s', Throw error) =>
                  (s', Ok (reply 500 headers
                             [("message", JStr "Error deleting task notification");
                              ("error", JStr (message error))]))
              end
          end
      end
  end.

End deleteTaskNotification.

(** ** createUserTask.ts *)

Module createUserTask.

Definition taskKey (userId taskId : string) : DynamoDB.Key :=
  ("USER#" +:+ userId, "TASK#" +:+ taskId).

(** The [Item] of [taskParams]. *)
Definition taskItem (userId taskId : string) (currentTime : Z)
    (taskTitle taskNotes taskDueDate categoryId : JValue) : ItemObject :=
  [("pk", JStr ("USER#" +:+ userId));
   ("sk", JStr ("TASK#" +:+ taskId));
   ("taskTitle", taskTitle);
   ("taskCompleted", JBool false)]
  ++ spread_if taskNotes "taskNotes" taskNotes
  ++ spread_if taskDueDate "taskDueDate" taskDueDate
  ++ spread_if categoryId "categoryId" categoryId
  ++ [("createdAt", JNum currentTime);
      ("updatedAt", JNum currentTime)].

(** The keys of the selection map that pass [.filter((key) => notifications[key])]. *)
Definition selected (notifications : JValue) (keys : list string) : list string :=
  filter (fun key => Is_true (truthy (member notifications key))) keys.

(** One element of [notificationItems]; [i] counts the calls to [uuidv4()]
    made by [.map] before this one. *)
Definition notificationItem (env : Env) (userId taskId : string) (currentTime : Z)
    (i : nat) (reminderTime : string) : ItemObject :=
  [("pk", JStr ("USER#" +:+ userId));
   ("sk", JStr ("TASK#" +:+ taskId +:+ "NOTIFICATION#" +:+ uuidv4 env (S i)));
   ("notificationEnabled", JBool true);
   ("reminderTimeBeforeDue", parseInt reminderTime);
   ("createdAt", JNum currentTime);
   ("updatedAt", JNum currentTime)].

Definition notificationItems (env : Env) (userId taskId : string) (currentTime : Z)
    (notifications : JValue) (keys : list string) : list ItemObject :=
  imap (notificationItem env userId taskId currentTime) (selected notifications keys).

(** [(cond ? a : b)] *)
Definition if_truthy (c a b : JValue) : JValue := if truthy c then a else b.

(** One element of [cleanedNotifications]. *)
Definition cleanedNotification (taskId : string) (notification : ItemObject) : JValue :=
  let field := member (JObj notification) in
  JObj
    [("notificationId",
      match field "sk" with
      | JStr sk => default JUndefined (JStr <$> split "NOTIFICATION#" sk !! 1%nat)
      | _ => JUndefined
      end);
     ("taskId", JStr taskId);
     ("notificationEnabled", field "notificationEnabled");
     ("reminderTimeBeforeDue", field "reminderTimeBeforeDue");
     ("createdAt", field "createdAt");
     ("updatedAt", field "updatedAt")].

(** Everything the handler reads from the parsed body before it enters the
    [try] block. *)
Record Parsed := {
  requestBody : JValue;
  taskTitle : JValue;
  taskNotes : JValue;
  taskDueDate : JValue;
  categoryId : JValue;
  notifications : JValue;
  keys : list string
}.

Definition parse (b : Body) : Exc Parsed :=
  requestBody ← JSON_parse b;
  taskTitle ← get requestBody "taskTitle";
  taskNotes ← get requestBody "taskNotes";
  taskDueDate ← get requestBody "taskDueDate";
  categoryId ← get requestBody "categoryId";
  notifications ← get requestBody "defaultNotifications";
  keys ← Object_keys notifications;
  Ok {| requestBody := requestBody; taskTitle := taskTitle; taskNotes := taskNotes;
        taskDueDate := taskDueDate; categoryId := categoryId;
        notifications := notifications; keys := keys |}.

Definition handler (env : Env) (event : Event) (s : Store) : Store * Exc Response :=
  match present (TABLE_NAME env) with
  | None =>
      (s, Ok {| statusCode := 500; responseHeaders := None;
                responseBody := JObj [("message", JStr "Table name not set")] |})
  | Some TABLE_NAME =>
      let headers := "OPTIONS,POST" in
      match present (userId_header event) with
      | None =>
          (s, Ok (reply 400 headers [("message", JStr "User ID is missing in the request headers")]))
      | Some userId =>
          if body_missing (body event)
          then (s, Ok (reply 400 headers [("message", JStr "Request body is missing")]))
          else
            let taskId := uuidv4 env 0 in
            match parse (body event) with
            | Throw e => (s, Throw e)
            | Ok p =>
                let currentTime := now env in
                let Item :=
                  taskItem userId taskId currentTime
                    (taskTitle p) (taskNotes p) (taskDueDate p) (categoryId p) in
                let notificationItems :=
                  notificationItems env userId taskId currentTime (notifications p) (keys p) in
                let failed s' (error : JsError) :=
                  (s', Ok (reply 500 headers
                             [("message", JStr "Error creating task and its notifications");
                              ("error", JStr (message error))])) in
                match docClient_put TABLE_NAME Item s with
                | (s1, Throw error) => failed s1 error
                | (s1, Ok _) =>
                    let writeRequests := PutRequest <$> notificationItems in
                    match docClient_batchWrite TABLE_NAME writeRequests s1 with
                    | (s2, Throw error) => failed s2 error
                    | (s2, Ok _) =>
                        let cleanedTask :=
                          [("taskId", JStr taskId);
                           ("taskTitle", taskTitle p);
                           ("taskCompleted", member (requestBody p) "taskCompleted");
                           ("taskNotes", if_truthy (taskNotes p) (taskNotes p) (JStr ""));
                           ("taskDueDate", if_truthy (taskDueDate p) (taskDueDate p) (JNum 0))]
                          ++ spread_if (categoryId p) "categoryId" (categoryId p)
                          ++ [("taskNotifications", member (requestBody p) "taskNotifications");
                              ("createdAt", JNum currentTime);
                              ("updatedAt", JNum currentTime)] in
                        let cleanedNotifications :=
                          cleanedNotification taskId <$> notificationItems in
                        (s2, Ok (reply 200 headers
                                   [("message", JStr "Task and its notifications created successfully");
                                    ("data",
                                     JObj [("task", JObj cleanedTask);
                                           ("notifications", JArr cleanedNotifications)])]))
                    end
                end
            end
      end
  end.

End createUserTask.

(** ** deleteAccount.ts *)

Module deleteAccount.

(** [l.slice(i, j)] for [0 <= i <= j]. *)
Definition slice {A} (i j : nat) (l : list A) : list A := take (j - i) (drop i l).

(** [for (let i = 0; i < deleteRequests.length; i += 25)]: the argument of
    every [docClient.batchWrite] call of one page, from index [i] on. *)
Equations? batches (deleteRequests : list WriteRequest) (i : nat) : list (list WriteRequest)
    by wf (length deleteRequests - i)%nat lt :=
  batches deleteRequests i with decide (i < length deleteRequests)%nat => {
    | left _ := slice i (i + 25) deleteRequests :: batches deleteRequests (i + 25);
    | right _ := [] }.
Proof. lia. Qed.

(** [batchPromises.push(docClient.batchWrite(...))] for each batch: every
    request of the page is issued before any result is awaited. *)
Fixpoint issue (TableName : string) (bs : list (list WriteRequest)) (s : Store)
  : Store * list (Exc unit) :=
  match bs with
  | [] => (s, [])
  | b :: bs' =>
      let '(s1, r) := docClient_batchWrite TableName b s in
      let '(s2, rs) := issue TableName bs' s1 in
      (s2, r :: rs)
  end.

(** [await Promise.all(promises)]: throws the first rejection, if any. *)
Fixpoint Promise_all (rs : list (Exc unit)) : Exc unit :=
  match rs with
  | [] => Ok ()
  | Ok _ :: rs' => Promise_all rs'
  | Throw e :: _ => Throw e
  end.

Definition deleteRequest (item : DynamoDB.Key * gmap string JValue) : WriteRequest :=
  DeleteRequest (JStr item.1.1) (JStr item.1.2).

(** The body of the [do ... while] loop for one page. *)
Definition delete_page (TableName : string) (queryResult : QueryOutput) (s : Store)
  : Store * Exc unit :=
  match Items queryResult with
  | Some ((_ :: _) as items) =>
      let deleteRequests := deleteRequest <$> items in
      let '(s', batchPromises) := issue TableName (batches deleteRequests 0) s in
      (s', Promise_all batchPromises)
  | _ => (s, Ok ())
  end.

(** The [do ... while (lastEvaluatedKey)] loop; [fuel] bounds the number of
    pages fetched and [None] means it ran out. *)
Fixpoint paginate (fuel : nat) (TableName pk : string) (lastEvaluatedKey : option DynamoDB.Key)
    (s : Store) : option (Store * Exc unit) :=
  match fuel with
  | O => None
  | S fuel' =>
      match docClient_query TableName pk lastEvaluatedKey s with
      | (s1, Throw e) => Some (s1, Throw e)
      | (s1, Ok queryResult) =>
          match delete_page TableName queryResult s1 with
          | (s2, Throw e) => Some (s2, Throw e)
          | (s2, Ok _) =>
              match LastEvaluatedKey queryResult with
              | Some k => paginate fuel' TableName pk (Some k) s2
              | None => Some (s2, Ok ())
              end
          end
      end
  end.

Definition handler (fuel : nat) (env : Env) (event : Event) (s : Store)
  : option (Store * Exc Response) :=
  let headers := "OPTIONS,DELETE" in
  match present (userId_header event) with
  | None =>
      Some (s, Ok (reply 400 headers [("message", JStr "User ID is missing in the request headers")]))
  | Some userId =>
      match paginate fuel (table_name_or_empty env) ("USER#" +:+ userId) None s with
      | None => None
      | Some (s', Ok _) =>
          Some (s', Ok (reply 200 headers [("message", JStr "User items deleted successfully")]))
      | Some (s', Throw error) =>
          Some (s', Ok (reply 500 headers
                          [("message", JStr "Error deleting user items");
                           ("error", JStr (message error))]))
      end
  end.

End deleteAccount.

(** ** lambdaAuthorizer.ts *)

Module lambdaAuthorizer.

Record PolicyStatement := {
  Action : string;
  Effect : string;
  Resource : string
}.

Record APIGatewayAuthorizerResult := {
  principalId : string;
  Version : string;
  Statement : list PolicyStatement
}.

(** The request authorizer event; [headers] may be null. *)
Record AuthorizerEvent := { headers : option (gmap string string) }.

(** [process.env] as the authorizer reads it. *)
Record AuthEnv := {
  AWS_REGION : option string;
  ACCOUNT_ID : option string;
  API_ID : option string
}.

(** A key of the remote key set: its key id and its public key. *)
Record SigningKey := { kid : string; getPublicKey : string }.

(** The decoded token, as far as the handler reads it. *)
Record JwtPayload := { sub : option string }.

Definition defaultDenyAllPolicy : APIGatewayAuthorizerResult :=
  {| principalId := "user";
     Version := "2012-10-17";
     Statement := [{| Action := "execute-api:Invoke"; Effect := "Deny"; Resource := "*" |}] |}.

Definition generatePolicyStatement (apiArn action : string) : PolicyStatement :=
  {| Action := "execute-api:Invoke"; Effect := action; Resource := apiArn |}.

Definition generatePolicy (principalId : string) (policyStatement : PolicyStatement)
  : APIGatewayAuthorizerResult :=
  {| principalId := principalId; Version := "2012-10-17"; Statement := [policyStatement] |}.

(** An environment variable inside a template string. *)
Definition interpolate (o : option string) : string := default "undefined" o.

Definition generateIAMPolicy (env : AuthEnv) : APIGatewayAuthorizerResult :=
  let policyStatement :=
    Some (generatePolicyStatement
            ("arn:aws:execute-api:" +:+ interpolate (AWS_REGION env) +:+ ":" +:+
             interpolate (ACCOUNT_ID env) +:+ ":" +:+ interpolate (API_ID env) +:+ "/*")
            "Allow") in
  match policyStatement with
  | None => defaultDenyAllPolicy
  | Some policyStatement => generatePolicy "user" policyStatement
  end.

Section Verifier.

(** What [client.getSigningKeys()] resolves to for the configured
    endpoint, and [jwt.verify(token, publicKey)]: signature and time-based
    claims are checked by the library. *)
Variable getSigningKeys : Exc (list SigningKey).
Variable jwt_verify : string → string → Exc JwtPayload.

Definition verifyAccessToken (accessToken : option string) : Exc JwtPayload :=
  key ← getSigningKeys;
  match key with
  | [] => Throw (TypeError "Cannot read properties of undefined (reading 'getPublicKey')")
  | key0 :: _ =>
      let signingKey := getPublicKey key0 in
      match accessToken with
      | None => Throw (mkError "JsonWebTokenError" "jwt must be provided")
      | Some accessToken => jwt_verify accessToken signingKey
      end
  end.

Definition handler (env : AuthEnv) (event : AuthorizerEvent) : Exc APIGatewayAuthorizerResult :=
  let Authorization := headers event ≫= fun h => h !! "Authorization" in
  let userId := headers event ≫= fun h => or_else (h !! "X-User-Id") (h !! "x-user-id") in
  if negb (truthy_str Authorization) || negb (truthy_str userId)
  then Throw (Error "Unauthorized")
  else
    let token := split " " (default "" Authorization) !! 1%nat in
    let authResponse :=
      match verifyAccessToken token with
      | Ok decoded =>
          if negb (bool_decide (userId = sub decoded))
          then Some defaultDenyAllPolicy
          else Some (generateIAMPolicy env)
      | Throw err => Some defaultDenyAllPolicy
      end in
    match authResponse with
    | None => Throw (Error "Unauthorized")
    | Some authResponse => Ok authResponse
    end.

End Verifier.

(** The decision a policy carries. *)
Definition allows (r : APIGatewayAuthorizerResult) : bool :=
  bool_decide (Effect <$> Statement r = ["Allow"]).

Definition denies (r : APIGatewayAuthorizerResult) : bool :=
  bool_decide (Effect <$> Statement r = ["Deny"]).

End lambdaAuthorizer.

(** ** Vocabulary of the properties *)

Module Spec.

(** The store answers and the handler addresses the table that exists. *)
Definition serving (env : Env) (s : Store) : Prop :=
  online s = true ∧ table_name_or_empty env = tableName s.

(** A body key that can be the target of a [SET] assignment next to the
    handler's own [updatedAt]: a non-empty run of name characters other than
    [updatedAt] and the two key attributes. *)
Definition field_name_ok (k : string) : bool :=
  negb (bool_decide (k = "")) && name_chars k
  && negb (bool_decide (k ∈ ["updatedAt"; "pk"; "sk"])).

(** A parsed body that the store accepts as a patch: it has at least one
    key, no key twice, every key is a field name and every value marshals
    (in particular every number in it is a safe integer). *)
Definition patch_ok (requestBody : JValue) : bool :=
  negb (bool_decide (own_keys requestBody = []))
  && bool_decide (NoDup (own_keys requestBody))
  && forallb field_name_ok (own_keys requestBody)
  && forallb (fun k => marshallable (member requestBody k)) (own_keys requestBody).

(** The assignments a patch amounts to: the clock reading for [updatedAt],
    then each field of the body. *)
Definition patch_sets (now : Z) (requestBody : JValue) : list (string * JValue) :=
  ("updatedAt", JNum now) :: ((fun k => (k, member requestBody k)) <$> own_keys requestBody).

(** The three update operations and, for each, the handler that serves it,
    the key it addresses and the request that selects it. *)
Inductive UpdateOp :=
| UpdateTask (userId taskId : string)
| UpdateSettings (userId : string)
| UpdateNotification (userId taskId notificationId : string).

Definition update_handler (op : UpdateOp) : Env → Event → Store → Store * Exc Response :=
  match op with
  | UpdateTask _ _ => updateUserTask.handler
  | UpdateSettings _ => updateUserSettings.handler
  | UpdateNotification _ _ _ => updateTaskNotification.handler
  end.

Definition addressed_key (op : UpdateOp) : DynamoDB.Key :=
  match op with
  | UpdateTask userId taskId => updateUserTask.Key userId taskId
  | UpdateSettings userId => updateUserSettings.Key userId
  | UpdateNotification _ taskId notificationId => updateTaskNotification.Key taskId notificationId
  end.


(** [event] is a request for [op] whose body parses to [requestBody]. *)
Definition update_request (op : UpdateOp) (event : Event) (requestBody : JValue) : Prop :=
  body event = Json requestBody ∧
  match op with
  | UpdateTask userId taskId =>
      present (userId_header event) = Some userId ∧
      present (query_parameter event "taskId") = Some taskId
  | UpdateSettings userId =>
      present (userId_header event) = Some userId
  | UpdateNotification userId taskId notificationId =>
      present (userId_header event) = Some userId ∧
      present (query_parameter event "taskId") = Some taskId ∧
      present (query_parameter event "notificationId") = Some notificationId
  end.

(** The key of a Notification in the data model: partition
    [USER#<userId>], sort key [TASK#<taskId>NOTIFICATION#<notificationId>]. *)
Definition notification_key (userId taskId notificationId : string) : DynamoDB.Key :=
  ("USER#" +:+ userId, "TASK#" +:+ taskId +:+ "NOTIFICATION#" +:+ notificationId).

(** The task entity inside the body of a create-task response. *)
Definition created_task (resp : Response) : JValue :=
  member (member (responseBody resp) "data") "task".

(** A decimal digit. *)
Definition is_digit (c : ascii) : Prop := 48 ≤ Z.of_nat (nat_of_ascii c) ≤ 57.

(** The number a string of decimal digits denotes; [None] for anything
    else. *)
Fixpoint numeral_from (acc : Z) (s : string) : option Z :=
  match s with
  | EmptyString => Some acc
  | String c s' =>
      let n := Z.of_nat (nat_of_ascii c) in
      if bool_decide (48 ≤ n ≤ 57) then numeral_from (acc * 10 + (n - 48)) s' else None
  end.

Definition numeral (s : string) : option Z :=
  match s with
  | EmptyString => None
  | _ => numeral_from 0 s
  end.

Definition is_bool (v : JValue) : bool :=
  match v with
  | JBool _ => true
  | _ => false
  end.

Definition is_true (v : JValue) : bool :=
  match v with
  | JBool true => true
  | _ => false
  end.

(** A default-notification selection map: no key twice, every key a
    decimal numeral of a safe integer, every value a boolean. *)
Definition selection_map (m : list (string * JValue)) : bool :=
  bool_decide (NoDup m.*1)
  && forallb (fun kv : string * JValue =>
                from_option safe_integer false (numeral kv.1) && is_bool kv.2) m.

(** The keys of a selection map whose value is true, in the map's order. *)
Definition chosen (m : list (string * JValue)) : list string :=
  (filter (fun kv : string * JValue => Is_true (is_true kv.2)) m).*1.

(** The calls of a cascade delete that fetches the given pages: each round
    is the query of a page, from the last key of the page before, followed
    by the batch deletions of that page. *)
Fixpoint rounds (pk : string) (start : option DynamoDB.Key)
    (pages : list (list (DynamoDB.Key * gmap string JValue))) : list Call :=
  match pages with
  | [] => []
  | page :: pages' =>
      CQuery pk start ::
      (CBatchWrite <$> deleteAccount.batches (deleteAccount.deleteRequest <$> page) 0)
      ++ rounds pk (fst <$> last page) pages'
  end.

(** A continuation token is behind every item still to be fetched. *)
Definition behind (start : option DynamoDB.Key) (l : list (DynamoDB.Key * gmap string JValue))
  : Prop :=
  match start with
  | None => True
  | Some k0 => Forall (fun x => String.ltb k0.2 x.1.2 = true) l
  end.

(** [ceil(n / 25)] *)
Definition batches_needed (n : nat) : nat := ((n + 24) / 25)%nat.

End Spec.
Export Spec.

(** ** Concrete requests used as examples *)

Module Scenario.

Definition env : Env :=
  {| TABLE_NAME := Some "DoneTable";
     now := 1700000000000;
     now_time_value := eq_refl;
     uuidv4 := fun i => "uuid-" +:+ pretty i |}.

Definition store (items : list (DynamoDB.Key * gmap string JValue)) : Store :=
  {| table := list_to_map items; tableName := "DoneTable"; online := true;
     pageLimit := 100; eagerToken := false; log := [] |}.

(** A request of user [u1] with the given query parameters and body. *)
Definition request (query : list (string * string)) (b : Body) : Event :=
  {| Lambda.headers := {[ "X-User-Id" := "u1" ]};
     queryStringParameters := Some (list_to_map query);
     body := b |}.

(** A task of user [u1] created at time 100. *)
Definition task_t1 : DynamoDB.Key * gmap string JValue :=
  (("USER#u1", "TASK#t1"),
   list_to_map [("taskTitle", JStr "Buy milk"); ("taskCompleted", JBool false);
                ("createdAt", JNum 100); ("updatedAt", JNum 100)]).

(** A table with sixty tasks of user [u1] and one item of user [u2], served
    in pages of forty items; and the same table served in pages of thirty
    items, each full page with a continuation token. *)
Definition crowded : Store :=
  {| table :=
       list_to_map
         ((("USER#u2", "SETTINGS#"), ∅) ::
          ((fun i : nat => (("USER#u1", "TASK#" +:+ pretty i), ∅)) <$> seq 0 60));
     tableName := "DoneTable"; online := true; pageLimit := 40; eagerToken := false;
     log := [] |}.

Definition crowded_eager : Store :=
  {| table := table crowded; tableName := "DoneTable"; online := true;
     pageLimit := 30; eagerToken := true; log := [] |}.

(** A key set with two keys, and a verifier for which the token [tok-k2]
    (subject [u1]) is signed by the second one: it verifies under that key's
    public key and under no other. *)
Definition key1 : lambdaAuthorizer.SigningKey :=
  {| lambdaAuthorizer.kid := "k1"; lambdaAuthorizer.getPublicKey := "pem-k1" |}.
Definition key2 : lambdaAuthorizer.SigningKey :=
  {| lambdaAuthorizer.kid := "k2"; lambdaAuthorizer.getPublicKey := "pem-k2" |}.

Definition jwt_verify (token publicKey : string) : Exc lambdaAuthorizer.JwtPayload :=
  if bool_decide (token = "tok-k2" ∧ publicKey = "pem-k2")
  then Ok {| lambdaAuthorizer.sub := Some "u1" |}
  else Throw (mkError "JsonWebTokenError" "invalid signature").

Definition auth_env : lambdaAuthorizer.AuthEnv :=
  {| lambdaAuthorizer.AWS_REGION := Some "eu-west-1";
     lambdaAuthorizer.ACCOUNT_ID := Some "123456789012";
     lambdaAuthorizer.API_ID := Some "api" |}.

Definition auth_request (hs : list (string * string)) : lambdaAuthorizer.AuthorizerEvent :=
  {| lambdaAuthorizer.headers := Some (list_to_map hs) |}.

End Scenario.

(** ** Reads of the document client *)

Module Reads.

(** [docClient.get]: the item under the key, if any.  [Item] holds its
    non-key attributes.  Reads are not entered in the history of requests. *)
Record GetOutput := { Item : option (gmap string JValue) }.

Definition docClient_get (TableName : string) (k : Key) (s : Store) : Exc GetOutput :=
  match accept_request TableName [] s with
  | Throw e => Throw e
  | Ok _ => Ok {| Item := table s !! k |}
  end.

(** The items of a partition whose sort key starts with [prefix], in
    sort-key order. *)
Definition starting_with (pk prefix : string) (t : gmap Key (gmap string JValue))
  : list (Key * gmap string JValue) :=
  filter (fun kv => Is_true (String.prefix prefix kv.1.2)) (partition pk t).

(** [docClient.query] with
    [KeyConditionExpression: "pk = :pk AND begins_with(sk, :sk)"] and no
    [ExclusiveStartKey]: the first page of the matching items. *)
Definition docClient_query_begins_with (TableName : string) (pk prefix : string) (s : Store)
  : Exc QueryOutput :=
  match accept_request TableName [] s with
  | Throw e => Throw e
  | Ok _ =>
      let rest := starting_with pk prefix (table s) in
      let page := take (pageLimit s) rest in
      Ok {| Items := Some page;
            LastEvaluatedKey := if final_page s rest then None else fst <$> last page |}
  end.

End Reads.

(** ** deleteUserTask.ts *)

Module deleteUserTask.

Definition Key (userId taskId : string) : DynamoDB.Key :=
  ("USER#" +:+ userId, "TASK#" +:+ taskId).

Definition handler (env : Env) (event : Event) (s : Store) : Store * Exc Response :=
  let headers := "OPTIONS,DELETE" in
  match present (TABLE_NAME env) with
  | None => (s, Ok (reply 500 headers [("message", JStr "Table name not set")]))
  | Some TABLE_NAME =>
      match present (userId_header event) with
      | None =>
          (s, Ok (reply 400 headers [("message", JStr "User ID is missing in the request headers")]))
      | Some userId =>
          match present (query_parameter event "taskId") with
          | None =>
              (s, Ok (reply 400 headers
                        [("message", JStr "Task ID is missing in the request query string parameters")]))
          | Some taskId =>
              match docClient_delete TABLE_NAME (Key userId taskId) s with
              | (s', Ok _) =>
                  (s', Ok (reply 200 headers [("message", JStr "Task deleted successfully")]))
              | (s', Throw error) =>
                  (s', Ok (reply 500 headers
                             [("message", JStr "Error deleting task");
                              ("error", JStr (message error))]))
              end
          end
      end
  end.

End deleteUserTask.

(** ** createUserCategory.ts *)

Module createUserCategory.

Definition Key (userId categoryId : string) : DynamoDB.Key :=
  ("USER#" +:+ userId, "CATEGORY#" +:+ categoryId).

Definition handler (env : Env) (event : Event) (s : Store) : Store * Exc Response :=
  let headers := "OPTIONS,POST" in
  match present (userId_header event) with
  | None => (s, Ok (reply 400 headers [("message", JStr "User ID is missing in the request headers")]))
  | Some userId =>
      if body_missing (body event)
      then (s, Ok (reply 400 headers [("message", JStr "Request body is missing")]))
      else
        let categoryId := uuidv4 env 0 in
        match
          requestBody ← JSON_parse (body event);
          get requestBody "categoryName"
        with
        | Throw e => (s, Throw e)
        | Ok categoryName =>
            let currentTime := now env in
            let key := Key userId categoryId in
            let Item :=
              [("pk", JStr key.1); ("sk", JStr key.2);
               ("categoryName", categoryName);
               ("createdAt", JNum currentTime);
               ("updatedAt", JNum currentTime)] in
            let cleanedUserCategories :=
              [("categoryId", JStr categoryId);
               ("categoryName", categoryName);
               ("createdAt", JNum currentTime);
               ("updatedAt", JNum currentTime)] in
            match docClient_put (table_name_or_empty env) Item s with
            | (s', Ok _) =>
                (s', Ok (reply 200 headers
                           [("data", JObj cleanedUserCategories);
                            ("message", JStr "Category created successfully")]))
            | (s', Throw error) =>
                (s', Ok (reply 500 headers
                           [("message", JStr "Error creating category");
                            ("error", JStr (message error))]))
            end
        end
  end.

End createUserCategory.

(** ** initializeUser.ts *)

Module initializeUser.

Definition Key (userId : string) : DynamoDB.Key := ("USER#" +:+ userId, "SETTINGS#").

(** The default settings of a new user. *)
Definition userSettings (currentTime : Z) : list (string * JValue) :=
  [("twelveHour", JBool true);
   ("enableNotifications", JBool true);
   ("displayEmail", JBool false);
   ("defaultNotifications",
    JObj [("5", JBool true); ("15", JBool true); ("30", JBool false);
          ("45", JBool false); ("60", JBool false)]);
   ("sortMode", JStr "category");
   ("createdAt", JNum currentTime);
   ("updatedAt", JNum currentTime)].

(** [item.k] on an item read from the table. *)
Definition attribute (item : gmap string JValue) (k : string) : JValue :=
  default JUndefined (item !! k).

(** [s.includes(sub)] *)
Fixpoint includes (sub s : string) : bool :=
  String.prefix sub s ||
  match s with
  | EmptyString => false
  | String _ s' => includes sub s'
  end.

(** [s.split(sep)[i]] *)
Definition part (sep s : string) (i : nat) : JValue :=
  default JUndefined (JStr <$> split sep s !! i).

(** [Item?.defaultNotifications[k]]: the read of [k] throws when the item
    has no [defaultNotifications]. *)
Definition defaultNotification (Item : option (gmap string JValue)) (k : string) : Exc JValue :=
  match Item with
  | None => Ok JUndefined
  | Some item => get (attribute item "defaultNotifications") k
  end.

Definition cleanedUserSettings (Item : option (gmap string JValue)) : Exc JValue :=
  let field k := from_option (fun item => attribute item k) JUndefined Item in
  n5 ← defaultNotification Item "5";
  n15 ← defaultNotification Item "15";
  n30 ← defaultNotification Item "30";
  n45 ← defaultNotification Item "45";
  n60 ← defaultNotification Item "60";
  Ok (JObj
        [("twelveHour", field "twelveHour");
         ("enableNotifications", field "enableNotifications");
         ("displayEmail", field "displayEmail");
         ("defaultNotifications",
          JObj [("5", n5); ("15", n15); ("30", n30); ("45", n45); ("60", n60)]);
         ("sortMode", field "sortMode");
         ("createdAt", field "createdAt");
         ("updatedAt", field "updatedAt")]).

Definition cleanedUserCategory (category : DynamoDB.Key * gmap string JValue) : JValue :=
  JObj
    [("categoryId", part "CATEGORY#" category.1.2 1);
     ("categoryName", attribute category.2 "categoryName");
     ("createdAt", attribute category.2 "createdAt");
     ("updatedAt", attribute category.2 "updatedAt")].

Definition cleanedUserTask (task : DynamoDB.Key * gmap string JValue) : JValue :=
  JObj
    [("taskId", part "TASK#" task.1.2 1);
     ("taskTitle", attribute task.2 "taskTitle");
     ("taskNotes",
      createUserTask.if_truthy (attribute task.2 "taskNotes") (attribute task.2 "taskNotes") (JStr ""));
     ("taskDueDate",
      createUserTask.if_truthy (attribute task.2 "taskDueDate") (attribute task.2 "taskDueDate") (JNum 0));
     ("taskCompleted", attribute task.2 "taskCompleted");
     ("categoryId", attribute task.2 "categoryId");
     ("createdAt", attribute task.2 "createdAt");
     ("updatedAt", attribute task.2 "updatedAt")].

Definition cleanedTaskNotification (notification : DynamoDB.Key * gmap string JValue)
  : Exc JValue :=
  match split "TASK#" notification.1.2 !! 1%nat with
  | None => Throw (TypeError "Cannot read properties of undefined (reading 'split')")
  | Some rest =>
      Ok (JObj
            [("notificationId", part "NOTIFICATION#" notification.1.2 1);
             ("taskId", part "NOTIFICATION#" rest 0);
             ("notificationEnabled", attribute notification.2 "notificationEnabled");
             ("reminderTimeBeforeDue", attribute notification.2 "reminderTimeBeforeDue");
             ("createdAt", attribute notification.2 "createdAt");
             ("updatedAt", attribute notification.2 "updatedAt")])
  end.

(** [(task) => task.sk.includes("NOTIFICATION#")] *)
Definition is_notification (item : DynamoDB.Key * gmap string JValue) : bool :=
  includes "NOTIFICATION#" item.1.2.

(** [Items?.map(f)] for an [f] that may throw. *)
Definition map_optional {A} (f : A → Exc JValue) (l : option (list A)) : Exc (option (list JValue)) :=
  match l with
  | Some l => l' ← mapM f l; Ok (Some l')
  | None => Ok None
  end.

(** An array that may be [undefined]. *)
Definition optional_array (l : option (list JValue)) : JValue :=
  match l with
  | Some l => JArr l
  | None => JUndefined
  end.

(** The [data] of the answer for a user whose settings exist, from the
    results of the three reads. *)
Definition userData (userSettings : Reads.GetOutput) (userCategories : QueryOutput)
    (userTasksAndNotifications : QueryOutput) : Exc JValue :=
  cleanedUserSettings ← cleanedUserSettings (Reads.Item userSettings);
  let cleanedUserCategories := (fun l : list _ => cleanedUserCategory <$> l) <$> Items userCategories in
  let filteredUserTasks :=
    filter (fun task => Is_true (negb (is_notification task))) <$> Items userTasksAndNotifications in
  let cleanedUserTasks := (fun l : list _ => cleanedUserTask <$> l) <$> filteredUserTasks in
  let filteredTaskNotifications :=
    filter (fun task => Is_true (is_notification task)) <$> Items userTasksAndNotifications in
  cleanedTaskNotifications ← map_optional cleanedTaskNotification filteredTaskNotifications;
  Ok (JObj
        [("userSettings", cleanedUserSettings);
         ("userCategories", optional_array cleanedUserCategories);
         ("userTasks", optional_array cleanedUserTasks);
         ("taskNotifications", optional_array cleanedTaskNotifications)]).

Definition handler (env : Env) (event : Event) (s : Store) : Store * Exc Response :=
  let headers := "OPTIONS,POST" in
  match present (TABLE_NAME env) with
  | None => (s, Ok (reply 500 headers [("message", JStr "Table name not set")]))
  | Some TABLE_NAME =>
      match present (userId_header event) with
      | None =>
          (s, Ok (reply 400 headers [("message", JStr "User ID is missing in the request headers")]))
      | Some userId =>
          let currentTime := now env in
          match Reads.docClient_get TABLE_NAME (Key userId) s with
          | Throw e => (s, Throw e)
          | Ok response =>
              match Reads.Item response with
              | None =>
                  let userSettings := userSettings currentTime in
                  let Item :=
                    [("pk", JStr ("USER#" +:+ userId)); ("sk", JStr "SETTINGS#")] ++ userSettings in
                  match docClient_put TABLE_NAME Item s with
                  | (s', Ok _) =>
                      (s', Ok (reply 200 headers
                                 [("message", JStr "User and settings created successfully");
                                  ("data",
                                   JObj [("userSettings", JObj userSettings);
                                         ("userCategories", JArr []);
                                         ("userTasks", JArr []);
                                         ("taskNotifications", JArr [])])]))
                  | (s', Throw error) =>
                      (s', Ok (reply 500 headers
                                 [("message", JStr "Error creating user and settings");
                                  ("error", JStr (message error))]))
                  end
              | Some _ =>
                  match
                    userSettings ← Reads.docClient_get TABLE_NAME (Key userId) s;
                    userCategories ←
                      Reads.docClient_query_begins_with TABLE_NAME ("USER#" +:+ userId) "CATEGORY#" s;
                    userTasksAndNotifications ←
                      Reads.docClient_query_begins_with TABLE_NAME ("USER#" +:+ userId) "TASK#" s;
                    userData userSettings userCategories userTasksAndNotifications
                  with
                  | Throw e => (s, Throw e)
                  | Ok data =>
                      (s, Ok (reply 200 headers
                                [("message", JStr "User data retrieved successfully");
                                 ("data", data)]))
                  end
              end
          end
      end
  end.

End initializeUser.

(** ** Vocabulary of the further properties *)

Module Listing.

(** A string in which the character [c] does not occur. *)
Fixpoint char_free (c : ascii) (s : string) : bool :=
  match s with
  | EmptyString => true
  | String a s' => negb (bool_decide (a = c)) && char_free c s'
  end.

(** The index of the first occurrence of [c] in [s], or the length of [s]. *)
Fixpoint first_index (c : ascii) (s : string) : nat :=
  match s with
  | EmptyString => 0
  | String a s' => if bool_decide (a = c) then 0 else S (first_index c s')
  end.

(** An identifier in which the key separator does not occur. *)
Definition hash_free (s : string) : bool := char_free "#" s.

(** A word of a header value: no space occurs in it. *)
Definition space_free (s : string) : bool := char_free " " s.

(** The body the front end sends when the due date of a task is changed. *)
Definition due_date_change (newDueDate : Z) : JValue := JObj [("newDueDate", JNum newDueDate)].

(** A store in which user [u1] has been initialized at time 100, next to
    the given items. *)
Definition initialized (items : list (DynamoDB.Key * gmap string JValue)) : Store :=
  Scenario.store
    ((initializeUser.Key "u1", list_to_map (initializeUser.userSettings 100)) :: items).

(** A notification of task [t1] of user [u1]. *)
Definition notification_n1 : DynamoDB.Key * gmap string JValue :=
  (notification_key "u1" "t1" "n1",
   list_to_map [("notificationEnabled", JBool true); ("reminderTimeBeforeDue", JNum 15);
                ("createdAt", JNum 100); ("updatedAt", JNum 100)]).

End Listing.
Export Listing.

(** * Properties *)

(** ** Guards and store primitives *)

Lemma accept_request_serving env s c vs :
  serving env s → forallb marshallable vs = true →
  accept_request (table_name_or_empty env) vs (record c s) = Ok ().
Proof.
  intros [Hon Hname] Hvs. unfold accept_request. rewrite Hvs. simpl.
  rewrite Hon. simpl. rewrite bool_decide_true by done. done.
Qed.

(** A clock reading marshals: time values are safe integers. *)
Lemma time_value_safe t : time_value t = true → safe_integer t = true.
Proof.
  unfold time_value, safe_integer, MIN_SAFE_INTEGER, MAX_SAFE_INTEGER.
  rewrite !andb_true_iff, !Z.leb_le. lia.
Qed.

Lemma now_marshallable env : marshallable (JNum (now env)) = true.
Proof. apply time_value_safe, now_time_value. Qed.

(** ** Objects built by assignment *)

Lemma obj_set_fresh {A} (o : list (string * A)) k v :
  k ∉ o.*1 → obj_set o k v = o ++ [(k, v)].
Proof.
  induction o as [|[k' v'] o IH]; simpl; [done|]. intros Hk.
  apply not_elem_of_cons in Hk as [Hne Hk].
  rewrite bool_decide_false by done. by rewrite IH.
Qed.

Lemma foldl_obj_set_fresh {A} (f : string → string) (g : string → A) keys base :
  Inj (=) (=) f → NoDup keys → (∀ k, k ∈ keys → f k ∉ base.*1) →
  foldl (fun o k => obj_set o (f k) (g k)) base keys = base ++ ((fun k => (f k, g k)) <$> keys).
Proof.
  intros Hinj. revert base. induction keys as [|k keys IH]; intros base Hnd Hfresh; simpl.
  - by rewrite app_nil_r.
  - apply NoDup_cons in Hnd as [Hk Hnd].
    rewrite obj_set_fresh by (apply Hfresh; left).
    rewrite IH; [by rewrite <- app_assoc|done|].
    intros k' Hk'. rewrite fmap_app. simpl. intros Hin.
    apply elem_of_app in Hin as [Hin|Hin].
    + by apply (Hfresh k'); [right|].
    + apply list_elem_of_singleton in Hin. apply Hinj in Hin. by subst.
Qed.

Lemma assoc_cons_ne {A} k k' (v : A) fs : k' ≠ k → assoc k ((k', v) :: fs) = assoc k fs.
Proof. intros. unfold assoc. simpl. by rewrite bool_decide_false. Qed.

Lemma assoc_cons_eq {A} k (v : A) fs : assoc k ((k, v) :: fs) = Some v.
Proof. unfold assoc. simpl. by rewrite bool_decide_true. Qed.

Lemma assoc_fmap {A} (f : string → string) (g : string → A) keys k :
  Inj (=) (=) f → k ∈ keys → assoc (f k) ((fun k => (f k, g k)) <$> keys) = Some (g k).
Proof.
  intros Hinj. induction keys as [|k' keys IH]; [by intros ?%elem_of_nil|].
  intros Hin. simpl. destruct (decide (k' = k)) as [->|Hne].
  - apply assoc_cons_eq.
  - rewrite assoc_cons_ne by (intros ?%Hinj; done).
    apply IH. by apply elem_of_cons in Hin as [->|].
Qed.

Lemma patch_ok_spec rb :
  patch_ok rb = true →
  own_keys rb ≠ [] ∧ NoDup (own_keys rb) ∧
  Forall (fun k => k ≠ "" ∧ name_chars k = true ∧ k ∉ ["updatedAt"; "pk"; "sk"]) (own_keys rb) ∧
  Forall (fun k => marshallable (member rb k) = true) (own_keys rb).
Proof.
  unfold patch_ok. rewrite !andb_true_iff, negb_true_iff, !bool_decide_eq_true, bool_decide_eq_false.
  intros [[[Hne Hnd] Hnames] Hvals]. repeat split; [done..| |].
  - apply Forall_forall. intros k Hk. rewrite forallb_forall in Hnames.
    specialize (Hnames k). rewrite <- list_elem_of_In in Hnames. specialize (Hnames Hk).
    unfold field_name_ok in Hnames.
    rewrite !andb_true_iff, !negb_true_iff, !bool_decide_eq_false in Hnames. tauto.
  - apply Forall_forall. intros k Hk. rewrite forallb_forall in Hvals.
    apply Hvals. by apply list_elem_of_In.
Qed.

Lemma own_keys_not_nullish rb : own_keys rb ≠ [] → nullish rb = false.
Proof. by destruct rb. Qed.

#[local] Instance String_inj c : Inj (=) (=) (String c).
Proof. by intros ?? [= ->]. Qed.

Lemma patch_names rb :
  patch_ok rb = true →
  expressionAttributeNames rb = Ok ((fun k => ("#" +:+ k, k)) <$> own_keys rb).
Proof.
  intros (Hne & Hnd & _)%patch_ok_spec. unfold expressionAttributeNames, Object_keys.
  rewrite own_keys_not_nullish by done. simpl.
  rewrite (foldl_obj_set_fresh (String "#") id); [done|apply _|done|].
  intros ??. apply not_elem_of_nil.
Qed.

Lemma patch_values now rb :
  patch_ok rb = true →
  expressionAttributeValues now rb =
  (":updatedAt", JNum now) :: ((fun k => (":" +:+ k, member rb k)) <$> own_keys rb).
Proof.
  intros (Hne & Hnd & Hnames & _)%patch_ok_spec. unfold expressionAttributeValues, for_in.
  rewrite (foldl_obj_set_fresh (String ":") (member rb)); [done|apply _|done|].
  intros k Hk. simpl. rewrite list_elem_of_singleton. intros [= ->].
  rewrite Forall_forall in Hnames. destruct (Hnames _ Hk) as (_ & _ & Hno).
  apply Hno. left.
Qed.

Lemma placeholder_cons c k : k ≠ "" → name_chars k = true → placeholder c (String c k) = true.
Proof.
  intros Hne Hk. unfold placeholder. rewrite bool_decide_true by done.
  rewrite bool_decide_false by done. by rewrite Hk.
Qed.

Lemma resolve_path_hash names k :
  resolve_path names (String "#" k) =
  if placeholder "#" (String "#" k) then assoc (String "#" k) names else None.
Proof. reflexivity. Qed.

Lemma patch_resolves key now rb :
  patch_ok rb = true →
  resolve_sets {| UKey := key;
                  UpdateExpression := updateExpressionParts rb;
                  ExpressionAttributeNames := (fun k => ("#" +:+ k, k)) <$> own_keys rb;
                  ExpressionAttributeValues :=
                    (":updatedAt", JNum now) :: ((fun k => (":" +:+ k, member rb k)) <$> own_keys rb) |}
  = Some (patch_sets now rb).
Proof.
  intros (Hne & Hnd & Hnames & _)%patch_ok_spec. unfold resolve_sets.
  cbn [UpdateExpression ExpressionAttributeNames ExpressionAttributeValues].
  apply mapM_Some. unfold updateExpressionParts, patch_sets, for_in.
  constructor; [done|].
  apply Forall2_fmap. apply Forall_Forall2_diag.
  rewrite Forall_forall in Hnames. apply Forall_forall. intros k Hk.
  destruct (Hnames _ Hk) as (Hk1 & Hk2 & Hk3). cbn [fst snd].
  change ("#" +:+ k) with (String "#" k). change (":" +:+ k) with (String ":" k).
  rewrite resolve_path_hash, (placeholder_cons "#") by done.
  rewrite (assoc_fmap (String "#") id) by (done || apply _). simpl.
  unfold resolve_value. rewrite (placeholder_cons ":") by done.
  rewrite assoc_cons_ne by (intros [= <-]; apply Hk3; left).
  by rewrite (assoc_fmap (String ":") (member rb)) by (done || apply _).
Qed.

Lemma patch_sets_targets now rb : (patch_sets now rb).*1 = "updatedAt" :: own_keys rb.
Proof.
  unfold patch_sets. simpl. f_equal. rewrite <- list_fmap_compose.
  by rewrite list_fmap_id.
Qed.

Lemma patch_validates key now rb :
  patch_ok rb = true →
  validate_update {| UKey := key;
                  UpdateExpression := updateExpressionParts rb;
                  ExpressionAttributeNames := (fun k => ("#" +:+ k, k)) <$> own_keys rb;
                  ExpressionAttributeValues :=
                    (":updatedAt", JNum now) :: ((fun k => (":" +:+ k, member rb k)) <$> own_keys rb) |}
  = Ok (patch_sets now rb).
Proof.
  intros Hok. pose proof Hok as (Hne & Hnd & Hnames & _)%patch_ok_spec.
  unfold validate_update. rewrite patch_resolves by done.
  cbn [ExpressionAttributeNames].
  rewrite bool_decide_false by (by destruct (own_keys rb)).
  rewrite patch_sets_targets.
  rewrite Forall_forall in Hnames.
  rewrite bool_decide_true.
  2:{ constructor; [|done]. intros Hin. destruct (Hnames _ Hin) as (_ & _ & Hno). apply Hno. left. }
  cbn [negb]. rewrite bool_decide_false; [done|].
  intros [Hin|Hin]; apply elem_of_cons in Hin as [?|Hin]; try done;
    destruct (Hnames _ Hin) as (_ & _ & Hno); apply Hno.
  - right; left.
  - right; right; left.
Qed.

Lemma patch_values_marshal env rb :
  patch_ok rb = true →
  forallb marshallable
    ((":updatedAt", JNum (now env)) :: ((fun k => (":" +:+ k, member rb k)) <$> own_keys rb)).*2
  = true.
Proof.
  intros (_ & _ & _ & Hvals)%patch_ok_spec.
  cbn [fmap list_fmap snd forallb]. rewrite now_marshallable. cbn [andb].
  apply forallb_forall. intros v Hv. apply list_elem_of_In in Hv.
  apply list_elem_of_fmap in Hv as ([k' v'] & -> & Hin).
  apply list_elem_of_fmap in Hin as (k & [= -> ->] & Hk).
  rewrite Forall_forall in Hvals. by apply Hvals.
Qed.

(** An accepted patch is an upsert of the addressed key. *)
Lemma docClient_update_patch env s key rb names :
  serving env s → patch_ok rb = true → expressionAttributeNames rb = Ok names →
  ∃ s',
    docClient_update (table_name_or_empty env)
      {| UKey := key;
         UpdateExpression := updateExpressionParts rb;
         ExpressionAttributeNames := names;
         ExpressionAttributeValues := expressionAttributeValues (now env) rb |} s
    = (s', Ok {| Attributes := None |}) ∧
    table s' = <[key := apply_sets (patch_sets (now env) rb) (default ∅ (table s !! key))]> (table s).
Proof.
  intros Hserv Hok Hnames. rewrite patch_names in Hnames by done. injection Hnames as <-.
  unfold docClient_update. cbn [ExpressionAttributeValues UKey].
  rewrite patch_values by done.
  rewrite accept_request_serving by (done || by apply patch_values_marshal).
  rewrite patch_validates by done. eexists. split; [reflexivity|]. done.
Qed.

Lemma update_request_accepted op env event s rb :
  serving env s → update_request op event rb → patch_ok rb = true →
  ∃ s' resp,
    update_handler op env event s = (s', Ok resp) ∧ statusCode resp = 200 ∧
    table s' =
      <[addressed_key op :=
          apply_sets (patch_sets (now env) rb) (default ∅ (table s !! addressed_key op))]> (table s).
Proof.
  intros Hserv [Hbody Hreq] Hok.
  destruct (expressionAttributeNames rb) as [names|e] eqn:Hnames;
    [|by rewrite patch_names in Hnames].
  destruct op as [userId taskId|userId|userId taskId notificationId]; simpl in Hreq |- *.
  - destruct Hreq as [Hu Ht].
    destruct (docClient_update_patch env s (updateUserTask.Key userId taskId) rb names)
      as (s' & Hup & Htab); [done..|].
    unfold updateUserTask.handler. rewrite Hu, Hbody, Ht. cbn [body_missing JSON_parse].
    rewrite Hnames, Hup. eauto.
  - destruct (docClient_update_patch env s (updateUserSettings.Key userId) rb names)
      as (s' & Hup & Htab); [done..|].
    unfold updateUserSettings.handler. rewrite Hreq, Hbody. cbn [body_missing JSON_parse].
    rewrite Hnames, Hup. eauto.
  - destruct Hreq as (Hu & Ht & Hn).
    destruct (docClient_update_patch env s (updateTaskNotification.Key taskId notificationId) rb names)
      as (s' & Hup & Htab); [done..|].
    unfold updateTaskNotification.handler. rewrite Hu, Hbody, Ht, Hn. cbn [body_missing JSON_parse].
    rewrite Hnames, Hup. eauto.
Qed.

Lemma apply_sets_lookup_notin sets (m : gmap string JValue) a :
  a ∉ sets.*1 → apply_sets sets m !! a = m !! a.
Proof.
  unfold apply_sets. revert m. induction sets as [|[a' v] sets IH]; intros m Ha; [done|].
  simpl in *. apply not_elem_of_cons in Ha as [Hne Ha].
  rewrite IH by done. by rewrite lookup_insert_ne.
Qed.

Lemma apply_sets_lookup_in sets (m : gmap string JValue) a v :
  NoDup sets.*1 → (a, v) ∈ sets → apply_sets sets m !! a = Some v.
Proof.
  unfold apply_sets. revert m. induction sets as [|[a' v'] sets IH]; intros m Hnd Hin.
  - by apply elem_of_nil in Hin.
  - simpl in *. apply NoDup_cons in Hnd as [Hfresh Hnd].
    apply elem_of_cons in Hin as [[= -> ->]|Hin].
    + pose proof (apply_sets_lookup_notin sets (<[a':=v']> m) a' Hfresh) as Hl.
      unfold apply_sets in Hl. rewrite Hl. apply lookup_insert_eq.
    + by apply IH.
Qed.
(** ** Updates of absent items *)

(** What an update answers depends on the request and on the health of the
    store, not on what the table holds. *)
Lemma docClient_update_answer TableName input s1 s2 :
  online s1 = online s2 → tableName s1 = tableName s2 →
  (docClient_update TableName input s1).2 = (docClient_update TableName input s2).2.
Proof.
  intros Hon Hname. unfold docClient_update, accept_request.
  cbn [online tableName record]. rewrite Hon, Hname.
  by repeat case_match.
Qed.

Lemma update_answer_ignores_table op env event s1 s2 :
  online s1 = online s2 → tableName s1 = tableName s2 →
  (update_handler op env event s1).2 = (update_handler op env event s2).2.
Proof.
  intros Hon Hname.
  destruct op; simpl;
    unfold updateUserTask.handler, updateUserSettings.handler, updateTaskNotification.handler;
    repeat (case_match; try done);
    match goal with
    | H1 : docClient_update ?tn ?input ?a = _, H2 : docClient_update ?tn ?input ?b = _ |- _ =>
        assert ((docClient_update tn input a).2 = (docClient_update tn input b).2) as Heq
          by (apply docClient_update_answer; congruence);
        rewrite H1, H2 in Heq; simpl in Heq |- *; congruence
    end.
Qed.

(** C1, as stated, fails: updating task [t1] of user [u1] in an empty table
    answers 200 and leaves a new item under the addressed key. *)
Lemma update_missing_task_counterexample :
  let event := Scenario.request [("taskId", "t1")] (Json (JObj [("taskTitle", JStr "x")])) in
  let s := Scenario.store [] in
  let key := updateUserTask.Key "u1" "t1" in
  let out := updateUserTask.handler Scenario.env event s in
  table s !! key = None ∧
  out.2 = Ok (reply 200 "OPTIONS,PATCH"
                [("message", JStr "Task updated successfully"); ("data", JUndefined)]) ∧
  table out.1 !! key =
    Some (list_to_map [("updatedAt", JNum 1700000000000); ("taskTitle", JStr "x")]).
Proof. repeat split; vm_compute; reflexivity. Qed.

(** C1, amended: for each of the three update operations, when no item
    exists under the addressed key and the store accepts the patch, the
    handler answers 200 and the table gains an item under that key made of
    [updatedAt] and the fields of the body; the answer is the one the
    handler gives whatever the table holds. *)
Theorem update_of_missing_item_creates_it op env event s requestBody :
  serving env s → update_request op event requestBody → patch_ok requestBody = true →
  table s !! addressed_key op = None →
  ∃ s' resp,
    update_handler op env event s = (s', Ok resp) ∧ statusCode resp = 200 ∧
    table s' = <[addressed_key op := apply_sets (patch_sets (now env) requestBody) ∅]> (table s) ∧
    (∃ item, table s' !! addressed_key op = Some item ∧
       item !! "updatedAt" = Some (JNum (now env)) ∧
       ∀ k, k ∈ own_keys requestBody → item !! k = Some (member requestBody k)) ∧
    (∀ s2, online s2 = online s → tableName s2 = tableName s →
           (update_handler op env event s2).2 = Ok resp).
Proof.
  intros Hserv Hreq Hok Hnone.
  destruct (update_request_accepted op env event s requestBody) as (s' & resp & Hrun & Hst & Htab);
    [done..|].
  rewrite Hnone in Htab. cbn [from_option id] in Htab.
  exists s', resp. split; [done|]. split; [done|]. split; [done|]. split.
  2:{ intros s2 Hon Hname. rewrite (update_answer_ignores_table op env event s2 s) by done.
      by rewrite Hrun. }
  eexists. rewrite Htab, lookup_insert_eq. split; [reflexivity|].
  pose proof Hok as (_ & Hnd & Hnames & _)%patch_ok_spec.
  assert (NoDup (patch_sets (now env) requestBody).*1) as Hnd'.
  { rewrite patch_sets_targets. constructor; [|done]. intros Hin.
    rewrite Forall_forall in Hnames. destruct (Hnames _ Hin) as (_ & _ & Hno).
    apply Hno. left. }
  split.
  - apply apply_sets_lookup_in; [done|]. left.
  - intros k Hk. apply apply_sets_lookup_in; [done|]. right.
    apply list_elem_of_fmap. by exists k.
Qed.

Lemma update_of_missing_item_witness :
  let op := UpdateNotification "u1" "t1" "n1" in
  let event :=
    Scenario.request [("taskId", "t1"); ("notificationId", "n1")]
      (Json (JObj [("notificationEnabled", JBool false)])) in
  ∃ s' resp,
    update_handler op Scenario.env event (Scenario.store []) = (s', Ok resp) ∧
    statusCode resp = 200 ∧
    table s' =
      <[addressed_key op :=
          apply_sets (patch_sets (now Scenario.env) (JObj [("notificationEnabled", JBool false)])) ∅]>
        (table (Scenario.store [])) ∧
    (∃ item, table s' !! addressed_key op = Some item ∧
       item !! "updatedAt" = Some (JNum (now Scenario.env)) ∧
       ∀ k, k ∈ own_keys (JObj [("notificationEnabled", JBool false)]) →
            item !! k = Some (member (JObj [("notificationEnabled", JBool false)]) k)) ∧
    (∀ s2, online s2 = online (Scenario.store []) → tableName s2 = tableName (Scenario.store []) →
           (update_handler op Scenario.env event s2).2 = Ok resp).
Proof.
  apply (update_of_missing_item_creates_it (UpdateNotification "u1" "t1" "n1")).
  - split; reflexivity.
  - repeat split; reflexivity.
  - reflexivity.
  - reflexivity.
Defined.

(** ** Timestamps under update *)


(** The clock is read once per call: an update issued in the millisecond
    recorded in the item leaves [updatedAt] as it was. *)
Example update_in_the_same_millisecond :
  let env :=
    {| TABLE_NAME := Some "DoneTable"; now := 100; now_time_value := eq_refl;
       uuidv4 := uuidv4 Scenario.env |} in
  let event := Scenario.request [("taskId", "t1")] (Json (JObj [("taskTitle", JStr "Buy oat milk")])) in
  let s := Scenario.store [Scenario.task_t1] in
  let key := updateUserTask.Key "u1" "t1" in
  let out := updateUserTask.handler env event s in
  (table s !! key ≫= fun item => item !! "updatedAt") = Some (JNum 100) ∧
  (table out.1 !! key ≫= fun item => item !! "updatedAt") = Some (JNum 100).
Proof. repeat split; vm_compute; reflexivity. Qed.



(** ** Deleting a notification *)

Lemma docClient_delete_serving env s k :
  serving env s →
  docClient_delete (table_name_or_empty env) k s
  = (with_table (delete k (table s)) (record (CDelete k) s), Ok ()).
Proof.
  intros Hserv. unfold docClient_delete.
  by rewrite accept_request_serving.
Qed.

(** C7, as stated, fails: deleting a notification that does not exist
    answers 200 with a success message. *)
Lemma delete_missing_notification_counterexample :
  let event := Scenario.request [("taskId", "t1"); ("notificationId", "n1")] NoBody in
  let s := Scenario.store [Scenario.task_t1] in
  let out := deleteTaskNotification.handler Scenario.env event s in
  table s !! deleteTaskNotification.Key "u1" "t1" "n1" = None ∧
  out.2 = Ok (reply 200 "OPTIONS,DELETE"
                [("message", JStr "Task notification deleted successfully")]).
Proof. split; vm_compute; reflexivity. Qed.

(** C7, amended: deleting a notification for which no item exists leaves
    the table unchanged and answers 200, the answer the handler gives
    whatever the table holds. *)
Theorem delete_of_missing_notification env event s userId taskId notificationId :
  serving env s →
  present (userId_header event) = Some userId →
  present (query_parameter event "taskId") = Some taskId →
  present (query_parameter event "notificationId") = Some notificationId →
  table s !! deleteTaskNotification.Key userId taskId notificationId = None →
  let out := deleteTaskNotification.handler env event s in
  out.2 = Ok (reply 200 "OPTIONS,DELETE"
                [("message", JStr "Task notification deleted successfully")]) ∧
  table out.1 = table s ∧
  (∀ s2, serving env s2 → (deleteTaskNotification.handler env event s2).2 = out.2).
Proof.
  intros Hserv Hu Ht Hn Hnone. unfold deleteTaskNotification.handler.
  rewrite Hu, Ht, Hn, docClient_delete_serving by done. simpl.
  split; [done|]. split; [by apply delete_id|].
  intros s2 Hserv2. by rewrite docClient_delete_serving.
Qed.

Lemma delete_of_missing_notification_witness :
  let event := Scenario.request [("taskId", "t1"); ("notificationId", "n1")] NoBody in
  let s := Scenario.store [Scenario.task_t1] in
  let out := deleteTaskNotification.handler Scenario.env event s in
  out.2 = Ok (reply 200 "OPTIONS,DELETE"
                [("message", JStr "Task notification deleted successfully")]) ∧
  table out.1 = table s ∧
  (∀ s2, serving Scenario.env s2 →
         (deleteTaskNotification.handler Scenario.env event s2).2 = out.2).
Proof.
  apply (delete_of_missing_notification _ _ _ "u1" "t1" "n1").
  - split; reflexivity.
  - reflexivity.
  - reflexivity.
  - reflexivity.
  - reflexivity.
Defined.

(** ** The key of a notification *)

(** C3 fails on the update path: create and delete address a notification
    under the key of the data model, update addresses another key, whatever
    the identifiers. *)
Theorem notification_update_key_differs userId taskId notificationId :
  createTaskNotification.Key userId taskId notificationId
    = notification_key userId taskId notificationId ∧
  deleteTaskNotification.Key userId taskId notificationId
    = notification_key userId taskId notificationId ∧
  updateTaskNotification.Key taskId notificationId
    ≠ notification_key userId taskId notificationId.
Proof. repeat split. intros [=]. Qed.

(** A notification created through the API and then updated with the
    identifiers the API returned: the stored notification keeps its value and
    the update lands on an item of its own. *)
Example update_misses_the_created_notification :
  let created :=
    createTaskNotification.handler Scenario.env
      (Scenario.request [("taskId", "t1")] (Json (JObj [("reminderTimeBeforeDue", JNum 15)])))
      (Scenario.store []) in
  let updated :=
    updateTaskNotification.handler Scenario.env
      (Scenario.request [("taskId", "t1"); ("notificationId", "uuid-0")]
         (Json (JObj [("notificationEnabled", JBool false)])))
      created.1 in
  member (member (default JNull (responseBody <$> match created.2 with Ok r => Some r | _ => None end))
            "data") "notificationId" = JStr "uuid-0" ∧
  table updated.1 !! notification_key "u1" "t1" "uuid-0"
    = table created.1 !! notification_key "u1" "t1" "uuid-0" ∧
  (table updated.1 !! notification_key "u1" "t1" "uuid-0" ≫= fun item => item !! "notificationEnabled")
    = Some (JBool true) ∧
  (table updated.1 !! ("TASK#t1", "NOTIFICATION#uuid-0") ≫= fun item => item !! "notificationEnabled")
    = Some (JBool false).
Proof. repeat split; vm_compute; reflexivity. Qed.

(** ** Errors thrown before the [try] block *)

(** C9 fails on create-task: with the table name configured and the identity
    header present, a body that is not JSON, or a JSON object without
    [defaultNotifications], makes the handler throw; nothing is written. *)
Theorem create_task_throws_outside_try env event s tableName userId :
  present (TABLE_NAME env) = Some tableName →
  present (userId_header event) = Some userId →
  body event = Malformed ∨
  (∃ fields, body event = Json (JObj fields) ∧ assoc "defaultNotifications" fields = None) →
  ∃ e, createUserTask.handler env event s = (s, Throw e).
Proof.
  intros Htn Hu Hbody. unfold createUserTask.handler. rewrite Htn, Hu.
  destruct Hbody as [->|(fields & -> & Hnone)]; simpl; [eauto|].
  unfold createUserTask.parse. simpl. rewrite Hnone. simpl. eauto.
Qed.

Lemma create_task_throws_witness :
  ∃ e, createUserTask.handler Scenario.env
         (Scenario.request [] (Json (JObj [("taskTitle", JStr "Buy milk")])))
         (Scenario.store [])
       = (Scenario.store [], Throw e).
Proof.
  apply (create_task_throws_outside_try _ _ _ "DoneTable" "u1").
  - reflexivity.
  - reflexivity.
  - right. eexists. split; reflexivity.
Defined.

(** The kinds of the thrown errors, evaluated. *)
Example create_task_without_selection_map :
  match (createUserTask.handler Scenario.env
           (Scenario.request [] (Json (JObj [("taskTitle", JStr "Buy milk")])))
           (Scenario.store [])).2 with
  | Throw e => name e = "TypeError"
  | Ok _ => False
  end.
Proof. vm_compute; reflexivity. Qed.

Example update_task_with_malformed_body :
  match (updateUserTask.handler Scenario.env
           (Scenario.request [("taskId", "t1")] Malformed)
           (Scenario.store [Scenario.task_t1])).2 with
  | Throw e => name e = "SyntaxError"
  | Ok _ => False
  end.
Proof. vm_compute; reflexivity. Qed.

(** ** What a write leaves behind *)

Lemma docClient_put_log TableName Item s :
  log (docClient_put TableName Item s).1 = log s ++ [CPut Item].
Proof. unfold docClient_put. repeat case_match; reflexivity. Qed.

Lemma docClient_batchWrite_log TableName requests s :
  log (docClient_batchWrite TableName requests s).1 = log s ++ [CBatchWrite requests].
Proof. unfold docClient_batchWrite. repeat case_match; reflexivity. Qed.

Lemma docClient_put_Ok TableName Item s s' u :
  docClient_put TableName Item s = (s', Ok u) →
  ∃ k, item_key Item = Some k ∧ table s' = <[k := item_attrs Item]> (table s).
Proof.
  unfold docClient_put. repeat case_match; intros [= <-]; try done. eauto.
Qed.

Lemma docClient_batchWrite_Ok TableName requests s s' u :
  docClient_batchWrite TableName requests s = (s', Ok u) →
  ∃ keys, mapM request_key requests = Some keys ∧ NoDup keys ∧
          table s' = foldl apply_request (table s) requests.
Proof.
  unfold docClient_batchWrite. repeat case_match; intros [= <-]; try done.
  eexists. split; [done|]. split; [|done].
  match goal with H : negb (bool_decide _) = false |- _ =>
    apply negb_false_iff, bool_decide_eq_true in H; exact H end.
Qed.

(** A batch leaves alone every key it does not name. *)
Lemma foldl_apply_request_other (requests : list WriteRequest) (keys : list DynamoDB.Key)
    (t : gmap DynamoDB.Key (gmap string JValue)) (k : DynamoDB.Key) :
  mapM request_key requests = Some keys → k ∉ keys →
  foldl apply_request t requests !! k = t !! k.
Proof.
  revert keys t. induction requests as [|r requests IH]; intros keys t Hkeys Hk; [done|].
  rewrite mapM_Some in Hkeys. inversion Hkeys as [|? k' ? keys' Hr Hrest]; subst.
  apply not_elem_of_cons in Hk as [Hne Hk]. cbn [foldl].
  rewrite (IH keys') by (by rewrite ?mapM_Some).
  destruct r; unfold apply_request; rewrite Hr;
    [by rewrite lookup_insert_ne|by rewrite lookup_delete_ne].
Qed.

(** ** The completion flag of a created task *)

Lemma append_neq_self (s x : string) : x ≠ "" → s +:+ x ≠ s.
Proof.
  intros Hx. induction s as [|c s IH]; simpl; [done|]. intros [= H]. by apply IH.
Qed.

Lemma taskItem_key userId taskId currentTime taskTitle taskNotes taskDueDate categoryId :
  item_key (createUserTask.taskItem userId taskId currentTime taskTitle taskNotes taskDueDate categoryId)
  = Some (createUserTask.taskKey userId taskId).
Proof. reflexivity. Qed.

Lemma taskItem_stored_taskCompleted userId taskId currentTime taskTitle taskNotes taskDueDate categoryId :
  item_attrs
    (createUserTask.taskItem userId taskId currentTime taskTitle taskNotes taskDueDate categoryId)
    !! "taskCompleted" = Some (JBool false).
Proof.
  unfold item_attrs, createUserTask.taskItem.
  rewrite !lookup_delete_ne by done. rewrite <- !app_comm_cons.
  cbn [list_to_map foldr fst snd uncurry curry].
  rewrite !lookup_insert_ne by done. apply lookup_insert_eq.
Qed.

Lemma notification_request_keys env userId taskId currentTime notifications keys :
  mapM request_key
    (PutRequest <$> createUserTask.notificationItems env userId taskId currentTime notifications keys)
  = Some (imap (fun i _ => notification_key userId taskId (uuidv4 env (S i)))
               (createUserTask.selected notifications keys)).
Proof.
  unfold createUserTask.notificationItems.
  generalize (createUserTask.selected notifications keys) as l.
  intros l. apply mapM_Some. rewrite Forall2_fmap_l.
  apply Forall2_same_length_lookup_2; [by rewrite !length_imap|].
  intros i it k. rewrite !list_lookup_imap.
  destruct (l !! i); simpl; [|done]. by intros [= <-] [= <-].
Qed.

#[local] Instance CPut_inj : Inj (=) (=) CPut.
Proof. by intros ?? [=]. Qed.

(** Whatever the request says, a task item put by the create-task handler
    has [taskCompleted] false; on a 200 answer the stored task has
    [taskCompleted] false while the task in the response carries the
    request's [taskCompleted]. *)
Lemma create_task_puts_uncompleted env event s :
  let out := createUserTask.handler env event s in
  (∃ calls, log out.1 = log s ++ calls ∧
            ∀ Item, CPut Item ∈ calls → member (JObj Item) "taskCompleted" = JBool false) ∧
  (∀ resp, out.2 = Ok resp → statusCode resp = 200 →
     ∃ userId requestBody item,
       present (userId_header event) = Some userId ∧
       body event = Json requestBody ∧
       table out.1 !! createUserTask.taskKey userId (uuidv4 env 0) = Some item ∧
       item !! "taskCompleted" = Some (JBool false) ∧
       member (created_task resp) "taskCompleted" = member requestBody "taskCompleted").
Proof.
  unfold createUserTask.handler.
  destruct (present (TABLE_NAME env)) as [TABLE_NAME|]; simpl.
  2:{ split; [exists []; split; [by rewrite app_nil_r|by intros ? ?%elem_of_nil]|].
      intros resp [= <-]. done. }
  destruct (present (userId_header event)) as [userId|]; simpl.
  2:{ split; [exists []; split; [by rewrite app_nil_r|by intros ? ?%elem_of_nil]|].
      intros resp [= <-]. done. }
  destruct (body_missing (body event)) eqn:Hmissing; simpl.
  { split; [exists []; split; [by rewrite app_nil_r|by intros ? ?%elem_of_nil]|].
      intros resp [= <-]. done. }
  destruct (createUserTask.parse (body event)) as [p|e] eqn:Hparse; simpl.
  2:{ split; [exists []; split; [by rewrite app_nil_r|by intros ? ?%elem_of_nil]|].
      intros resp [=]. }
  set (Item := createUserTask.taskItem _ _ _ _ _ _ _).
  set (items := createUserTask.notificationItems _ _ _ _ _ _).
  pose proof (docClient_put_log TABLE_NAME Item s) as Hlog1.
  destruct (docClient_put TABLE_NAME Item s) as [s1 [[]|error]] eqn:Hput; simpl in Hlog1 |- *.
  2:{ split.
      - exists [CPut Item]. split; [done|]. intros ? ->%list_elem_of_singleton%(inj CPut).
        reflexivity.
      - intros resp [= <-]. done. }
  pose proof (docClient_batchWrite_log TABLE_NAME (PutRequest <$> items) s1) as Hlog2.
  destruct (docClient_batchWrite TABLE_NAME (PutRequest <$> items) s1) as [s2 [[]|error]] eqn:Hbatch;
    simpl in Hlog2 |- *.
  2:{ split.
      - exists [CPut Item; CBatchWrite (PutRequest <$> items)].
        split; [by rewrite Hlog2, Hlog1, <- app_assoc|].
        intros ? [->%(inj CPut)|Hin]%elem_of_cons; [reflexivity|].
        by apply list_elem_of_singleton in Hin.
      - intros resp [= <-]. done. }
  split.
  - exists [CPut Item; CBatchWrite (PutRequest <$> items)].
    split; [by rewrite Hlog2, Hlog1, <- app_assoc|].
    intros ? [->%(inj CPut)|Hin]%elem_of_cons; [reflexivity|].
    by apply list_elem_of_singleton in Hin.
  - intros resp [= <-] _.
    assert (∃ requestBody, body event = Json requestBody ∧ requestBody = createUserTask.requestBody p)
      as (requestBody & Hbody & ->).
    { unfold createUserTask.parse in Hparse. destruct (body event) as [| |v]; [done..|].
      exists v. split; [done|]. simpl in Hparse.
      repeat match type of Hparse with
             | context [get ?v ?k] => destruct (get v k); simpl in Hparse; [|done]
             | context [Object_keys ?v] => destruct (Object_keys v); simpl in Hparse; [|done]
             end.
      by injection Hparse as <-. }
    apply docClient_put_Ok in Hput as (k & Hk & Htab1).
    subst Item. rewrite taskItem_key in Hk. injection Hk as <-.
    apply docClient_batchWrite_Ok in Hbatch as (keys & Hkeys & _ & Htab2).
    subst items. rewrite notification_request_keys in Hkeys. injection Hkeys as <-.
    eexists userId, _, _. split; [done|]. split; [done|]. split; [|split].
    + rewrite Htab2, (foldl_apply_request_other _ _ _ _ (notification_request_keys _ _ _ _ _ _)).
      * rewrite Htab1. apply lookup_insert_eq.
      * intros (i & ? & [= H] & _)%elem_of_lookup_imap.
        by apply (append_neq_self (uuidv4 env 0) ("NOTIFICATION#" +:+ uuidv4 env (S i))).
    + apply taskItem_stored_taskCompleted.
    + reflexivity.
Qed.

(** A request on which the stored task and the returned task disagree. *)
Example created_task_disagrees_with_stored_task :
  let event :=
    Scenario.request []
      (Json (JObj [("taskTitle", JStr "Buy milk"); ("taskCompleted", JBool true);
                   ("defaultNotifications", JObj [("5", JBool true); ("15", JBool false)])])) in
  let out := createUserTask.handler Scenario.env event (Scenario.store []) in
  (statusCode <$> match out.2 with Ok r => Some r | _ => None end) = Some 200 ∧
  (created_task <$> match out.2 with Ok r => Some r | _ => None end)
     ≫= (fun t => Some (member t "taskCompleted")) = Some (JBool true) ∧
  (table out.1 !! createUserTask.taskKey "u1" "uuid-0" ≫= fun item => item !! "taskCompleted")
     = Some (JBool false).
Proof. repeat split; vm_compute; reflexivity. Qed.

(** ** The authorizer *)

Section Authorizer.

Import lambdaAuthorizer.

Variable getSigningKeys : Exc (list SigningKey).
Variable jwt_verify : string → string → Exc JwtPayload.
Variable env : AuthEnv.
Variable event : AuthorizerEvent.

Let Authorization : option string := headers event ≫= fun h => h !! "Authorization".
Let userId : option string :=
  headers event ≫= fun h => or_else (h !! "X-User-Id") (h !! "x-user-id").
Let token : option string := split " " (default "" Authorization) !! 1%nat.

Lemma allow_is_not_deny : generateIAMPolicy env ≠ defaultDenyAllPolicy.
Proof. intros [=]. Qed.

(** C2, amended: the authorizer returns the Allow policy exactly when both
    headers are present, the token verifies and its subject is the claimed
    user id; with both headers present, a verification failure or another
    subject returns the Deny policy; with a header missing the handler
    throws [Unauthorized] and returns no policy. *)
Theorem authorizer_decision :
  let result := handler getSigningKeys jwt_verify env event in
  let verified :=
    ∃ decoded, verifyAccessToken getSigningKeys jwt_verify token = Ok decoded ∧
               sub decoded = userId in
  (result = Ok (generateIAMPolicy env) ↔
     truthy_str Authorization = true ∧ truthy_str userId = true ∧ verified) ∧
  (result = Ok defaultDenyAllPolicy ↔
     truthy_str Authorization = true ∧ truthy_str userId = true ∧ ¬ verified) ∧
  (result = Throw (Error "Unauthorized") ↔
     truthy_str Authorization = false ∨ truthy_str userId = false) ∧
  allows (generateIAMPolicy env) = true ∧ denies defaultDenyAllPolicy = true.
Proof.
  cbv zeta. unfold handler. fold Authorization userId token.
  pose proof allow_is_not_deny as Hne.
  destruct (truthy_str Authorization) eqn:HA, (truthy_str userId) eqn:HU; simpl;
    try (split_and!; [naive_solver..|done|done]).
  destruct (verifyAccessToken getSigningKeys jwt_verify token) as [decoded|e] eqn:Hv.
  - destruct (decide (userId = sub decoded)) as [Heq|Hneq].
    + rewrite bool_decide_true by done. simpl.
      split_and!; [naive_solver..|done|done].
    + rewrite bool_decide_false by done. simpl.
      split_and!; [naive_solver..|done|done].
  - simpl. split_and!; [naive_solver..|done|done].
Qed.

(** The key used to verify is the first key of the set, whatever the
    token. *)
Lemma verifyAccessToken_first_key key0 keys accessToken :
  getSigningKeys = Ok (key0 :: keys) →
  verifyAccessToken getSigningKeys jwt_verify (Some accessToken)
  = jwt_verify accessToken (getPublicKey key0).
Proof. intros ->. reflexivity. Qed.

End Authorizer.

(** C2, as stated, fails: a request with no [Authorization] header is not
    answered with a Deny policy, the handler throws. *)
Lemma authorizer_missing_token_counterexample :
  lambdaAuthorizer.handler (Ok [Scenario.key1; Scenario.key2]) Scenario.jwt_verify
    Scenario.auth_env (Scenario.auth_request [("X-User-Id", "u1")])
  = Throw (Error "Unauthorized").
Proof. vm_compute; reflexivity. Qed.

(** C6 fails on a key set with more than one key: the token [tok-k2]
    verifies under the second key of the set, the handler verifies it under
    the first key and denies; with the same keys in the other order it
    allows. *)
Theorem authorizer_denies_token_of_second_key :
  let event := Scenario.auth_request [("Authorization", "Bearer tok-k2"); ("X-User-Id", "u1")] in
  Scenario.jwt_verify "tok-k2" (lambdaAuthorizer.getPublicKey Scenario.key2)
    = Ok {| lambdaAuthorizer.sub := Some "u1" |} ∧
  lambdaAuthorizer.verifyAccessToken (Ok [Scenario.key1; Scenario.key2]) Scenario.jwt_verify
    (Some "tok-k2")
    = Throw (mkError "JsonWebTokenError" "invalid signature") ∧
  lambdaAuthorizer.handler (Ok [Scenario.key1; Scenario.key2]) Scenario.jwt_verify
    Scenario.auth_env event
    = Ok lambdaAuthorizer.defaultDenyAllPolicy ∧
  lambdaAuthorizer.handler (Ok [Scenario.key2; Scenario.key1]) Scenario.jwt_verify
    Scenario.auth_env event
    = Ok (lambdaAuthorizer.generateIAMPolicy Scenario.auth_env).
Proof. repeat split; vm_compute; reflexivity. Qed.

(** ** Numerals under [parseInt] *)

Lemma digit_value_digit c :
  is_digit c → digit_value 10 c = Some (Z.of_nat (nat_of_ascii c) - 48).
Proof.
  intros Hc. unfold digit_value. rewrite bool_decide_true by done. simpl.
  rewrite bool_decide_true by (unfold is_digit in Hc; lia). done.
Qed.

Lemma digits_numeral_from s acc o n :
  default 0 o = acc → numeral_from acc s = Some n →
  digits 10 o s = match s with EmptyString => o | _ => Some n end.
Proof.
  revert acc o. induction s as [|c s IH]; intros acc o Hacc Hn; [done|].
  simpl in Hn |- *. case_bool_decide as Hc; [|done].
  rewrite digit_value_digit by done.
  rewrite (IH (acc * 10 + (Z.of_nat (nat_of_ascii c) - 48))); [|by rewrite Hacc|done].
  destruct s; [|done]. simpl in Hn. injection Hn as <-. by rewrite Hacc.
Qed.

Lemma numeral_from_head c s acc n : numeral_from acc (String c s) = Some n → is_digit c.
Proof. simpl. by case_bool_decide. Qed.

Lemma Number_of_safe n : safe_integer n = true → Number_of n = JNum n.
Proof.
  unfold safe_integer, MIN_SAFE_INTEGER, MAX_SAFE_INTEGER, Number_of.
  rewrite andb_true_iff, !Z.leb_le. intros [Hlo Hhi].
  assert ((Z.abs n <=? 2 ^ 53) = true) as ->; [|done].
  apply Z.leb_le. change (2 ^ 53) with 9007199254740992. lia.
Qed.

(** [parseInt] reads a decimal numeral of a safe integer as the number it
    denotes. *)
Lemma parseInt_numeral s n :
  numeral s = Some n → safe_integer n = true → parseInt s = JNum n.
Proof.
  destruct s as [|c s]; [done|]. unfold numeral. intros Hn Hsafe.
  pose proof (numeral_from_head _ _ _ _ Hn) as Hc.
  unfold parseInt.
  assert (skip_spaces (String c s) = String c s) as ->.
  { simpl. unfold is_space. rewrite bool_decide_false; [done|].
    unfold is_digit in Hc. lia. }
  assert (strip_sign (String c s) = (false, String c s)) as ->.
  { unfold strip_sign. rewrite !bool_decide_false; [done|..]; intros ->; by vm_compute in Hc. }
  assert (strip_radix (String c s) = (10, String c s)) as ->.
  { unfold strip_radix. destruct s as [|x s]; [done|].
    destruct (bool_decide (c = "0"%char)); [|done]. simpl.
    rewrite bool_decide_false; [done|].
    simpl in Hn. rewrite bool_decide_true in Hn by done.
    apply numeral_from_head in Hn. intros [->| ->]; vm_compute in Hn; intuition congruence. }
  rewrite (digits_numeral_from _ 0 None n) by done. by apply Number_of_safe.
Qed.

(** Beyond the safe integers [parseInt] gives the nearest Number. *)
Example parseInt_rounds :
  parseInt "15" = JNum 15 ∧
  parseInt "9007199254740991" = JNum 9007199254740991 ∧
  parseInt "9007199254740993" = JNum 9007199254740992 ∧
  parseInt "9007199254740995" = JNum 9007199254740996 ∧
  marshallable (parseInt "9007199254740993") = false.
Proof. repeat split; vm_compute; reflexivity. Qed.

(** ** Selection maps *)

Lemma assoc_NoDup {A} (l : list (string * A)) k v :
  NoDup l.*1 → (k, v) ∈ l → assoc k l = Some v.
Proof.
  induction l as [|[k' v'] l IH]; [by intros _ ?%elem_of_nil|].
  simpl. intros [Hk Hnd]%NoDup_cons [[= -> ->]|Hin]%elem_of_cons.
  - apply assoc_cons_eq.
  - rewrite assoc_cons_ne; [by apply IH|]. intros ->. apply Hk.
    apply list_elem_of_fmap. by exists (k, v).
Qed.

Lemma selection_map_spec m :
  selection_map m = true →
  NoDup m.*1 ∧
  Forall (fun kv : string * JValue =>
            (∃ n, numeral kv.1 = Some n ∧ safe_integer n = true) ∧ is_bool kv.2 = true) m.
Proof.
  unfold selection_map. rewrite andb_true_iff, bool_decide_eq_true. intros [Hnd Hall].
  split; [done|]. apply Forall_forall. intros kv Hkv.
  rewrite forallb_forall in Hall. specialize (Hall kv). rewrite <- list_elem_of_In in Hall.
  specialize (Hall Hkv). apply andb_true_iff in Hall as [H1 H2].
  destruct (numeral kv.1) as [n|]; [|done]. eauto.
Qed.

Lemma selected_fields notifications (l : list (string * JValue)) :
  (∀ kv, kv ∈ l → member notifications kv.1 = kv.2) →
  Forall (fun kv : string * JValue => is_bool kv.2 = true) l →
  createUserTask.selected notifications l.*1
  = (filter (fun kv : string * JValue => Is_true (is_true kv.2)) l).*1.
Proof.
  unfold createUserTask.selected.
  induction l as [|kv l IH]; intros Hmem Hall; [done|].
  apply Forall_cons in Hall as [Hb Hall].
  rewrite fmap_cons, !filter_cons, (Hmem kv) by left.
  rewrite IH by (done || intros; apply Hmem; by right).
  destruct (kv.2) as [| |[]| | | | | |]; done.
Qed.

(** The filter of the handler keeps the keys mapped to true. *)
Lemma selected_chosen m :
  selection_map m = true → createUserTask.selected (JObj m) m.*1 = chosen m.
Proof.
  intros [Hnd Hall]%selection_map_spec. apply selected_fields.
  - intros [k v] Hin. simpl. by rewrite (assoc_NoDup m k v).
  - eapply Forall_impl; [done|]. by intros ? [_ ?].
Qed.

(** ** Values that marshal *)

Lemma forallb_elem_of {A} (f : A → bool) l :
  forallb f l = true ↔ ∀ x, x ∈ l → f x = true.
Proof. rewrite forallb_forall. by setoid_rewrite list_elem_of_In. Qed.

Lemma member_marshallable fields k :
  marshallable (JObj fields) = true →
  member (JObj fields) k = JUndefined ∨ marshallable (member (JObj fields) k) = true.
Proof.
  simpl. intros Hall. unfold assoc.
  destruct (find _ fields) as [[k' v]|] eqn:Hfind; simpl; [|by left]. right.
  apply find_some in Hfind as [Hin _]. rewrite forallb_forall in Hall.
  by apply (Hall (k', v)).
Qed.

Lemma spread_if_marshallable c k :
  c = JUndefined ∨ marshallable c = true →
  forallb marshallable (spread_if c k c).*2 = true.
Proof.
  unfold spread_if. intros [->|Hc]; [done|]. destruct (truthy c); simpl; [|done].
  by rewrite Hc.
Qed.

Lemma taskItem_marshallable userId taskId currentTime fields :
  safe_integer currentTime = true →
  marshallable (JObj fields) = true →
  member (JObj fields) "taskTitle" ≠ JUndefined →
  forallb marshallable
    (createUserTask.taskItem userId taskId currentTime
       (member (JObj fields) "taskTitle") (member (JObj fields) "taskNotes")
       (member (JObj fields) "taskDueDate") (member (JObj fields) "categoryId")).*2 = true.
Proof.
  intros Hc Hjson Htitle. unfold createUserTask.taskItem.
  rewrite !fmap_app, !forallb_app.
  rewrite !spread_if_marshallable by (by apply member_marshallable).
  destruct (member_marshallable fields "taskTitle" Hjson) as [?|Ht]; [done|].
  generalize dependent (member (JObj fields) "taskTitle"). intros title _ Ht.
  simpl. by rewrite Ht, Hc.
Qed.

(** ** Notifications created with a task *)

Lemma append_inj_r (s x y : string) : s +:+ x = s +:+ y → x = y.
Proof. induction s as [|c s IH]; simpl; [done|]. intros [= H]. by apply IH. Qed.

Lemma notification_key_inj userId taskId :
  Inj (=) (=) (notification_key userId taskId).
Proof.
  intros a b [= H]. by do 3 apply append_inj_r in H.
Qed.

(** A put in a batch with distinct keys is what the table holds under its
    key afterwards. *)
Lemma foldl_apply_request_put (requests : list WriteRequest) (keys : list DynamoDB.Key)
    (t : gmap DynamoDB.Key (gmap string JValue)) i it (k : DynamoDB.Key) :
  mapM request_key requests = Some keys → NoDup keys →
  requests !! i = Some (PutRequest it) → keys !! i = Some k →
  foldl apply_request t requests !! k = Some (item_attrs it).
Proof.
  revert keys t i. induction requests as [|r requests IH]; intros keys t i Hkeys Hnd Hr Hk; [done|].
  rewrite mapM_Some in Hkeys. inversion Hkeys as [|? k' ? keys' Hr' Hrest]; subst.
  apply NoDup_cons in Hnd as [Hfresh Hnd]. cbn [foldl].
  destruct i as [|i]; simpl in Hr, Hk.
  - injection Hr as ->. injection Hk as ->.
    rewrite (foldl_apply_request_other requests keys') by (by rewrite ?mapM_Some).
    unfold apply_request. rewrite Hr'. apply lookup_insert_eq.
  - by apply (IH keys' _ i); rewrite ?mapM_Some.
Qed.

Lemma notificationItem_attrs env userId taskId currentTime i key minutes :
  numeral key = Some minutes → safe_integer minutes = true →
  let attrs := item_attrs (createUserTask.notificationItem env userId taskId currentTime i key) in
  attrs !! "reminderTimeBeforeDue" = Some (JNum minutes) ∧
  attrs !! "notificationEnabled" = Some (JBool true) ∧
  attrs !! "createdAt" = Some (JNum currentTime) ∧
  attrs !! "updatedAt" = Some (JNum currentTime).
Proof.
  intros Hn Hsafe. unfold item_attrs, createUserTask.notificationItem.
  rewrite (parseInt_numeral _ _ Hn Hsafe).
  cbn [list_to_map foldr fst snd uncurry curry].
  repeat split; rewrite !lookup_delete_ne by done;
    rewrite !lookup_insert_ne by done; apply lookup_insert_eq.
Qed.

Lemma notification_values_marshal env userId taskId currentTime m :
  safe_integer currentTime = true →
  selection_map m = true →
  forallb marshallable
    ((PutRequest <$> createUserTask.notificationItems env userId taskId currentTime (JObj m) m.*1)
       ≫= request_values) = true.
Proof.
  intros Hc Hm. pose proof Hm as [_ Hall]%selection_map_spec.
  unfold createUserTask.notificationItems. rewrite selected_chosen by done.
  apply forallb_elem_of. intros v (r & Hv & Hr)%list_elem_of_bind.
  apply list_elem_of_fmap in Hr as (it & -> & Hit).
  apply elem_of_lookup_imap in Hit as (i & key & -> & Hkey).
  assert (∃ minutes, numeral key = Some minutes ∧ safe_integer minutes = true)
    as (minutes & Hn & Hsafe).
  { apply list_elem_of_lookup_2 in Hkey. unfold chosen in Hkey.
    apply list_elem_of_fmap in Hkey as (kv & -> & Hkv).
    apply list_elem_of_filter in Hkv as [_ Hkv].
    rewrite Forall_forall in Hall. by apply Hall. }
  simpl in Hv. rewrite (parseInt_numeral _ _ Hn Hsafe) in Hv.
  repeat (apply elem_of_cons in Hv as [->|Hv]; [done|]). by apply elem_of_nil in Hv.
Qed.

Lemma accept_request_ok TableName vs c s :
  online s = true → TableName = tableName s → forallb marshallable vs = true →
  accept_request TableName vs (record c s) = Ok ().
Proof.
  intros Hon -> Hvs. unfold accept_request. rewrite Hvs. simpl.
  rewrite Hon. simpl. by rewrite bool_decide_true.
Qed.

Lemma docClient_batchWrite_ok TableName requests keys s :
  online s = true → TableName = tableName s →
  forallb marshallable (requests ≫= request_values) = true →
  requests ≠ [] → (length requests ≤ 25)%nat →
  mapM request_key requests = Some keys → NoDup keys →
  docClient_batchWrite TableName requests s
  = (with_table (foldl apply_request (table s) requests) (record (CBatchWrite requests) s), Ok ()).
Proof.
  intros Hon Hname Hvals Hne Hlen Hkeys Hnd. unfold docClient_batchWrite.
  rewrite accept_request_ok by done.
  rewrite bool_decide_false by done. rewrite bool_decide_false by lia.
  cbn [table record]. rewrite Hkeys. by rewrite bool_decide_true.
Qed.

Lemma parse_object fields selection :
  member (JObj fields) "defaultNotifications" = JObj selection →
  createUserTask.parse (Json (JObj fields))
  = Ok {| createUserTask.requestBody := JObj fields;
          createUserTask.taskTitle := member (JObj fields) "taskTitle";
          createUserTask.taskNotes := member (JObj fields) "taskNotes";
          createUserTask.taskDueDate := member (JObj fields) "taskDueDate";
          createUserTask.categoryId := member (JObj fields) "categoryId";
          createUserTask.notifications := JObj selection;
          createUserTask.keys := selection.*1 |}.
Proof.
  intros Hsel. unfold createUserTask.parse, get. cbn [JSON_parse nullish mbind Exc_bind].
  by rewrite Hsel.
Qed.

Lemma notification_keys_NoDup env userId taskId n :
  NoDup (uuidv4 env <$> seq 1 n) →
  NoDup ((fun i => notification_key userId taskId (uuidv4 env (S i))) <$> seq 0 n).
Proof.
  intros Hnd. rewrite <- fmap_S_seq, <- list_fmap_compose in Hnd.
  rewrite (list_fmap_compose (fun i => uuidv4 env (S i)) (notification_key userId taskId)).
  apply NoDup_fmap_2; [apply notification_key_inj|done].
Qed.

(** What a well-formed create-task request leaves in the table. *)
Lemma create_task_table env event s userId fields selection :
  present (TABLE_NAME env) = Some (tableName s) → online s = true →
  present (userId_header event) = Some userId →
  body event = Json (JObj fields) → marshallable (JObj fields) = true →
  member (JObj fields) "taskTitle" ≠ JUndefined →
  member (JObj fields) "defaultNotifications" = JObj selection →
  selection_map selection = true →
  (length (chosen selection) ≤ 25)%nat →
  NoDup (uuidv4 env <$> seq 1 (length (chosen selection))) →
  let out := createUserTask.handler env event s in
  let Item :=
    createUserTask.taskItem userId (uuidv4 env 0) (now env)
      (member (JObj fields) "taskTitle") (member (JObj fields) "taskNotes")
      (member (JObj fields) "taskDueDate") (member (JObj fields) "categoryId") in
  let requests :=
    PutRequest <$> imap (createUserTask.notificationItem env userId (uuidv4 env 0) (now env))
                        (chosen selection) in
  table out.1
  = foldl apply_request
      (<[createUserTask.taskKey userId (uuidv4 env 0) := item_attrs Item]> (table s)) requests ∧
  (chosen selection ≠ [] → ∃ resp, out.2 = Ok resp ∧ statusCode resp = 200).
Proof.
  intros Htn Hon Hu Hbody Hjson Htitle Hsel Hmap Hlen Huuid. cbv zeta.
  unfold createUserTask.handler. rewrite Htn, Hu, Hbody. cbn [body_missing].
  rewrite (parse_object _ _ Hsel).
  cbn [createUserTask.taskTitle createUserTask.taskNotes createUserTask.taskDueDate
       createUserTask.categoryId createUserTask.notifications createUserTask.keys
       createUserTask.requestBody].
  unfold docClient_put.
  rewrite accept_request_ok
    by (done || by apply taskItem_marshallable; [apply now_marshallable|..]).
  rewrite taskItem_key.
  pose proof (notification_values_marshal env userId (uuidv4 env 0) (now env) selection
                (now_marshallable env) Hmap) as Hvals.
  pose proof (notification_request_keys env userId (uuidv4 env 0) (now env) (JObj selection)
                selection.*1) as Hkeys.
  unfold createUserTask.notificationItems in *. rewrite selected_chosen in * by done.
  destruct (chosen selection) as [|key0 rest] eqn:Hchosen.
  - split; [|done]. unfold docClient_batchWrite. simpl imap.
    rewrite accept_request_ok by done. simpl. done.
  - rewrite <- Hchosen in *.
    erewrite docClient_batchWrite_ok; [|done..| | | |].
    + split; [done|]. intros _. eexists. split; [done|done].
    + rewrite Hchosen. done.
    + by rewrite length_fmap, length_imap.
    + exact Hkeys.
    + rewrite imap_seq_0. by apply notification_keys_NoDup.
Qed.

(** C10: a well-formed create-task request is answered 200 and stores the
    task with [taskCompleted] false, whatever [taskCompleted] the body
    carries, while the task in the answer carries the body's
    [taskCompleted]: the two disagree whenever the body's value is not
    false.  No item put by the handler carries another [taskCompleted]. *)
Theorem create_task_stores_uncompleted env event s userId fields selection :
  present (TABLE_NAME env) = Some (tableName s) → online s = true →
  present (userId_header event) = Some userId →
  body event = Json (JObj fields) → marshallable (JObj fields) = true →
  member (JObj fields) "taskTitle" ≠ JUndefined →
  member (JObj fields) "defaultNotifications" = JObj selection →
  selection_map selection = true → chosen selection ≠ [] →
  (length (chosen selection) ≤ 25)%nat →
  NoDup (uuidv4 env <$> seq 1 (length (chosen selection))) →
  let out := createUserTask.handler env event s in
  (∃ resp item,
     out.2 = Ok resp ∧ statusCode resp = 200 ∧
     table out.1 !! createUserTask.taskKey userId (uuidv4 env 0) = Some item ∧
     item !! "taskCompleted" = Some (JBool false) ∧
     member (created_task resp) "taskCompleted" = member (JObj fields) "taskCompleted" ∧
     (member (JObj fields) "taskCompleted" ≠ JBool false →
      Some (member (created_task resp) "taskCompleted") ≠ item !! "taskCompleted")) ∧
  (∃ calls, log out.1 = log s ++ calls ∧
            ∀ Item, CPut Item ∈ calls → member (JObj Item) "taskCompleted" = JBool false).
Proof.
  intros Htn Hon Hu Hbody Hjson Htitle Hsel Hmap Hsome Hlen Huuid out.
  destruct (create_task_table env event s userId fields selection) as [_ Hresp]; [done..|].
  destruct (Hresp Hsome) as (resp & Hout & Hst).
  destruct (create_task_puts_uncompleted env event s) as [Hputs Hstored].
  split; [|exact Hputs].
  destruct (Hstored resp Hout Hst) as (userId' & requestBody & item & Hu' & Hbody' & Hitem & Hf & He).
  rewrite Hu in Hu'. injection Hu' as <-. rewrite Hbody in Hbody'. injection Hbody' as <-.
  exists resp, item. split_and!; [done..|].
  intros Hne. rewrite He, Hf. by intros [= ?].
Qed.

Lemma create_task_stores_uncompleted_witness :
  let selection := [("5", JBool true); ("15", JBool false)] in
  let fields :=
    [("taskTitle", JStr "Buy milk"); ("taskCompleted", JBool true);
     ("defaultNotifications", JObj selection)] in
  let out := createUserTask.handler Scenario.env (Scenario.request [] (Json (JObj fields)))
               (Scenario.store []) in
  (∃ resp item,
     out.2 = Ok resp ∧ statusCode resp = 200 ∧
     table out.1 !! createUserTask.taskKey "u1" (uuidv4 Scenario.env 0) = Some item ∧
     item !! "taskCompleted" = Some (JBool false) ∧
     member (created_task resp) "taskCompleted" = member (JObj fields) "taskCompleted" ∧
     (member (JObj fields) "taskCompleted" ≠ JBool false →
      Some (member (created_task resp) "taskCompleted") ≠ item !! "taskCompleted")) ∧
  (∃ calls, log out.1 = log (Scenario.store []) ++ calls ∧
            ∀ Item, CPut Item ∈ calls → member (JObj Item) "taskCompleted" = JBool false).
Proof.
  apply (create_task_stores_uncompleted Scenario.env _ (Scenario.store []) "u1" _
           [("5", JBool true); ("15", JBool false)]); try reflexivity.
  - discriminate.
  - discriminate.
  - vm_compute. lia.
  - vm_compute. apply NoDup_singleton.
Defined.

(** C5: a create-task request with a task title whose body carries a
    selection map (at most 25 keys set to true), served by a healthy store
    with distinct generated ids, leaves one notification item per key mapped
    to true, under the key of the created task and a fresh notification id,
    with [reminderTimeBeforeDue] the number the key denotes; the items are
    distinct, and nothing else changes in the table but the task itself. *)
Theorem create_task_writes_selected_notifications env event s userId fields selection :
  present (TABLE_NAME env) = Some (tableName s) → online s = true →
  present (userId_header event) = Some userId →
  body event = Json (JObj fields) → marshallable (JObj fields) = true →
  member (JObj fields) "taskTitle" ≠ JUndefined →
  member (JObj fields) "defaultNotifications" = JObj selection →
  selection_map selection = true →
  (length (chosen selection) ≤ 25)%nat →
  NoDup (uuidv4 env <$> seq 1 (length (chosen selection))) →
  let out := createUserTask.handler env event s in
  let notification i := notification_key userId (uuidv4 env 0) (uuidv4 env (S i)) in
  (∀ i key, chosen selection !! i = Some key →
     ∃ minutes item,
       numeral key = Some minutes ∧
       table out.1 !! notification i = Some item ∧
       item !! "reminderTimeBeforeDue" = Some (JNum minutes) ∧
       item !! "notificationEnabled" = Some (JBool true)) ∧
  NoDup (notification <$> seq 0 (length (chosen selection))) ∧
  (∀ k, table out.1 !! k ≠ table s !! k →
        k = createUserTask.taskKey userId (uuidv4 env 0) ∨
        ∃ i, (i < length (chosen selection))%nat ∧ k = notification i) ∧
  (chosen selection ≠ [] → ∃ resp, out.2 = Ok resp ∧ statusCode resp = 200).
Proof.
  intros Htn Hon Hu Hbody Hjson Htitle Hsel Hmap Hlen Huuid out notification.
  destruct (create_task_table env event s userId fields selection) as [Htab Hresp]; [done..|].
  fold out in Htab, Hresp.
  pose proof (notification_keys_NoDup env userId (uuidv4 env 0) _ Huuid) as Hnd.
  fold notification in Hnd.
  set (requests := PutRequest <$> _) in Htab.
  assert (mapM request_key requests = Some (notification <$> seq 0 (length (chosen selection))))
    as Hkeys.
  { subst requests. rewrite <- imap_seq_0. apply mapM_Some. rewrite Forall2_fmap_l.
    apply Forall2_same_length_lookup_2; [by rewrite !length_imap|].
    intros i it k. rewrite !list_lookup_imap.
    destruct (chosen selection !! i); simpl; [|done]. by intros [= <-] [= <-]. }
  split_and!; [|done| |done].
  - intros i key Hkey.
    assert (∃ minutes, numeral key = Some minutes ∧ safe_integer minutes = true)
      as (minutes & Hn & Hsafe).
    { pose proof Hmap as [_ Hall]%selection_map_spec.
      apply list_elem_of_lookup_2 in Hkey. unfold chosen in Hkey.
      apply list_elem_of_fmap in Hkey as (kv & -> & Hkv).
      apply list_elem_of_filter in Hkv as [_ Hkv].
      rewrite Forall_forall in Hall. by apply Hall. }
    exists minutes. eexists. split; [done|]. split.
    + rewrite Htab. eapply foldl_apply_request_put; [exact Hkeys|done|..].
      * subst requests. by rewrite list_lookup_fmap, list_lookup_imap, Hkey.
      * rewrite list_lookup_fmap, lookup_seq_lt; [done|]. by eapply lookup_lt_Some.
    + by destruct (notificationItem_attrs env userId (uuidv4 env 0) (now env) i key minutes
                     Hn Hsafe) as (? & ? & _).
  - intros k Hk.
    destruct (decide (k = createUserTask.taskKey userId (uuidv4 env 0))) as [->|Hnetask];
      [by left|right].
    destruct (decide (k ∈ notification <$> seq 0 (length (chosen selection)))) as [Hin|Hnotin].
    + apply list_elem_of_fmap in Hin as (i & -> & Hi). exists i. split; [|done].
      apply elem_of_seq in Hi. lia.
    + exfalso. apply Hk. rewrite Htab.
      rewrite (foldl_apply_request_other _ _ _ _ Hkeys Hnotin).
      by rewrite lookup_insert_ne.
Qed.

Lemma create_task_writes_selected_notifications_witness :
  let selection :=
    [("5", JBool true); ("15", JBool false); ("30", JBool false);
     ("45", JBool false); ("60", JBool false)] in
  let event :=
    Scenario.request []
      (Json (JObj [("taskTitle", JStr "Buy milk"); ("defaultNotifications", JObj selection)])) in
  let out := createUserTask.handler Scenario.env event (Scenario.store []) in
  let notification i := notification_key "u1" (uuidv4 Scenario.env 0) (uuidv4 Scenario.env (S i)) in
  (∀ i key, chosen selection !! i = Some key →
     ∃ minutes item,
       numeral key = Some minutes ∧
       table out.1 !! notification i = Some item ∧
       item !! "reminderTimeBeforeDue" = Some (JNum minutes) ∧
       item !! "notificationEnabled" = Some (JBool true)) ∧
  NoDup (notification <$> seq 0 (length (chosen selection))) ∧
  (∀ k, table out.1 !! k ≠ table (Scenario.store []) !! k →
        k = createUserTask.taskKey "u1" (uuidv4 Scenario.env 0) ∨
        ∃ i, (i < length (chosen selection))%nat ∧ k = notification i) ∧
  (chosen selection ≠ [] → ∃ resp, out.2 = Ok resp ∧ statusCode resp = 200).
Proof.
  apply (create_task_writes_selected_notifications Scenario.env _ (Scenario.store []) "u1"
           [("taskTitle", JStr "Buy milk");
            ("defaultNotifications",
             JObj [("5", JBool true); ("15", JBool false); ("30", JBool false);
                   ("45", JBool false); ("60", JBool false)])]).
  - reflexivity.
  - reflexivity.
  - reflexivity.
  - reflexivity.
  - reflexivity.
  - discriminate.
  - reflexivity.
  - reflexivity.
  - vm_compute. lia.
  - vm_compute. apply NoDup_singleton.
Defined.

(** The scenario of the specification: the table ends up with the task and
    exactly one notification, whose reminder is 5 minutes. *)
Example create_task_buy_milk :
  let event :=
    Scenario.request []
      (Json (JObj [("taskTitle", JStr "Buy milk");
                   ("defaultNotifications",
                    JObj [("5", JBool true); ("15", JBool false); ("30", JBool false);
                          ("45", JBool false); ("60", JBool false)])])) in
  let out := createUserTask.handler Scenario.env event (Scenario.store []) in
  (map_to_list (table out.1)).*1
    ≡ₚ [("USER#u1", "TASK#uuid-0"); ("USER#u1", "TASK#uuid-0NOTIFICATION#uuid-1")] ∧
  (table out.1 !! ("USER#u1", "TASK#uuid-0NOTIFICATION#uuid-1")
     ≫= fun item => item !! "reminderTimeBeforeDue") = Some (JNum 5).
Proof.
  split; [|vm_compute; reflexivity].
  vm_compute. apply perm_swap || reflexivity.
Qed.

(** A selected key that denotes no safe integer: the task is stored, the
    batch of notifications does not marshal and the answer is 500. *)
Example create_task_with_unsafe_reminder :
  let event :=
    Scenario.request []
      (Json (JObj [("taskTitle", JStr "Buy milk");
                   ("defaultNotifications", JObj [("9007199254740993", JBool true)])])) in
  let out := createUserTask.handler Scenario.env event (Scenario.store []) in
  (statusCode <$> match out.2 with Ok r => Some r | _ => None end) = Some 500 ∧
  (table out.1 !! createUserTask.taskKey "u1" "uuid-0" ≫= fun item => item !! "taskTitle")
    = Some (JStr "Buy milk") ∧
  table out.1 !! notification_key "u1" "uuid-0" "uuid-1" = None.
Proof. repeat split; vm_compute; reflexivity. Qed.

(** ** The order of sort keys *)

Lemma compare_as_OT a b : String.compare a b = OrdersEx.String_as_OT.compare a b.
Proof.
  revert b. induction a as [|c a IH]; intros [|d b]; simpl; [done..|].
  rewrite IH. unfold Ascii.compare, OrdersEx.Ascii_as_OT.compare.
  by destruct (_ ?= _)%N.
Qed.

Lemma compare_Lt_trans a b c :
  String.compare a b = Lt → String.compare b c = Lt → String.compare a c = Lt.
Proof.
  rewrite !compare_as_OT. apply (@transitivity _ _ (StrictOrder_Transitive (R:=OrdersEx.String_as_OT.lt))).
Qed.

Lemma leb_ltb a b : String.leb a b = true → a ≠ b → String.ltb a b = true.
Proof.
  unfold String.leb, String.ltb. destruct (String.compare a b) eqn:H; try done.
  by apply String.compare_eq_iff in H.
Qed.

Lemma leb_trans a b c : String.leb a b = true → String.leb b c = true → String.leb a c = true.
Proof.
  unfold String.leb.
  destruct (String.compare a b) eqn:Hab; [|idtac|done].
  { apply String.compare_eq_iff in Hab as ->. done. }
  destruct (String.compare b c) eqn:Hbc; [|idtac|done].
  { apply String.compare_eq_iff in Hbc as ->. by rewrite Hab. }
  by rewrite (compare_Lt_trans a b c).
Qed.

#[local] Instance sk_le_total : Total sk_le.
Proof.
  intros a b. unfold sk_le. destruct (String.leb_total a.1.2 b.1.2) as [-> | ->]; [left|right]; done.
Qed.

#[local] Instance sk_le_trans : Transitive sk_le.
Proof.
  intros a b c. unfold sk_le. rewrite !Is_true_true. apply leb_trans.
Qed.

(** ** The items of a partition *)

Section partition.

Context (pk : string).
Implicit Types (t : gmap DynamoDB.Key (gmap string JValue)).
Implicit Types (k : DynamoDB.Key) (v : gmap string JValue).
Implicit Types (l pre suf : list (DynamoDB.Key * gmap string JValue)).

Lemma partition_Permutation t :
  partition pk t ≡ₚ filter (fun kv => kv.1.1 = pk) (map_to_list t).
Proof. apply merge_sort_Permutation. Qed.

Lemma elem_of_partition t k v :
  (k, v) ∈ partition pk t ↔ t !! k = Some v ∧ k.1 = pk.
Proof.
  rewrite partition_Permutation, list_elem_of_filter, elem_of_map_to_list. simpl. tauto.
Qed.

Lemma partition_sorted t : StronglySorted sk_le (partition pk t).
Proof. apply StronglySorted_merge_sort; apply _. Qed.

Lemma partition_NoDup_keys t : NoDup (partition pk t).*1.
Proof.
  rewrite partition_Permutation.
  eapply sublist_NoDup; [apply (NoDup_fst_map_to_list t)|].
  apply fmap_sublist, sublist_filter.
Qed.

Lemma partition_NoDup t : NoDup (partition pk t).
Proof. eapply NoDup_fmap_1, partition_NoDup_keys. Qed.

(** Two items of the partition with the same sort key are the same item. *)
Lemma partition_sk_inj t x y :
  x ∈ partition pk t → y ∈ partition pk t → x.1.2 = y.1.2 → x = y.
Proof.
  destruct x as [[p q] v], y as [[p' q'] v']. simpl.
  intros [Hx ?]%elem_of_partition [Hy ?]%elem_of_partition ->. simpl in *. subst.
  rewrite Hx in Hy. by injection Hy as ->.
Qed.

(** In the partition, an item before another has a smaller sort key. *)
Lemma partition_app_lt t pre suf x y :
  partition pk t = pre ++ suf → x ∈ pre → y ∈ suf →
  String.ltb x.1.2 y.1.2 = true.
Proof.
  intros Hp Hx Hy. pose proof (partition_sorted t) as Hs. rewrite Hp in Hs.
  apply leb_ltb.
  - apply Is_true_true.
    by apply (StronglySorted_app_1_elem_of sk_le pre suf x y).
  - intros Heq. pose proof (partition_NoDup t) as Hnd. rewrite Hp in Hnd.
    apply NoDup_app in Hnd as (_ & Hdisj & _). apply (Hdisj x Hx).
    rewrite (partition_sk_inj t x y); [done|rewrite Hp; set_solver..|done].
Qed.

(** Sorted listings are determined by their elements. *)
Lemma partition_unique t l :
  StronglySorted sk_le l → NoDup l →
  (∀ k v, (k, v) ∈ l ↔ t !! k = Some v ∧ k.1 = pk) →
  partition pk t = l.
Proof.
  intros Hs Hnd Hl. apply (StronglySorted_unique_strong sk_le).
  - intros x y Hx Hy Hxy Hyx.
    assert (y ∈ partition pk t) by (destruct y; by apply elem_of_partition, Hl).
    apply (partition_sk_inj t); [done..|].
    apply String.leb_antisym; by apply Is_true_true.
  - apply partition_sorted.
  - done.
  - apply NoDup_Permutation; [apply partition_NoDup|done|].
    intros [k v]. by rewrite elem_of_partition, Hl.
Qed.

End partition.

(** ** Batches of a page *)

Lemma batches_concat reqs i : concat (deleteAccount.batches reqs i) = drop i reqs.
Proof.
  funelim (deleteAccount.batches reqs i); simpl.
  - rewrite H. unfold deleteAccount.slice.
    replace (i + 25 - i)%nat with 25%nat by lia.
    rewrite <- (take_drop 25 (drop i deleteRequests)) at 2. by rewrite drop_drop.
  - by rewrite drop_ge by lia.
Qed.

Lemma batches_needed_step n :
  (0 < n)%nat → batches_needed n = S (batches_needed (n - 25)).
Proof.
  intros Hn. unfold batches_needed. destruct (decide (n ≤ 25)%nat) as [Hle|Hgt].
  - replace (n - 25)%nat with 0%nat by lia.
    change ((0 + 24) / 25)%nat with 0%nat.
    symmetry. apply (Nat.div_unique _ _ _ (n - 1)); lia.
  - replace (n + 24)%nat with (n - 25 + 24 + 1 * 25)%nat by lia.
    rewrite Nat.div_add by lia. lia.
Qed.

Lemma batches_needed_mono n m : (n ≤ m)%nat → (batches_needed n ≤ batches_needed m)%nat.
Proof. intros. unfold batches_needed. apply Nat.Div0.div_le_mono. lia. Qed.

Lemma batches_length reqs i :
  length (deleteAccount.batches reqs i) = batches_needed (length reqs - i).
Proof.
  funelim (deleteAccount.batches reqs i); simpl.
  - rewrite H, (batches_needed_step (length deleteRequests - i)) by lia.
    do 2 f_equal. lia.
  - by replace (length deleteRequests - i)%nat with 0%nat by lia.
Qed.

Lemma batches_slices {A} (f : A → WriteRequest) (page : list A) i :
  Forall (fun b => ∃ p, b = f <$> p ∧ p ≠ [] ∧ (length p ≤ 25)%nat ∧ p `sublist_of` page)
         (deleteAccount.batches (f <$> page) i).
Proof.
  remember (f <$> page) as reqs eqn:Hreqs. revert page Hreqs.
  funelim (deleteAccount.batches reqs i); intros page ->; [|done].
  constructor; [|by apply H].
  exists (deleteAccount.slice i (i + 25) page). unfold deleteAccount.slice.
  pose proof l as Hi. rewrite length_fmap in Hi.
  replace (i + 25 - i)%nat with 25%nat by lia. split_and!.
  - by rewrite fmap_take, fmap_drop.
  - intros Hnil. apply (f_equal length) in Hnil.
    rewrite length_take, length_drop in Hnil. cbn [length] in Hnil. lia.
  - rewrite length_take. lia.
  - etrans; [apply sublist_take|apply sublist_drop].
Qed.

(** ** Deleting the items of one page *)

Lemma request_key_delete (p : list (DynamoDB.Key * gmap string JValue)) :
  mapM request_key (deleteAccount.deleteRequest <$> p) = Some p.*1.
Proof.
  apply mapM_Some. rewrite Forall2_fmap. apply Forall_Forall2_diag, Forall_forall.
  by intros [[]].
Qed.

Lemma request_values_delete (p : list (DynamoDB.Key * gmap string JValue)) :
  forallb marshallable ((deleteAccount.deleteRequest <$> p) ≫= request_values) = true.
Proof.
  apply forallb_elem_of. intros v (r & Hv & (x & -> & _)%list_elem_of_fmap)%list_elem_of_bind.
  simpl in Hv. repeat (apply elem_of_cons in Hv as [->|Hv]; [done|]). by apply elem_of_nil in Hv.
Qed.

Lemma apply_delete_requests t (p : list (DynamoDB.Key * gmap string JValue)) (k : DynamoDB.Key) :
  foldl apply_request t (deleteAccount.deleteRequest <$> p) !! k
  = if decide (k ∈ p.*1) then None else t !! k.
Proof.
  revert t. induction p as [|[[pk' sk'] v] p IH]; intros t; [done|].
  rewrite fmap_cons. cbn [foldl]. rewrite IH.
  change (apply_request t (deleteAccount.deleteRequest (pk', sk', v)))
    with (delete (pk', sk') t).
  simpl.
  repeat case_decide; try done.
  - set_solver.
  - destruct (decide (k = (pk', sk'))) as [->|]; [by rewrite lookup_delete_eq|set_solver].
  - rewrite lookup_delete_ne; [done|set_solver].
Qed.

(** Every batch of the page is issued and accepted; together they remove
    the page's items. *)
Lemma issue_page TableName (page : list (DynamoDB.Key * gmap string JValue)) bs s :
  online s = true → TableName = tableName s → NoDup page.*1 →
  Forall (fun b => ∃ p, b = deleteAccount.deleteRequest <$> p ∧ p ≠ [] ∧ (length p ≤ 25)%nat ∧
                        p `sublist_of` page) bs →
  ∃ s' rs,
    deleteAccount.issue TableName bs s = (s', rs) ∧ deleteAccount.Promise_all rs = Ok () ∧
    table s' = foldl apply_request (table s) (concat bs) ∧
    log s' = log s ++ (CBatchWrite <$> bs) ∧
    online s' = online s ∧ tableName s' = tableName s ∧ pageLimit s' = pageLimit s ∧
    eagerToken s' = eagerToken s.
Proof.
  intros Hon Hname Hnd Hbs. revert s Hon Hname.
  induction Hbs as [|b bs (p & -> & Hne & Hlen & Hsub) _ IH]; intros s Hon Hname.
  - exists s, []. simpl. by rewrite app_nil_r.
  - simpl. erewrite docClient_batchWrite_ok;
      [|done|done|apply request_values_delete| |by rewrite length_fmap
       |apply request_key_delete|].
    + edestruct IH as (s' & rs & -> & Hall & Htab & Hlog & Hon' & Hname' & Hlim' & Heager');
        [done..|].
      exists s', (Ok () :: rs). split; [done|]. split; [done|]. simpl in *.
      split_and!; try done.
      * by rewrite Htab, foldl_app.
      * by rewrite Hlog, <- app_assoc.
    + by destruct p.
    + eapply sublist_NoDup; [exact Hnd|]. by apply fmap_sublist.
Qed.

Lemma partition_after_delete pk t (pre suf : list (DynamoDB.Key * gmap string JValue)) :
  partition pk t = pre ++ suf →
  partition pk (foldl apply_request t (deleteAccount.deleteRequest <$> pre)) = suf.
Proof.
  intros Hp.
  pose proof (partition_sorted pk t) as Hs. pose proof (partition_NoDup pk t) as Hnd.
  pose proof (partition_NoDup_keys pk t) as Hndk. rewrite Hp in Hs, Hnd, Hndk.
  rewrite fmap_app in Hndk.
  apply NoDup_app in Hnd as (_ & _ & Hnd'). apply NoDup_app in Hndk as (_ & Hdisj & _).
  apply partition_unique; [by apply StronglySorted_app_1_r in Hs|done|].
  intros k v. rewrite apply_delete_requests. split.
  - intros Hin. assert ((k, v) ∈ partition pk t) as [Hk Hpk]%elem_of_partition
      by (rewrite Hp; set_solver).
    split; [|done]. rewrite decide_False; [done|].
    intros Hpre. apply (Hdisj k Hpre). apply list_elem_of_fmap. by exists (k, v).
  - intros [Hk Hpk]. case_decide as Hpre; [done|].
    assert ((k, v) ∈ pre ++ suf) as [Hin|Hin]%elem_of_app
      by (rewrite <- Hp; by apply elem_of_partition); [|done].
    exfalso. apply Hpre. apply list_elem_of_fmap. by exists (k, v).
Qed.

Lemma filter_Forall_id {A} (P : A → Prop) `{∀ x, Decision (P x)} (l : list A) :
  Forall P l → filter P l = l.
Proof. induction 1 as [|x l Hx _ IH]; [done|]. by rewrite filter_cons_True, IH. Qed.

Lemma remaining_all pk start t : behind start (partition pk t) → remaining pk start t = partition pk t.
Proof.
  destruct start as [k0|]; [|done]. simpl. intros Hall. unfold remaining.
  apply filter_Forall_id. eapply Forall_impl; [exact Hall|].
  intros x Hx. by apply Is_true_true.
Qed.

Lemma delete_page_nonempty TableName (page : list (DynamoDB.Key * gmap string JValue)) lek s :
  page ≠ [] →
  deleteAccount.delete_page TableName {| Items := Some page; LastEvaluatedKey := lek |} s
  = let '(s', batchPromises) :=
      deleteAccount.issue TableName
        (deleteAccount.batches (deleteAccount.deleteRequest <$> page) 0) s in
    (s', deleteAccount.Promise_all batchPromises).
Proof. destruct page; [done|reflexivity]. Qed.

Lemma delete_page_ok TableName (page : list (DynamoDB.Key * gmap string JValue)) lek s :
  online s = true → TableName = tableName s → NoDup page.*1 →
  ∃ s',
    deleteAccount.delete_page TableName {| Items := Some page; LastEvaluatedKey := lek |} s
      = (s', Ok ()) ∧
    table s' = foldl apply_request (table s) (deleteAccount.deleteRequest <$> page) ∧
    log s' = log s ++ (CBatchWrite <$> deleteAccount.batches (deleteAccount.deleteRequest <$> page) 0) ∧
    online s' = online s ∧ tableName s' = tableName s ∧ pageLimit s' = pageLimit s ∧
    eagerToken s' = eagerToken s.
Proof.
  intros Hon Hname Hnd. destruct page as [|x page'] eqn:Hpage.
  - exists s. simpl. by rewrite app_nil_r.
  - rewrite <- Hpage in *. rewrite delete_page_nonempty by (by rewrite Hpage).
    destruct (issue_page TableName page
                (deleteAccount.batches (deleteAccount.deleteRequest <$> page) 0) s)
      as (s' & rs & -> & -> & Htab & Hlog & ?); [done..|apply batches_slices|].
    exists s'. split; [done|]. split; [|done].
    by rewrite Htab, batches_concat.
Qed.

(** ** The pagination loop *)

Lemma docClient_query_ok TableName pk start s :
  online s = true → TableName = tableName s → behind start (partition pk (table s)) →
  docClient_query TableName pk start s
  = (record (CQuery pk start) s,
     Ok {| Items := Some (take (pageLimit s) (partition pk (table s)));
           LastEvaluatedKey :=
             if final_page s (partition pk (table s)) then None
             else fst <$> last (take (pageLimit s) (partition pk (table s))) |}).
Proof.
  intros Hon Hname Hbehind. unfold docClient_query.
  rewrite accept_request_ok by done. cbn [table record pageLimit].
  by rewrite remaining_all.
Qed.

Lemma paginate_spec env pk fuel :
  ∀ s start,
    serving env s → (0 < pageLimit s)%nat →
    behind start (partition pk (table s)) →
    (length (partition pk (table s)) < fuel)%nat →
    ∃ s' pages,
      deleteAccount.paginate fuel (table_name_or_empty env) pk start s = Some (s', Ok ()) ∧
      concat pages = partition pk (table s) ∧
      Forall (fun page => (length page ≤ pageLimit s)%nat) pages ∧
      log s' = log s ++ rounds pk start pages ∧
      partition pk (table s') = [] ∧
      (∀ k : DynamoDB.Key, k.1 ≠ pk → table s' !! k = table s !! k).
Proof.
  induction fuel as [|fuel IH]; intros s start [Hon Hname] Hlimit Hbehind Hfuel; [lia|].
  set (rest := partition pk (table s)) in *.
  set (page := take (pageLimit s) rest).
  assert (NoDup page.*1) as Hnd.
  { eapply sublist_NoDup; [apply (partition_NoDup_keys pk (table s))|].
    apply fmap_sublist, sublist_take. }
  assert (∀ k : DynamoDB.Key, k.1 ≠ pk → k ∉ page.*1) as Hother.
  { intros k Hk ([k' v] & -> & Hin)%list_elem_of_fmap. apply Hk.
    apply elem_of_take in Hin as (i & Hi%list_elem_of_lookup_2 & _).
    by apply (elem_of_partition pk (table s) k' v). }
  cbn [deleteAccount.paginate].
  rewrite docClient_query_ok by done. fold rest page.
  destruct (delete_page_ok (table_name_or_empty env) page
              (if final_page s rest then None else fst <$> last page)
              (record (CQuery pk start) s))
    as (s2 & -> & Htab & Hlog & Hon2 & Hname2 & Hlim2 & Heager2); [done..|].
  cbn [LastEvaluatedKey table record log online tableName pageLimit eagerToken] in *.
  destruct (final_page s rest) eqn:Hfinal.
  - exists s2, [rest].
    assert (length rest ≤ pageLimit s)%nat as Hlen.
    { unfold final_page in Hfinal.
      by apply andb_true_iff in Hfinal as [?%bool_decide_eq_true _]. }
    assert (page = rest) as Hpage by (by apply take_ge).
    rewrite Hpage in *. split_and!.
    + done.
    + simpl. by rewrite app_nil_r.
    + by repeat constructor.
    + rewrite Hlog. simpl. by rewrite app_nil_r, <- app_assoc.
    + rewrite Htab. apply partition_after_delete. by rewrite app_nil_r.
    + intros k Hk. rewrite Htab, apply_delete_requests. by rewrite decide_False by auto.
  - assert (rest = page ++ drop (pageLimit s) rest) as Hsplit
      by (unfold page; by rewrite take_drop).
    destruct (last page) as [x|] eqn:Hlast.
    2:{ apply last_None in Hlast. apply (f_equal length) in Hlast.
        unfold page in Hlast. rewrite length_take in Hlast. cbn [length] in Hlast.
        unfold final_page in Hfinal. apply andb_false_iff in Hfinal as [Hlen|Hfull].
        - apply bool_decide_eq_false in Hlen. lia.
        - apply negb_false_iff, andb_true_iff in Hfull as [_ ?%bool_decide_eq_true]. lia. }
    simpl.
    assert (partition pk (table s2) = drop (pageLimit s) rest) as Hpart2.
    { rewrite Htab. by apply partition_after_delete. }
    edestruct (IH s2 (Some x.1)) as (s' & pages & -> & Hconcat & Hpages & Hlog' & Hempty & Hothers).
    + split; [by rewrite Hon2|by rewrite Hname2].
    + by rewrite Hlim2.
    + rewrite Hpart2. apply Forall_forall. intros y Hy.
      eapply (partition_app_lt pk (table s)); [exact Hsplit| |done].
      by apply last_Some_elem_of.
    + rewrite Hpart2, length_drop.
      pose proof (last_Some_elem_of _ _ Hlast) as Hx. unfold page in Hx.
      apply elem_of_take in Hx as (i & Hi%lookup_lt_Some & _). lia.
    + exists s', (page :: pages). split_and!.
      * done.
      * simpl. by rewrite Hconcat, Hpart2.
      * constructor; [unfold page; rewrite length_take; lia|by rewrite <- Hlim2].
      * rewrite Hlog', Hlog. simpl. rewrite Hlast. simpl. by rewrite <- !app_assoc.
      * done.
      * intros k Hk. rewrite Hothers, Htab, apply_delete_requests by done.
        by rewrite decide_False by auto.
Qed.

Lemma paginate_fuel_mono fuel fuel' TableName pk start s r :
  deleteAccount.paginate fuel TableName pk start s = Some r → (fuel ≤ fuel')%nat →
  deleteAccount.paginate fuel' TableName pk start s = Some r.
Proof.
  revert fuel' start s. induction fuel as [|fuel IH]; intros fuel' start s Hr Hle; [done|].
  destruct fuel' as [|fuel']; [lia|]. simpl in Hr |- *.
  destruct (docClient_query TableName pk start s) as [s1 [queryResult|e]]; [|done].
  destruct (deleteAccount.delete_page TableName queryResult s1) as [s2 [[]|e]]; [|done].
  destruct (LastEvaluatedKey queryResult); [|done]. apply IH; [done|lia].
Qed.

Lemma rounds_batch pk start pages page b :
  page ∈ pages → b ∈ deleteAccount.batches (deleteAccount.deleteRequest <$> page) 0 →
  CBatchWrite b ∈ rounds pk start pages.
Proof.
  intros Hpage Hb. revert start. induction pages as [|page' pages IH]; intros start.
  - by apply elem_of_nil in Hpage.
  - simpl. right. apply elem_of_app. apply elem_of_cons in Hpage as [<-|Hpage].
    + left. by apply list_elem_of_fmap_2.
    + right. by apply IH.
Qed.

Lemma elem_of_concat {A} (x : A) (ls : list (list A)) :
  x ∈ concat ls ↔ ∃ l, x ∈ l ∧ l ∈ ls.
Proof.
  induction ls as [|l' ls IH]; simpl.
  - split; [by intros ?%elem_of_nil|by intros (? & _ & ?%elem_of_nil)].
  - rewrite elem_of_app, IH. split.
    + intros [?|(l & ? & ?)]; [exists l'|exists l]; split; try done; by constructor.
    + intros (l & Hx & [->|?]%elem_of_cons); [by left|right; by exists l].
Qed.

Lemma length_concat_elem {A} (l : list A) (ls : list (list A)) :
  l ∈ ls → (length l ≤ length (concat ls))%nat.
Proof.
  induction ls as [|l' ls IH]; [by intros ?%elem_of_nil|].
  simpl. rewrite length_app. intros [->|Hin]%elem_of_cons; [lia|]. specialize (IH Hin). lia.
Qed.

(** C4: with the store healthy, the cascade delete of a user fetches the
    partition page by page, each query starting after the last key of the
    page before; it splits every page into batches of at most 25 deletions,
    [ceil(length / 25)] of them, and issues them all before the next query;
    it stops at the page that comes without a continuation token and answers
    200.  Every item of the partition at the time of the call is the target
    of a deletion in one of the batches, the partition is empty afterwards
    and the other partitions are untouched. *)
Theorem delete_account_cascade env event s userId :
  serving env s → (0 < pageLimit s)%nat → present (userId_header event) = Some userId →
  let pk := "USER#" +:+ userId in
  let items := partition pk (table s) in
  ∃ s' pages,
    (∀ fuel, (length items < fuel)%nat →
       deleteAccount.handler fuel env event s
       = Some (s', Ok (reply 200 "OPTIONS,DELETE"
                         [("message", JStr "User items deleted successfully")]))) ∧
    concat pages = items ∧
    log s' = log s ++ rounds pk None pages ∧
    Forall (fun page =>
              let bs := deleteAccount.batches (deleteAccount.deleteRequest <$> page) 0 in
              concat bs = deleteAccount.deleteRequest <$> page ∧
              Forall (fun b => (length b ≤ 25)%nat) bs ∧
              length bs = batches_needed (length page) ∧
              (length bs ≤ batches_needed (length items))%nat) pages ∧
    (∀ k v, table s !! k = Some v → k.1 = pk →
       ∃ b, CBatchWrite b ∈ log s' ∧ DeleteRequest (JStr k.1) (JStr k.2) ∈ b) ∧
    (∀ k : DynamoDB.Key, k.1 = pk → table s' !! k = None) ∧
    (∀ k : DynamoDB.Key, k.1 ≠ pk → table s' !! k = table s !! k).
Proof.
  intros Hserv Hlimit Hu pk items.
  destruct (paginate_spec env pk (S (length items)) s None)
    as (s' & pages & Hrun & Hconcat & _ & Hlog & Hempty & Hothers);
    [done..|unfold items; lia|].
  fold items in Hconcat.
  assert (∀ page, page ∈ pages →
            concat (deleteAccount.batches (deleteAccount.deleteRequest <$> page) 0)
            = deleteAccount.deleteRequest <$> page) as Hcat.
  { intros page _. by rewrite batches_concat. }
  exists s', pages. split_and!; [|done|done| | |..].
  - intros fuel Hfuel. unfold deleteAccount.handler. rewrite Hu. cbv beta iota. fold pk.
    by rewrite (paginate_fuel_mono _ fuel _ _ _ _ _ Hrun) by (unfold items in *; lia).
  - apply Forall_forall. intros page Hpage. cbv zeta. split_and!.
    + by apply Hcat.
    + eapply Forall_impl; [apply (batches_slices deleteAccount.deleteRequest page 0)|].
      intros b (p & -> & _ & Hlen & _). by rewrite length_fmap.
    + by rewrite batches_length, length_fmap, Nat.sub_0_r.
    + rewrite batches_length, length_fmap, Nat.sub_0_r. apply batches_needed_mono.
      rewrite <- Hconcat. by apply length_concat_elem.
  - intros k v Hk Hpk.
    assert ((k, v) ∈ concat pages) as Hin by (rewrite Hconcat; by apply elem_of_partition).
    apply elem_of_concat in Hin as (page & Hin & Hpage).
    assert (deleteAccount.deleteRequest (k, v)
              ∈ concat (deleteAccount.batches (deleteAccount.deleteRequest <$> page) 0))
      as (b & Hreq & Hb)%elem_of_concat
      by (rewrite Hcat by done; by apply list_elem_of_fmap_2).
    exists b. split; [|done]. rewrite Hlog. apply elem_of_app. right.
    by apply (rounds_batch pk None pages page).
  - intros k Hpk. destruct (table s' !! k) as [v|] eqn:Hk; [|done].
    assert ((k, v) ∈ partition pk (table s')) as Hin by (by apply elem_of_partition).
    rewrite Hempty in Hin. by apply elem_of_nil in Hin.
  - done.
Qed.

Lemma delete_account_cascade_witness :
  let event := Scenario.request [] NoBody in
  let s := Scenario.crowded in
  let pk := "USER#" +:+ "u1" in
  let items := partition pk (table s) in
  ∃ s' pages,
    (∀ fuel, (length items < fuel)%nat →
       deleteAccount.handler fuel Scenario.env event s
       = Some (s', Ok (reply 200 "OPTIONS,DELETE"
                         [("message", JStr "User items deleted successfully")]))) ∧
    concat pages = items ∧
    log s' = log s ++ rounds pk None pages ∧
    Forall (fun page =>
              let bs := deleteAccount.batches (deleteAccount.deleteRequest <$> page) 0 in
              concat bs = deleteAccount.deleteRequest <$> page ∧
              Forall (fun b => (length b ≤ 25)%nat) bs ∧
              length bs = batches_needed (length page) ∧
              (length bs ≤ batches_needed (length items))%nat) pages ∧
    (∀ k v, table s !! k = Some v → k.1 = pk →
       ∃ b, CBatchWrite b ∈ log s' ∧ DeleteRequest (JStr k.1) (JStr k.2) ∈ b) ∧
    (∀ k : DynamoDB.Key, k.1 = pk → table s' !! k = None) ∧
    (∀ k : DynamoDB.Key, k.1 ≠ pk → table s' !! k = table s !! k).
Proof.
  apply (delete_account_cascade Scenario.env (Scenario.request [] NoBody) Scenario.crowded "u1").
  - split; reflexivity.
  - simpl. lia.
  - reflexivity.
Defined.

(** Sixty tasks in pages of forty: two queries, three batches of 25, 15 and
    20 deletions, and only the other user's item is left. *)
Example delete_account_sixty_tasks :
  let out := deleteAccount.handler 3 Scenario.env (Scenario.request [] NoBody) Scenario.crowded in
  (statusCode <$> (out ≫= fun r => match r.2 with Ok resp => Some resp | Throw _ => None end))
    = Some 200 ∧
  ((fun s' =>
      (fun c => match c with
                | CQuery _ start => inl start
                | CBatchWrite requests => inr (length requests)
                | _ => inr 0%nat
                end) <$> log s') <$> (fst <$> out))
    = Some [inl None; inr 25%nat; inr 15%nat;
            inl (Some ("USER#u1", "TASK#44")); inr 20%nat] ∧
  ((fun s' => (map_to_list (table s')).*1) <$> (fst <$> out)) = Some [("USER#u2", "SETTINGS#")].
Proof. repeat split; vm_compute; reflexivity. Qed.

(** The same sixty tasks in pages of thirty, each full page coming with a
    token: the second page is full and announces a third one, which is
    empty and ends the loop. *)
Example delete_account_eager_token :
  let out :=
    deleteAccount.handler 4 Scenario.env (Scenario.request [] NoBody) Scenario.crowded_eager in
  (statusCode <$> (out ≫= fun r => match r.2 with Ok resp => Some resp | Throw _ => None end))
    = Some 200 ∧
  ((fun s' =>
      (fun c => match c with
                | CQuery _ start => inl start
                | CBatchWrite requests => inr (length requests)
                | _ => inr 0%nat
                end) <$> log s') <$> (fst <$> out))
    = Some [inl None; inr 25%nat; inr 5%nat;
            inl (Some ("USER#u1", "TASK#35")); inr 25%nat; inr 5%nat;
            inl (Some ("USER#u1", "TASK#9"))] ∧
  ((fun s' => (map_to_list (table s')).*1) <$> (fst <$> out)) = Some [("USER#u2", "SETTINGS#")].
Proof. repeat split; vm_compute; reflexivity. Qed.
(** ** What an update leaves alone *)

Lemma docClient_update_frame TableName input s k :
  k ≠ UKey input →
  table (docClient_update TableName input s).1 !! k = table s !! k.
Proof.
  intros Hk. unfold docClient_update.
  repeat case_match; simpl; try done. by rewrite lookup_insert_ne.
Qed.

Lemma docClient_update_Throw TableName input s s' e :
  docClient_update TableName input s = (s', Throw e) → table s' = table s.
Proof.
  unfold docClient_update. repeat case_match; intros [= <- ?]; done.
Qed.

(** X1: a request for one of the three update operations changes no item of
    the table other than the one under the key it addresses, whatever the
    body holds and whether or not the store accepts it. *)
Theorem update_touches_only_addressed_key op env event s requestBody k :
  update_request op event requestBody → k ≠ addressed_key op →
  table (update_handler op env event s).1 !! k = table s !! k.
Proof.
  intros [Hbody Hreq] Hk.
  destruct op as [userId taskId|userId|userId taskId notificationId]; simpl in Hreq, Hk |- *.
  - destruct Hreq as [Hu Ht].
    unfold updateUserTask.handler. rewrite Hu, Hbody, Ht. cbn [body_missing JSON_parse].
    destruct (expressionAttributeNames requestBody) as [names|e]; [|done].
    match goal with |- context [docClient_update ?tn ?input s] =>
      pose proof (docClient_update_frame tn input s k Hk) as Hf;
      destruct (docClient_update tn input s) as [s' [out|err]] end; exact Hf.
  - unfold updateUserSettings.handler. rewrite Hreq, Hbody. cbn [body_missing JSON_parse].
    destruct (expressionAttributeNames requestBody) as [names|e]; [|done].
    match goal with |- context [docClient_update ?tn ?input s] =>
      pose proof (docClient_update_frame tn input s k Hk) as Hf;
      destruct (docClient_update tn input s) as [s' [out|err]] end; exact Hf.
  - destruct Hreq as (Hu & Ht & Hn).
    unfold updateTaskNotification.handler. rewrite Hu, Hbody, Ht, Hn. cbn [body_missing JSON_parse].
    destruct (expressionAttributeNames requestBody) as [names|e]; [|done].
    match goal with |- context [docClient_update ?tn ?input s] =>
      pose proof (docClient_update_frame tn input s k Hk) as Hf;
      destruct (docClient_update tn input s) as [s' [out|err]] end; exact Hf.
Qed.

Lemma update_touches_only_addressed_key_witness :
  table (update_handler (UpdateTask "u1" "t2") Scenario.env
           (Scenario.request [("taskId", "t2")] (Json (JObj [("taskTitle", JStr "x")])))
           (Scenario.store [Scenario.task_t1])).1 !! Scenario.task_t1.1
  = table (Scenario.store [Scenario.task_t1]) !! Scenario.task_t1.1.
Proof.
  apply (update_touches_only_addressed_key (UpdateTask "u1" "t2") _ _ _ (JObj [("taskTitle", JStr "x")])).
  - repeat split; reflexivity.
  - discriminate.
Defined.

(** X2: unless an update handler answers 200 (it answers 400 or 500, or
    throws), the table is left as it was. *)
Theorem update_without_success_writes_nothing op env event s :
  (∀ resp, (update_handler op env event s).2 = Ok resp → statusCode resp ≠ 200) →
  table (update_handler op env event s).1 = table s.
Proof.
  destruct op; simpl;
    unfold updateUserTask.handler, updateUserSettings.handler, updateTaskNotification.handler;
    repeat (case_match; try done); simpl; intros Hno;
    solve [ by eapply docClient_update_Throw | by exfalso; eapply Hno ].
Qed.

Lemma update_without_success_witness :
  table (update_handler (UpdateSettings "u1") Scenario.env
           (Scenario.request [] (Json (JObj [("pk", JStr "USER#u2")])))
           (Scenario.store [Scenario.task_t1])).1
  = table (Scenario.store [Scenario.task_t1]).
Proof.
  apply update_without_success_writes_nothing.
  vm_compute. intros resp [= <-]. discriminate.
Defined.
(** X3: an accepted patch assigns to every attribute the body names the
    value the body gives it, and leaves alone every attribute of the item
    that the body does not name, [updatedAt] apart. *)
Theorem update_keeps_unnamed_attributes op env event s requestBody a :
  serving env s → update_request op event requestBody → patch_ok requestBody = true →
  a ∉ own_keys requestBody → a ≠ "updatedAt" →
  ∃ s' resp item',
    update_handler op env event s = (s', Ok resp) ∧ statusCode resp = 200 ∧
    table s' !! addressed_key op = Some item' ∧
    item' !! a = (table s !! addressed_key op) ≫= (fun item => item !! a) ∧
    (∀ k, k ∈ own_keys requestBody → item' !! k = Some (member requestBody k)).
Proof.
  intros Hserv Hreq Hok Ha Hupd.
  destruct (update_request_accepted op env event s requestBody) as (s' & resp & Hrun & Hst & Htab);
    [done..|].
  pose proof Hok as (_ & Hnd & Hnames & _)%patch_ok_spec.
  assert ("updatedAt" ∉ own_keys requestBody) as Hu.
  { intros Hin. rewrite Forall_forall in Hnames. destruct (Hnames _ Hin) as (_ & _ & Hno).
    apply Hno. left. }
  exists s', resp. eexists. rewrite Htab, lookup_insert_eq.
  repeat split; [done..| |].
  - rewrite apply_sets_lookup_notin.
    + by destruct (table s !! addressed_key op).
    + rewrite patch_sets_targets. apply not_elem_of_cons. by split.
  - intros k Hk. apply apply_sets_lookup_in.
    + rewrite patch_sets_targets. by constructor.
    + right. apply list_elem_of_fmap. by exists k.
Qed.

Lemma update_keeps_unnamed_attributes_witness :
  let op := UpdateTask "u1" "t1" in
  let event := Scenario.request [("taskId", "t1")] (Json (JObj [("taskCompleted", JBool true)])) in
  let s := Scenario.store [Scenario.task_t1] in
  ∃ s' resp item',
    update_handler op Scenario.env event s = (s', Ok resp) ∧ statusCode resp = 200 ∧
    table s' !! addressed_key op = Some item' ∧
    item' !! "taskTitle" = (table s !! addressed_key op) ≫= (fun item => item !! "taskTitle") ∧
    (∀ k, k ∈ own_keys (JObj [("taskCompleted", JBool true)]) →
          item' !! k = Some (member (JObj [("taskCompleted", JBool true)]) k)).
Proof.
  apply (update_keeps_unnamed_attributes (UpdateTask "u1" "t1")
           _ _ _ (JObj [("taskCompleted", JBool true)])).
  - split; reflexivity.
  - repeat split; reflexivity.
  - reflexivity.
  - vm_compute. intros H. repeat (apply elem_of_cons in H as [H|H]; [discriminate|]).
    by apply elem_of_nil in H.
  - discriminate.
Defined.

(** X4: a body that is the JSON text [null] passes the missing-body guard
    and makes each update handler throw a [TypeError] before the store is
    called; the store is left as it was. *)
Theorem update_with_null_body_throws op env event s :
  update_request op event JNull →
  ∃ e, update_handler op env event s = (s, Throw e) ∧ name e = "TypeError".
Proof.
  intros [Hbody Hreq].
  destruct op as [userId taskId|userId|userId taskId notificationId]; simpl in Hreq |- *.
  - destruct Hreq as [Hu Ht].
    unfold updateUserTask.handler. rewrite Hu, Hbody, Ht. simpl. eauto.
  - unfold updateUserSettings.handler. rewrite Hreq, Hbody. simpl. eauto.
  - destruct Hreq as (Hu & Ht & Hn).
    unfold updateTaskNotification.handler. rewrite Hu, Hbody, Ht, Hn. simpl. eauto.
Qed.

Lemma update_with_null_body_witness :
  ∃ e, update_handler (UpdateSettings "u1") Scenario.env (Scenario.request [] (Json JNull))
         (Scenario.store [])
       = (Scenario.store [], Throw e) ∧ name e = "TypeError".
Proof. apply (update_with_null_body_throws (UpdateSettings "u1")). repeat split; reflexivity. Defined.

(** X5: a body that is the empty object is refused by the store (the map
    of attribute names is empty): each update handler answers 500 and
    writes nothing, [updatedAt] included. *)
Theorem update_with_empty_object_fails op env event s :
  serving env s → update_request op event (JObj []) →
  ∃ s' resp, update_handler op env event s = (s', Ok resp) ∧ statusCode resp = 500 ∧
             table s' = table s.
Proof.
  intros Hserv [Hbody Hreq].
  assert (∀ key,
    docClient_update (table_name_or_empty env)
      {| UKey := key; UpdateExpression := updateExpressionParts (JObj []);
         ExpressionAttributeNames := [];
         ExpressionAttributeValues := expressionAttributeValues (now env) (JObj []) |} s
    = (record (CUpdate {| UKey := key; UpdateExpression := updateExpressionParts (JObj []);
         ExpressionAttributeNames := [];
         ExpressionAttributeValues := expressionAttributeValues (now env) (JObj []) |}) s,
       Throw (ValidationException "ExpressionAttributeNames must not be empty"))) as Hup.
  { intros key. unfold docClient_update. rewrite accept_request_serving; [done|done|].
    pose proof (now_marshallable env) as Hnow. simpl in Hnow |- *. by rewrite Hnow. }
  destruct op as [userId taskId|userId|userId taskId notificationId]; simpl in Hreq |- *.
  - destruct Hreq as [Hu Ht].
    unfold updateUserTask.handler. rewrite Hu, Hbody, Ht. cbn [body_missing JSON_parse].
    change (expressionAttributeNames (JObj [])) with (Ok (@nil (string * string))).
    cbv iota. rewrite Hup. eauto.
  - unfold updateUserSettings.handler. rewrite Hreq, Hbody. cbn [body_missing JSON_parse].
    change (expressionAttributeNames (JObj [])) with (Ok (@nil (string * string))).
    cbv iota. rewrite Hup. eauto.
  - destruct Hreq as (Hu & Ht & Hn).
    unfold updateTaskNotification.handler. rewrite Hu, Hbody, Ht, Hn. cbn [body_missing JSON_parse].
    change (expressionAttributeNames (JObj [])) with (Ok (@nil (string * string))).
    cbv iota. rewrite Hup. eauto.
Qed.

Lemma update_with_empty_object_witness :
  ∃ s' resp,
    update_handler (UpdateTask "u1" "t1") Scenario.env
      (Scenario.request [("taskId", "t1")] (Json (JObj []))) (Scenario.store [Scenario.task_t1])
    = (s', Ok resp) ∧ statusCode resp = 500 ∧ table s' = table (Scenario.store [Scenario.task_t1]).
Proof.
  apply (update_with_empty_object_fails (UpdateTask "u1" "t1")).
  - split; reflexivity.
  - repeat split; reflexivity.
Defined.

(** A number outside the safe integers does not marshal: the update is
    answered 500 and nothing is written. *)
Example update_with_unsafe_number :
  let event :=
    Scenario.request [("taskId", "t1")] (Json (JObj [("newDueDate", JNum 9007199254740992)])) in
  let s := Scenario.store [Scenario.task_t1] in
  let out := updateUserTask.handler Scenario.env event s in
  (statusCode <$> match out.2 with Ok r => Some r | _ => None end) = Some 500 ∧
  table out.1 = table s.
Proof. repeat split; vm_compute; reflexivity. Qed.
(** ** Splitting keys at their separators *)

Lemma append_cons a (x y : string) : String a x +:+ y = String a (x +:+ y).
Proof. reflexivity. Qed.

Lemma append_assoc (a b c : string) : (a +:+ b) +:+ c = a +:+ (b +:+ c).
Proof. induction a as [|x a IH]; [done|]. by rewrite !append_cons, IH. Qed.

Lemma append_nil_r (a : string) : a +:+ "" = a.
Proof. induction a as [|x a IH]; [done|]. by rewrite append_cons, IH. Qed.

Lemma prefix_append (a b : string) : String.prefix a (a +:+ b) = true.
Proof.
  induction a as [|x a IH]; [by destruct b|].
  rewrite append_cons. simpl. by destruct (ascii_dec x x).
Qed.

Lemma char_free_append c (a b : string) :
  char_free c (a +:+ b) = char_free c a && char_free c b.
Proof.
  induction a as [|x a IH]; [done|].
  rewrite append_cons. simpl. by rewrite IH, andb_assoc.
Qed.

Lemma first_index_append_free c (a b : string) :
  char_free c a = true → first_index c (a +:+ b) = (String.length a + first_index c b)%nat.
Proof.
  induction a as [|x a IH]; [done|]. rewrite append_cons. simpl.
  intros [Hx Ha]%andb_true_iff. apply negb_true_iff, bool_decide_eq_false in Hx.
  rewrite bool_decide_false by done. by rewrite IH.
Qed.

(** A separator in which [c] occurs is found only where the first [c] of
    the text is where the separator has its own. *)
Lemma prefix_first_index c (sep y : string) :
  String.prefix sep y = true → char_free c sep = false →
  first_index c y = first_index c sep ∧ char_free c y = false.
Proof.
  revert y. induction sep as [|x sep IH]; intros y; [done|].
  destruct y as [|a y]; simpl; [done|].
  destruct (ascii_dec x a) as [<-|]; [|done]. intros Hp.
  destruct (decide (x = c)) as [->|Hne].
  - by rewrite !bool_decide_true.
  - rewrite !bool_decide_false by done. simpl. intros Hsep.
    destruct (IH y Hp Hsep) as [-> ->]. done.
Qed.

Lemma split_go_skip sep (x : string) cur rest :
  split_go sep (String.length x) cur (x +:+ rest) = split_go sep 0 cur rest.
Proof.
  induction x as [|a x IH]; [done|].
  rewrite append_cons. simpl. exact IH.
Qed.

(** At an occurrence of the separator the current part ends and the
    separator is skipped. *)
Lemma split_go_match sep cur rest :
  sep ≠ "" → split_go sep 0 cur (sep +:+ rest) = cur :: split_go sep 0 "" rest.
Proof.
  destruct sep as [|a sep]; [done|]. intros _.
  pose proof (prefix_append (String a sep) rest) as Hp.
  rewrite append_cons in Hp |- *. cbn [split_go]. rewrite Hp.
  cbn [String.length Nat.pred]. by rewrite split_go_skip.
Qed.

(** A stretch free of [c] is passed over when [c] occurs in the separator
    no later than in what follows the stretch. *)
Lemma split_go_pass c sep (x : string) cur rest :
  char_free c x = true → char_free c sep = false →
  (first_index c sep ≤ first_index c rest)%nat →
  split_go sep 0 cur (x +:+ rest) = split_go sep 0 (cur +:+ x) rest.
Proof.
  intros Hx Hsep Hle. revert cur. induction x as [|a x IH]; intros cur.
  - by rewrite append_nil_r.
  - pose proof Hx as [Ha Hx']%andb_true_iff.
    rewrite append_cons. cbn [split_go].
    destruct (String.prefix sep (String a (x +:+ rest))) eqn:Hp.
    + exfalso. apply (prefix_first_index c) in Hp as [Hi _]; [|done].
      rewrite <- append_cons in Hi.
      rewrite first_index_append_free in Hi by done. simpl in Hi. lia.
    + rewrite IH by done. f_equal. by rewrite append_assoc.
Qed.

(** Where the separator cannot occur, nothing is split. *)
Lemma split_go_free c sep (x : string) cur :
  char_free c x = true → char_free c sep = false →
  split_go sep 0 cur x = [cur +:+ x].
Proof.
  intros Hx Hsep. revert cur. induction x as [|a x IH]; intros cur.
  - simpl. by rewrite append_nil_r.
  - pose proof Hx as [Ha Hx']%andb_true_iff. cbn [split_go].
    destruct (String.prefix sep (String a x)) eqn:Hp.
    + apply (prefix_first_index c) in Hp as [_ Hf]; [|done]. congruence.
    + rewrite IH by done. f_equal. by rewrite append_assoc.
Qed.

Lemma split_go_head sep skip cur s : is_Some (split_go sep skip cur s !! 0%nat).
Proof.
  revert skip cur. induction s as [|a s IH]; intros skip cur; simpl; [eauto|].
  destruct skip; [|done]. case_match; [eauto|done].
Qed.

(** A text that starts with the separator has a second part. *)
Lemma split_prefix sep s :
  sep ≠ "" → String.prefix sep s = true → is_Some (split sep s !! 1%nat).
Proof.
  intros Hsep Hp.
  assert (∃ rest, s = sep +:+ rest) as [rest ->].
  { clear Hsep. revert s Hp. induction sep as [|a sep IH]; intros s Hp; [by exists s|].
    destruct s as [|b s]; [done|]. simpl in Hp. destruct (ascii_dec a b) as [<-|]; [|done].
    destruct (IH s Hp) as [rest ->]. by exists rest. }
  unfold split. rewrite split_go_match by done. apply split_go_head.
Qed.
Lemma first_index_prefix c (sep y : string) :
  char_free c sep = false → first_index c (sep +:+ y) = first_index c sep.
Proof. intros Hsep. by apply (prefix_first_index c sep); [apply prefix_append|]. Qed.

Lemma first_index_le_prefix c (sep y : string) :
  char_free c sep = false → (first_index c sep ≤ first_index c (sep +:+ y))%nat.
Proof. intros Hsep. by rewrite first_index_prefix. Qed.

Lemma split_go_char sep a s cur :
  String.prefix sep (String a s) = false →
  split_go sep 0 cur (String a s) = split_go sep 0 (cur +:+ String a "") s.
Proof. intros Hp. cbn [split_go]. by rewrite Hp. Qed.

(** [sep + x] splits into the empty string and [x]. *)
Lemma split_tagged c sep (x : string) :
  sep ≠ "" → char_free c sep = false → char_free c x = true →
  split sep (sep +:+ x) = [""; x].
Proof.
  intros Hne Hsep Hx. unfold split.
  rewrite split_go_match by done. by rewrite (split_go_free c).
Qed.

(** [x + sep + y] splits into [x] and [y]. *)
Lemma split_joined c sep (x y : string) :
  sep ≠ "" → char_free c sep = false → char_free c x = true → char_free c y = true →
  split sep (x +:+ sep +:+ y) = [x; y].
Proof.
  intros Hne Hsep Hx Hy. unfold split.
  rewrite (split_go_pass c) by (done || by apply first_index_le_prefix).
  rewrite split_go_match by done. by rewrite (split_go_free c).
Qed.

Lemma split_notification_sk (t n : string) :
  hash_free t = true → hash_free n = true →
  split "NOTIFICATION#" ("TASK#" +:+ t +:+ "NOTIFICATION#" +:+ n) = ["TASK#" +:+ t; n].
Proof.
  intros Ht Hn. unfold split.
  set (rest := t +:+ "NOTIFICATION#" +:+ n).
  rewrite !append_cons. change ("" +:+ rest) with rest.
  do 5 (rewrite split_go_char by (vm_compute; reflexivity)).
  subst rest.
  rewrite (split_go_pass "#"); [|exact Ht|reflexivity|by apply first_index_le_prefix].
  rewrite split_go_match by done. by rewrite (split_go_free "#"); [|exact Hn|].
Qed.

Lemma split_task_of_notification_sk (t n : string) :
  hash_free t = true → hash_free n = true →
  split "TASK#" ("TASK#" +:+ t +:+ "NOTIFICATION#" +:+ n) = [""; t +:+ "NOTIFICATION#" +:+ n].
Proof.
  intros Ht Hn. unfold split. rewrite split_go_match by done.
  rewrite (split_go_pass "#"); [|exact Ht|reflexivity|].
  2:{ rewrite (first_index_prefix "#" "NOTIFICATION#") by reflexivity. vm_compute. lia. }
  rewrite !append_cons. change ("" +:+ n) with n.
  do 13 (rewrite split_go_char by (vm_compute; reflexivity)).
  rewrite (split_go_free "#"); [|exact Hn|reflexivity].
  by rewrite !append_assoc.
Qed.

Lemma includes_joined sep (x y : string) : initializeUser.includes sep (x +:+ sep +:+ y) = true.
Proof.
  induction x as [|a x IH].
  - change ("" +:+ sep +:+ y) with (sep +:+ y). destruct sep; [by destruct y|].
    rewrite append_cons. cbn [initializeUser.includes]. rewrite <- append_cons.
    by rewrite prefix_append.
  - rewrite append_cons. cbn [initializeUser.includes]. rewrite IH. apply orb_true_r.
Qed.

Lemma includes_free c sep (x : string) :
  char_free c sep = false → char_free c x = true → initializeUser.includes sep x = false.
Proof.
  intros Hsep. induction x as [|a x IH]; intros Hx.
  - destruct sep; done.
  - cbn [initializeUser.includes].
    destruct (String.prefix sep (String a x)) eqn:Hp.
    + apply (prefix_first_index c) in Hp as [_ Hf]; [|done]. congruence.
    + apply andb_true_iff in Hx as [_ Hx]. by rewrite IH.
Qed.

Lemma task_sk_is_no_notification (t : string) :
  hash_free t = true → initializeUser.includes "NOTIFICATION#" ("TASK#" +:+ t) = false.
Proof.
  intros Ht. rewrite !append_cons. change ("" +:+ t) with t.
  cbn [initializeUser.includes].
  rewrite (includes_free "#"); [|reflexivity|exact Ht].
  vm_compute. reflexivity.
Qed.
(** ** Deleting a task *)

Lemma task_key_is_no_notification_key userId taskId userId' taskId' notificationId :
  hash_free taskId = true →
  deleteUserTask.Key userId taskId ≠ notification_key userId' taskId' notificationId.
Proof.
  intros Hfree [= _ H]. apply append_inj_r in H. subst taskId.
  unfold hash_free in Hfree. rewrite !char_free_append in Hfree.
  change (char_free "#" "NOTIFICATION#") with false in Hfree.
  by rewrite andb_false_r in Hfree.
Qed.

(** X6: deleting a task removes the item of the task and nothing else; in
    particular every notification of the task stays in the table. *)
Theorem delete_task_leaves_notifications env event s userId taskId :
  present (TABLE_NAME env) = Some (tableName s) → online s = true →
  present (userId_header event) = Some userId →
  present (query_parameter event "taskId") = Some taskId →
  let out := deleteUserTask.handler env event s in
  out.2 = Ok (reply 200 "OPTIONS,DELETE" [("message", JStr "Task deleted successfully")]) ∧
  table out.1 = delete (deleteUserTask.Key userId taskId) (table s) ∧
  (∀ notificationId,
     table out.1 !! notification_key userId taskId notificationId
     = table s !! notification_key userId taskId notificationId).
Proof.
  intros Htn Hon Hu Ht. cbv zeta. unfold deleteUserTask.handler.
  rewrite Htn, Hu, Ht. unfold docClient_delete.
  rewrite accept_request_ok by done. simpl. split_and!; [done..|].
  intros notificationId. apply lookup_delete_ne.
  intros [= H]. apply append_inj_r in H.
  by apply (append_neq_self taskId ("NOTIFICATION#" +:+ notificationId)).
Qed.

Lemma delete_task_leaves_notifications_witness :
  let event := Scenario.request [("taskId", "t1")] NoBody in
  let s := Scenario.store [Scenario.task_t1; (notification_key "u1" "t1" "n1", ∅)] in
  let out := deleteUserTask.handler Scenario.env event s in
  out.2 = Ok (reply 200 "OPTIONS,DELETE" [("message", JStr "Task deleted successfully")]) ∧
  table out.1 = delete (deleteUserTask.Key "u1" "t1") (table s) ∧
  (∀ notificationId,
     table out.1 !! notification_key "u1" "t1" notificationId
     = table s !! notification_key "u1" "t1" notificationId).
Proof. by apply delete_task_leaves_notifications. Defined.

(** ** Creating notifications and categories *)

Ltac stored_attribute :=
  unfold item_attrs; rewrite ?lookup_delete_ne by done;
  cbn [list_to_map foldr fst snd uncurry curry];
  repeat (rewrite lookup_insert_ne by done); rewrite ?lookup_insert_eq.

Lemma coalesce_marshallable fields k d :
  marshallable (JObj fields) = true → marshallable d = true →
  marshallable (createTaskNotification.coalesce (member (JObj fields) k) d) = true.
Proof.
  intros Hjson Hd. unfold createTaskNotification.coalesce.
  destruct (member_marshallable fields k Hjson) as [->|Hm]; [done|].
  by destruct (nullish _).
Qed.

(** What a well-formed create-notification request does. *)
Lemma create_notification_run env event s userId taskId fields :
  serving env s →
  present (userId_header event) = Some userId →
  present (query_parameter event "taskId") = Some taskId →
  body event = Json (JObj fields) → marshallable (JObj fields) = true →
  member (JObj fields) "reminderTimeBeforeDue" ≠ JUndefined →
  let notificationEnabled :=
    createTaskNotification.coalesce (member (JObj fields) "notificationEnabled") (JBool true) in
  let reminderTimeBeforeDue := member (JObj fields) "reminderTimeBeforeDue" in
  let key := createTaskNotification.Key userId taskId (uuidv4 env 0) in
  let Item :=
    [("pk", JStr key.1); ("sk", JStr key.2);
     ("notificationEnabled", notificationEnabled);
     ("reminderTimeBeforeDue", reminderTimeBeforeDue);
     ("createdAt", JNum (now env)); ("updatedAt", JNum (now env))] in
  createTaskNotification.handler env event s
  = (with_table (<[key := item_attrs Item]> (table s)) (record (CPut Item) s),
     Ok (reply 200 "OPTIONS,POST"
           [("message", JStr "Task notification created successfully");
            ("data", JObj [("taskId", JStr taskId);
                           ("notificationId", JStr (uuidv4 env 0));
                           ("notificationEnabled", notificationEnabled);
                           ("reminderTimeBeforeDue", reminderTimeBeforeDue);
                           ("createdAt", JNum (now env));
                           ("updatedAt", JNum (now env))])])).
Proof.
  intros Hserv Hu Ht Hbody Hjson Hrem. cbv zeta.
  unfold createTaskNotification.handler. rewrite Hu, Hbody, Ht.
  cbn [body_missing JSON_parse mbind Exc_bind get nullish].
  unfold docClient_put. rewrite accept_request_serving; [done|done|].
  pose proof (now_marshallable env) as Hnow.
  cbn [fmap list_fmap snd forallb]. rewrite coalesce_marshallable, Hnow by done.
  destruct (member_marshallable fields "reminderTimeBeforeDue" Hjson) as [?|Hm]; [done|by rewrite Hm].
Qed.

(** Two objects agree on a field: by cases on the field's name. *)
Ltac by_field :=
  repeat match goal with
         | |- context [bool_decide (?a = ?k)] =>
             destruct (decide (a = k)) as [<-|?];
             [reflexivity|rewrite (bool_decide_false (a = k)) by done]
         end;
  try reflexivity.

Lemma reply_data status methods msg d :
  member (responseBody (reply status methods [("message", msg); ("data", d)])) "data" = d.
Proof. reflexivity. Qed.

(** X7: a create-notification request with a reminder time stores an item
    under the notification key of the task and the generated id, with
    [notificationEnabled] defaulting to true when the body leaves it out or
    gives null; what the user listing makes of the stored item has the
    fields of the entity returned in the answer. *)
Theorem created_notification_is_listed env event s userId taskId fields :
  serving env s →
  present (userId_header event) = Some userId →
  present (query_parameter event "taskId") = Some taskId →
  body event = Json (JObj fields) → marshallable (JObj fields) = true →
  member (JObj fields) "reminderTimeBeforeDue" ≠ JUndefined →
  hash_free taskId = true → hash_free (uuidv4 env 0) = true →
  let out := createTaskNotification.handler env event s in
  let key := notification_key userId taskId (uuidv4 env 0) in
  ∃ resp item listed,
    out.2 = Ok resp ∧ statusCode resp = 200 ∧
    table out.1 = <[key := item]> (table s) ∧
    item !! "notificationEnabled"
    = Some (createTaskNotification.coalesce (member (JObj fields) "notificationEnabled") (JBool true)) ∧
    item !! "reminderTimeBeforeDue" = Some (member (JObj fields) "reminderTimeBeforeDue") ∧
    item !! "createdAt" = Some (JNum (now env)) ∧ item !! "updatedAt" = Some (JNum (now env)) ∧
    initializeUser.cleanedTaskNotification (key, item) = Ok listed ∧
    (∀ k, member listed k = member (member (responseBody resp) "data") k).
Proof.
  intros Hserv Hu Ht Hbody Hjson Hrem Hft Hfn. cbv zeta.
  rewrite (create_notification_run env event s userId taskId fields) by done.
  cbn [fst snd]. eexists _, _.
  exists (JObj [("notificationId", JStr (uuidv4 env 0)); ("taskId", JStr taskId);
                ("notificationEnabled",
                 createTaskNotification.coalesce (member (JObj fields) "notificationEnabled")
                   (JBool true));
                ("reminderTimeBeforeDue", member (JObj fields) "reminderTimeBeforeDue");
                ("createdAt", JNum (now env)); ("updatedAt", JNum (now env))]).
  split; [reflexivity|]. split; [reflexivity|]. split; [reflexivity|].
  split_and!; try (by stored_attribute).
  - unfold initializeUser.cleanedTaskNotification, notification_key. cbn [fst snd].
    rewrite split_task_of_notification_sk by done. cbn [lookup list_lookup].
    unfold initializeUser.part. rewrite split_notification_sk by done.
    rewrite (split_joined "#") by done.
    cbn [lookup list_lookup fmap option_fmap option_map default from_option id].
    unfold initializeUser.attribute.
    repeat (stored_attribute; cbn [default from_option id]).
    reflexivity.
  - intros k. rewrite reply_data.
    generalize (createTaskNotification.coalesce (member (JObj fields) "notificationEnabled")
                  (JBool true)), (member (JObj fields) "reminderTimeBeforeDue").
    intros enabled minutes. unfold member, assoc. cbn [find fst snd].
    by_field.
Qed.

Lemma created_notification_is_listed_witness :
  let fields := [("notificationEnabled", JBool true); ("reminderTimeBeforeDue", JNum 15)] in
  let event := Scenario.request [("taskId", "t1")] (Json (JObj fields)) in
  let s := Scenario.store [Scenario.task_t1] in
  let out := createTaskNotification.handler Scenario.env event s in
  let key := notification_key "u1" "t1" (uuidv4 Scenario.env 0) in
  ∃ resp item listed,
    out.2 = Ok resp ∧ statusCode resp = 200 ∧
    table out.1 = <[key := item]> (table s) ∧
    item !! "notificationEnabled"
    = Some (createTaskNotification.coalesce (member (JObj fields) "notificationEnabled") (JBool true)) ∧
    item !! "reminderTimeBeforeDue" = Some (member (JObj fields) "reminderTimeBeforeDue") ∧
    item !! "createdAt" = Some (JNum (now Scenario.env)) ∧
    item !! "updatedAt" = Some (JNum (now Scenario.env)) ∧
    initializeUser.cleanedTaskNotification (key, item) = Ok listed ∧
    (∀ k, member listed k = member (member (responseBody resp) "data") k).
Proof.
  apply created_notification_is_listed; try reflexivity.
  - split; reflexivity.
  - discriminate.
Defined.

(** X8: a create-notification request whose body is the JSON text [null]
    passes the missing-body guard and makes the handler throw a [TypeError]
    (the body's fields are read outside the [try] block); the store is not
    called. *)
Theorem create_notification_with_null_body_throws env event s userId taskId requestBody :
  present (userId_header event) = Some userId →
  present (query_parameter event "taskId") = Some taskId →
  body event = Json requestBody → nullish requestBody = true →
  ∃ e, createTaskNotification.handler env event s = (s, Throw e) ∧ name e = "TypeError".
Proof.
  intros Hu Ht Hbody Hnull.
  unfold createTaskNotification.handler. rewrite Hu, Hbody, Ht.
  cbn [body_missing JSON_parse mbind Exc_bind]. unfold get. rewrite Hnull.
  cbn [mbind Exc_bind]. eauto.
Qed.

Lemma create_notification_with_null_body_witness :
  ∃ e, createTaskNotification.handler Scenario.env
         (Scenario.request [("taskId", "t1")] (Json JNull)) (Scenario.store [])
       = (Scenario.store [], Throw e) ∧ name e = "TypeError".
Proof. by apply (create_notification_with_null_body_throws _ _ _ "u1" "t1" JNull). Defined.

(** X9: creating a notification under a fresh id and then deleting the
    notification with the id returned in the answer leaves the table as it
    was before the creation. *)
Theorem create_then_delete_notification env event s userId taskId fields env' event' :
  serving env s →
  present (userId_header event) = Some userId →
  present (query_parameter event "taskId") = Some taskId →
  body event = Json (JObj fields) → marshallable (JObj fields) = true →
  member (JObj fields) "reminderTimeBeforeDue" ≠ JUndefined →
  table s !! notification_key userId taskId (uuidv4 env 0) = None →
  table_name_or_empty env' = table_name_or_empty env →
  present (userId_header event') = Some userId →
  present (query_parameter event' "taskId") = Some taskId →
  present (query_parameter event' "notificationId") = Some (uuidv4 env 0) →
  let created := createTaskNotification.handler env event s in
  let deleted := deleteTaskNotification.handler env' event' created.1 in
  (∃ resp, created.2 = Ok resp ∧ statusCode resp = 200 ∧
           member (member (responseBody resp) "data") "notificationId" = JStr (uuidv4 env 0)) ∧
  (∃ resp, deleted.2 = Ok resp ∧ statusCode resp = 200) ∧
  table deleted.1 = table s.
Proof.
  intros Hserv Hu Ht Hbody Hjson Hrem Hfresh Henv Hu' Ht' Hn'. cbv zeta.
  rewrite (create_notification_run env event s userId taskId fields) by done.
  cbn [fst snd]. split; [eauto|].
  unfold deleteTaskNotification.handler. rewrite Hu', Ht', Hn'.
  rewrite docClient_delete_serving.
  2:{ destruct Hserv as [Hon Hname]. split; [done|]. by rewrite Henv. }
  cbn [fst snd table with_table record]. split; [eauto|].
  by apply delete_insert_id.
Qed.

Lemma create_then_delete_notification_witness :
  let fields := [("reminderTimeBeforeDue", JNum 15)] in
  let event := Scenario.request [("taskId", "t1")] (Json (JObj fields)) in
  let event' := Scenario.request [("taskId", "t1"); ("notificationId", "uuid-0")] NoBody in
  let s := Scenario.store [Scenario.task_t1] in
  let created := createTaskNotification.handler Scenario.env event s in
  let deleted := deleteTaskNotification.handler Scenario.env event' created.1 in
  (∃ resp, created.2 = Ok resp ∧ statusCode resp = 200 ∧
           member (member (responseBody resp) "data") "notificationId"
           = JStr (uuidv4 Scenario.env 0)) ∧
  (∃ resp, deleted.2 = Ok resp ∧ statusCode resp = 200) ∧
  table deleted.1 = table s.
Proof.
  apply (create_then_delete_notification Scenario.env _ _ "u1" "t1"
           [("reminderTimeBeforeDue", JNum 15)]); try reflexivity.
  - split; reflexivity.
  - discriminate.
Defined.

(** What a well-formed create-category request does. *)
Lemma create_category_run env event s userId fields :
  serving env s →
  present (userId_header event) = Some userId →
  body event = Json (JObj fields) → marshallable (JObj fields) = true →
  member (JObj fields) "categoryName" ≠ JUndefined →
  let categoryName := member (JObj fields) "categoryName" in
  let key := createUserCategory.Key userId (uuidv4 env 0) in
  let Item :=
    [("pk", JStr key.1); ("sk", JStr key.2);
     ("categoryName", categoryName);
     ("createdAt", JNum (now env)); ("updatedAt", JNum (now env))] in
  createUserCategory.handler env event s
  = (with_table (<[key := item_attrs Item]> (table s)) (record (CPut Item) s),
     Ok (reply 200 "OPTIONS,POST"
           [("data", JObj [("categoryId", JStr (uuidv4 env 0));
                           ("categoryName", categoryName);
                           ("createdAt", JNum (now env));
                           ("updatedAt", JNum (now env))]);
            ("message", JStr "Category created successfully")])).
Proof.
  intros Hserv Hu Hbody Hjson Hname. cbv zeta.
  unfold createUserCategory.handler. rewrite Hu, Hbody.
  cbn [body_missing JSON_parse mbind Exc_bind get nullish].
  unfold docClient_put. rewrite accept_request_serving; [done|done|].
  pose proof (now_marshallable env) as Hnow.
  cbn [fmap list_fmap snd forallb]. rewrite Hnow.
  destruct (member_marshallable fields "categoryName" Hjson) as [?|Hm]; [done|by rewrite Hm].
Qed.

(** X10: a create-category request with a category name stores an item
    under [USER#<userId>] / [CATEGORY#<generated id>] with the name and both
    timestamps set to the clock reading, and the entity the user listing
    makes of the stored item is the one returned in the answer. *)
Theorem created_category_is_listed env event s userId fields :
  serving env s →
  present (userId_header event) = Some userId →
  body event = Json (JObj fields) → marshallable (JObj fields) = true →
  member (JObj fields) "categoryName" ≠ JUndefined →
  hash_free (uuidv4 env 0) = true →
  let out := createUserCategory.handler env event s in
  let key := createUserCategory.Key userId (uuidv4 env 0) in
  ∃ resp item,
    out.2 = Ok resp ∧ statusCode resp = 200 ∧
    table out.1 = <[key := item]> (table s) ∧
    item !! "categoryName" = Some (member (JObj fields) "categoryName") ∧
    item !! "createdAt" = Some (JNum (now env)) ∧ item !! "updatedAt" = Some (JNum (now env)) ∧
    initializeUser.cleanedUserCategory (key, item) = member (responseBody resp) "data".
Proof.
  intros Hserv Hu Hbody Hjson Hname Hfree. cbv zeta.
  rewrite (create_category_run env event s userId fields) by done.
  cbn [fst snd]. eexists _, _.
  split; [reflexivity|]. split; [reflexivity|]. split; [reflexivity|].
  split_and!; try (by stored_attribute).
  unfold initializeUser.cleanedUserCategory, createUserCategory.Key. cbn [fst snd].
  unfold initializeUser.part. rewrite (split_tagged "#") by done.
  cbn [lookup list_lookup fmap option_fmap option_map default from_option id].
  unfold initializeUser.attribute.
  repeat (stored_attribute; cbn [default from_option id]).
  reflexivity.
Qed.

Lemma created_category_is_listed_witness :
  let fields := [("categoryName", JStr "Home")] in
  let event := Scenario.request [] (Json (JObj fields)) in
  let s := Scenario.store [] in
  let out := createUserCategory.handler Scenario.env event s in
  let key := createUserCategory.Key "u1" (uuidv4 Scenario.env 0) in
  ∃ resp item,
    out.2 = Ok resp ∧ statusCode resp = 200 ∧
    table out.1 = <[key := item]> (table s) ∧
    item !! "categoryName" = Some (member (JObj fields) "categoryName") ∧
    item !! "createdAt" = Some (JNum (now Scenario.env)) ∧
    item !! "updatedAt" = Some (JNum (now Scenario.env)) ∧
    initializeUser.cleanedUserCategory (key, item) = member (responseBody resp) "data".
Proof.
  apply created_category_is_listed; try reflexivity.
  - split; reflexivity.
  - discriminate.
Defined.

(** X11: a create-category request whose body is the JSON text [null]
    passes the missing-body guard and makes the handler throw a [TypeError]
    ([categoryName] is read outside the [try] block); the store is not
    called. *)
Theorem create_category_with_null_body_throws env event s userId requestBody :
  present (userId_header event) = Some userId →
  body event = Json requestBody → nullish requestBody = true →
  ∃ e, createUserCategory.handler env event s = (s, Throw e) ∧ name e = "TypeError".
Proof.
  intros Hu Hbody Hnull.
  unfold createUserCategory.handler. rewrite Hu, Hbody.
  cbn [body_missing JSON_parse mbind Exc_bind]. unfold get. rewrite Hnull. eauto.
Qed.

Lemma create_category_with_null_body_witness :
  ∃ e, createUserCategory.handler Scenario.env (Scenario.request [] (Json JNull))
         (Scenario.store [])
       = (Scenario.store [], Throw e) ∧ name e = "TypeError".
Proof. by apply (create_category_with_null_body_throws _ _ _ "u1" JNull). Defined.

(** ** Creating a task with no notification chosen *)

(** X12: a create-task request whose selection map selects no reminder
    stores the task and is answered 500 with the handler's own message,
    because the empty batch of notifications is refused. *)
Theorem create_task_without_chosen_notification env event s userId fields selection :
  present (TABLE_NAME env) = Some (tableName s) → online s = true →
  present (userId_header event) = Some userId →
  body event = Json (JObj fields) → marshallable (JObj fields) = true →
  member (JObj fields) "taskTitle" ≠ JUndefined →
  member (JObj fields) "defaultNotifications" = JObj selection →
  selection_map selection = true → chosen selection = [] →
  let out := createUserTask.handler env event s in
  (∃ resp, out.2 = Ok resp ∧ statusCode resp = 500 ∧
           member (responseBody resp) "message"
           = JStr "Error creating task and its notifications") ∧
  ∃ item,
    table out.1 = <[createUserTask.taskKey userId (uuidv4 env 0) := item]> (table s) ∧
    item !! "taskTitle" = Some (member (JObj fields) "taskTitle") ∧
    item !! "taskCompleted" = Some (JBool false).
Proof.
  intros Htn Hon Hu Hbody Hjson Htitle Hsel Hmap Hnone. cbv zeta.
  unfold createUserTask.handler. rewrite Htn, Hu, Hbody. cbn [body_missing].
  rewrite (parse_object _ _ Hsel).
  cbn [createUserTask.taskTitle createUserTask.taskNotes createUserTask.taskDueDate
       createUserTask.categoryId createUserTask.notifications createUserTask.keys
       createUserTask.requestBody].
  unfold docClient_put.
  rewrite accept_request_ok
    by (done || by apply taskItem_marshallable; [apply now_marshallable|..]).
  rewrite taskItem_key.
  unfold createUserTask.notificationItems. rewrite selected_chosen by done. rewrite Hnone.
  unfold docClient_batchWrite. simpl imap.
  rewrite accept_request_ok by done. simpl. split; [eauto|].
  eexists. split; [reflexivity|]. split.
  - unfold item_attrs, createUserTask.taskItem.
    rewrite !lookup_delete_ne by done. rewrite <- !app_comm_cons.
    cbn [list_to_map foldr fst snd uncurry curry].
    rewrite lookup_insert_ne by done. rewrite lookup_insert_ne by done.
    apply lookup_insert_eq.
  - apply taskItem_stored_taskCompleted.
Qed.

Lemma create_task_without_chosen_notification_witness :
  let selection := [("5", JBool false); ("15", JBool false)] in
  let fields := [("taskTitle", JStr "Buy milk"); ("defaultNotifications", JObj selection)] in
  let out := createUserTask.handler Scenario.env (Scenario.request [] (Json (JObj fields)))
               (Scenario.store []) in
  (∃ resp, out.2 = Ok resp ∧ statusCode resp = 500 ∧
           member (responseBody resp) "message"
           = JStr "Error creating task and its notifications") ∧
  ∃ item,
    table out.1
    = <[createUserTask.taskKey "u1" (uuidv4 Scenario.env 0) := item]> (table (Scenario.store [])) ∧
    item !! "taskTitle" = Some (member (JObj fields) "taskTitle") ∧
    item !! "taskCompleted" = Some (JBool false).
Proof.
  apply (create_task_without_chosen_notification _ _ _ "u1" _
           [("5", JBool false); ("15", JBool false)]); try reflexivity.
  discriminate.
Defined.
(** ** Initializing a user *)

Lemma docClient_get_ok TableName k s :
  online s = true → TableName = tableName s →
  Reads.docClient_get TableName k s = Ok {| Reads.Item := table s !! k |}.
Proof.
  intros Hon ->. unfold Reads.docClient_get, accept_request. simpl.
  rewrite Hon. simpl. by rewrite bool_decide_true.
Qed.

Lemma docClient_query_begins_with_ok TableName pk prefix s :
  online s = true → TableName = tableName s →
  ∃ token,
    Reads.docClient_query_begins_with TableName pk prefix s
    = Ok {| Items := Some (take (pageLimit s) (Reads.starting_with pk prefix (table s)));
            LastEvaluatedKey := token |}.
Proof.
  intros Hon ->. unfold Reads.docClient_query_begins_with, accept_request. simpl.
  rewrite Hon. simpl. rewrite bool_decide_true by done. eauto.
Qed.

Lemma mapM_Exc_Ok {A B} (f : A → Exc B) (l : list A) :
  Forall (fun x => ∃ y, f x = Ok y) l →
  ∃ l', mapM f l = Ok l' ∧ Forall2 (fun x y => f x = Ok y) l l'.
Proof.
  induction 1 as [|x l [y Hy] _ (l' & IH & Hall)]; simpl.
  - by exists [].
  - exists (y :: l'). rewrite Hy. simpl. rewrite IH. simpl. split; [done|]. by constructor.
Qed.

(** Every item of a page of the [TASK#] query can be cleaned as a
    notification. *)
Lemma cleanedTaskNotification_Ok (x : DynamoDB.Key * gmap string JValue) :
  String.prefix "TASK#" x.1.2 = true → ∃ y, initializeUser.cleanedTaskNotification x = Ok y.
Proof.
  intros Hp. unfold initializeUser.cleanedTaskNotification.
  destruct (split_prefix "TASK#" x.1.2) as [rest ->]; [done..|]. eauto.
Qed.

Lemma starting_with_prefix pk prefix t :
  Forall (fun x => String.prefix prefix x.1.2 = true) (Reads.starting_with pk prefix t).
Proof.
  apply Forall_forall. intros x [Hx _]%list_elem_of_filter. by apply Is_true_true.
Qed.

Lemma elem_of_starting_with pk prefix t k v :
  (k, v) ∈ Reads.starting_with pk prefix t
  ↔ t !! k = Some v ∧ k.1 = pk ∧ String.prefix prefix k.2 = true.
Proof.
  unfold Reads.starting_with. rewrite list_elem_of_filter, elem_of_partition. simpl.
  rewrite Is_true_true. tauto.
Qed.

(** What the handler answers for a user whose settings exist and hold
    their [defaultNotifications]. *)
Lemma initialize_existing_run env event s userId item :
  present (TABLE_NAME env) = Some (tableName s) → online s = true →
  present (userId_header event) = Some userId →
  table s !! initializeUser.Key userId = Some item →
  nullish (initializeUser.attribute item "defaultNotifications") = false →
  let pk := "USER#" +:+ userId in
  let page := take (pageLimit s) (Reads.starting_with pk "TASK#" (table s)) in
  ∃ settings notifications,
    initializeUser.cleanedUserSettings (Some item) = Ok settings ∧
    Forall2 (fun x y => initializeUser.cleanedTaskNotification x = Ok y)
      (filter (fun x => Is_true (initializeUser.is_notification x)) page) notifications ∧
    initializeUser.handler env event s
    = (s, Ok (reply 200 "OPTIONS,POST"
                [("message", JStr "User data retrieved successfully");
                 ("data",
                  JObj [("userSettings", settings);
                        ("userCategories",
                         JArr (initializeUser.cleanedUserCategory <$>
                               take (pageLimit s)
                                 (Reads.starting_with pk "CATEGORY#" (table s))));
                        ("userTasks",
                         JArr (initializeUser.cleanedUserTask <$>
                               filter (fun x => Is_true (negb (initializeUser.is_notification x)))
                                 page));
                        ("taskNotifications", JArr notifications)])])).
Proof.
  intros Htn Hon Hu Hitem Hdn. cbv zeta.
  unfold initializeUser.handler. rewrite Htn, Hu.
  rewrite docClient_get_ok by done. cbn [Reads.Item]. rewrite Hitem.
  cbn [mbind Exc_bind].
  destruct (docClient_query_begins_with_ok (tableName s) ("USER#" +:+ userId) "CATEGORY#" s)
    as [tok1 ->]; [done..|].
  destruct (docClient_query_begins_with_ok (tableName s) ("USER#" +:+ userId) "TASK#" s)
    as [tok2 ->]; [done..|].
  unfold initializeUser.userData. cbn [Reads.Item Items].
  assert (∃ settings, initializeUser.cleanedUserSettings (Some item) = Ok settings) as [settings Hs].
  { unfold initializeUser.cleanedUserSettings, initializeUser.defaultNotification, get.
    rewrite Hdn. cbn [mbind Exc_bind]. eauto. }
  rewrite Hs.
  cbn [mbind Exc_bind Items fmap option_fmap option_map initializeUser.map_optional].
  set (page := take (pageLimit s) (Reads.starting_with ("USER#" +:+ userId) "TASK#" (table s))).
  destruct (mapM_Exc_Ok initializeUser.cleanedTaskNotification
              (filter (fun x => Is_true (initializeUser.is_notification x)) page))
    as (notifications & -> & Hall).
  { apply Forall_forall. intros x [_ Hx]%list_elem_of_filter.
    apply cleanedTaskNotification_Ok.
    pose proof (starting_with_prefix ("USER#" +:+ userId) "TASK#" (table s)) as Hp.
    rewrite Forall_forall in Hp. apply Hp.
    subst page. by eapply subseteq_take. }
  cbn [mbind Exc_bind initializeUser.optional_array]. exists settings, notifications. done.
Qed.
Lemma settings_item_cleaned userId currentTime :
  initializeUser.cleanedUserSettings
    (Some (item_attrs ([("pk", JStr ("USER#" +:+ userId)); ("sk", JStr "SETTINGS#")]
                       ++ initializeUser.userSettings currentTime)))
  = Ok (JObj (initializeUser.userSettings currentTime)).
Proof.
  unfold initializeUser.cleanedUserSettings, initializeUser.defaultNotification,
    initializeUser.attribute, initializeUser.userSettings.
  cbn [app from_option].
  repeat (stored_attribute; cbn [default from_option id]).
  reflexivity.
Qed.

(** X13: for a user without a settings item the handler stores the default
    settings and answers 200 with them and with empty lists, whatever else
    the partition of the user holds; a later call finds the settings,
    answers 200 with the same settings and writes nothing. *)
Theorem initialize_new_user env event s userId :
  present (TABLE_NAME env) = Some (tableName s) → online s = true →
  present (userId_header event) = Some userId →
  table s !! initializeUser.Key userId = None →
  let out := initializeUser.handler env event s in
  out.2 = Ok (reply 200 "OPTIONS,POST"
                [("message", JStr "User and settings created successfully");
                 ("data",
                  JObj [("userSettings", JObj (initializeUser.userSettings (now env)));
                        ("userCategories", JArr []);
                        ("userTasks", JArr []);
                        ("taskNotifications", JArr [])])]) ∧
  (∃ item, table out.1 = <[initializeUser.Key userId := item]> (table s) ∧
           initializeUser.cleanedUserSettings (Some item)
           = Ok (JObj (initializeUser.userSettings (now env)))) ∧
  (∀ env2 event2,
     present (TABLE_NAME env2) = Some (tableName s) →
     present (userId_header event2) = Some userId →
     ∃ resp,
       initializeUser.handler env2 event2 out.1 = (out.1, Ok resp) ∧ statusCode resp = 200 ∧
       member (member (responseBody resp) "data") "userSettings"
       = JObj (initializeUser.userSettings (now env))).
Proof.
  intros Htn Hon Hu Hnone. cbv zeta.
  set (Item := [("pk", JStr ("USER#" +:+ userId)); ("sk", JStr "SETTINGS#")]
               ++ initializeUser.userSettings (now env)).
  assert (initializeUser.handler env event s
          = (with_table (<[initializeUser.Key userId := item_attrs Item]> (table s))
               (record (CPut Item) s),
             Ok (reply 200 "OPTIONS,POST"
                   [("message", JStr "User and settings created successfully");
                    ("data",
                     JObj [("userSettings", JObj (initializeUser.userSettings (now env)));
                           ("userCategories", JArr []);
                           ("userTasks", JArr []);
                           ("taskNotifications", JArr [])])]))) as ->.
  { unfold initializeUser.handler. rewrite Htn, Hu.
    rewrite docClient_get_ok by done. cbn [Reads.Item]. rewrite Hnone.
    unfold docClient_put. rewrite accept_request_ok; [reflexivity|done|done|].
    pose proof (now_marshallable env) as Hnow. subst Item.
    unfold initializeUser.userSettings. simpl in Hnow |- *. by rewrite Hnow. }
  cbn [fst snd]. split; [done|]. split.
  { exists (item_attrs Item). split; [done|]. apply settings_item_cleaned. }
  intros env2 event2 Htn2 Hu2.
  set (s' := with_table _ _).
  destruct (initialize_existing_run env2 event2 s' userId (item_attrs Item))
    as (settings & notifications & Hs & _ & Hrun); [done..| | |].
  - subst s'. cbn [table with_table]. apply lookup_insert_eq.
  - subst Item. unfold initializeUser.attribute, initializeUser.userSettings. cbn [app].
    stored_attribute. reflexivity.
  - rewrite Hrun. eexists. split; [reflexivity|]. split; [reflexivity|].
    rewrite reply_data. subst Item. rewrite settings_item_cleaned in Hs.
    injection Hs as <-. reflexivity.
Qed.

Lemma initialize_new_user_witness :
  let s := Scenario.store [Scenario.task_t1] in
  let out := initializeUser.handler Scenario.env (Scenario.request [] NoBody) s in
  out.2 = Ok (reply 200 "OPTIONS,POST"
                [("message", JStr "User and settings created successfully");
                 ("data",
                  JObj [("userSettings", JObj (initializeUser.userSettings (now Scenario.env)));
                        ("userCategories", JArr []);
                        ("userTasks", JArr []);
                        ("taskNotifications", JArr [])])]) ∧
  (∃ item, table out.1 = <[initializeUser.Key "u1" := item]> (table s) ∧
           initializeUser.cleanedUserSettings (Some item)
           = Ok (JObj (initializeUser.userSettings (now Scenario.env)))) ∧
  (∀ env2 event2,
     present (TABLE_NAME env2) = Some (tableName s) →
     present (userId_header event2) = Some "u1" →
     ∃ resp,
       initializeUser.handler env2 event2 out.1 = (out.1, Ok resp) ∧ statusCode resp = 200 ∧
       member (member (responseBody resp) "data") "userSettings"
       = JObj (initializeUser.userSettings (now Scenario.env))).
Proof. by apply initialize_new_user. Defined.

Lemma length_filter_split {A} (f : A → bool) (l : list A) :
  (length (filter (fun x => Is_true (negb (f x))) l) + length (filter (fun x => Is_true (f x)) l)
   = length l)%nat.
Proof.
  induction l as [|x l IH]; [done|].
  rewrite !filter_cons. destruct (f x); simpl; lia.
Qed.

(** X14: for a user whose settings exist the handler writes nothing and
    answers with the first page of the [TASK#] items only: the tasks and the
    notifications it returns are together as many as the items of that
    page. *)
Theorem initialize_lists_one_page env event s userId item :
  present (TABLE_NAME env) = Some (tableName s) → online s = true →
  present (userId_header event) = Some userId →
  table s !! initializeUser.Key userId = Some item →
  nullish (initializeUser.attribute item "defaultNotifications") = false →
  ∃ resp tasks notifications,
    initializeUser.handler env event s = (s, Ok resp) ∧ statusCode resp = 200 ∧
    member (member (responseBody resp) "data") "userTasks" = JArr tasks ∧
    member (member (responseBody resp) "data") "taskNotifications" = JArr notifications ∧
    (length tasks + length notifications
     = length (Reads.starting_with ("USER#" +:+ userId) "TASK#" (table s)) `min` pageLimit s)%nat.
Proof.
  intros Htn Hon Hu Hitem Hdn.
  destruct (initialize_existing_run env event s userId item)
    as (settings & notifications & _ & Hall & Hrun); [done..|].
  rewrite Hrun. eexists _, _, notifications.
  split; [reflexivity|]. split; [reflexivity|]. rewrite reply_data.
  split; [reflexivity|]. split; [reflexivity|].
  rewrite length_fmap. rewrite <- (Forall2_length _ _ _ Hall).
  rewrite (length_filter_split initializeUser.is_notification), length_take. lia.
Qed.

Lemma Forall2_elem_of_l {A B} (P : A → B → Prop) l k x :
  Forall2 P l k → x ∈ l → ∃ y, y ∈ k ∧ P x y.
Proof.
  induction 1 as [|a b l k Hab _ IH]; [by intros ?%elem_of_nil|].
  intros [->|Hx]%elem_of_cons.
  - exists b. split; [left|done].
  - destruct (IH Hx) as (y & ? & ?). exists y. split; [by right|done].
Qed.

(** X15: when the [TASK#] items of the user fit in one page, every stored
    notification whose task id and notification id contain no [#] is listed
    with these two ids and its stored attributes. *)
Theorem initialize_lists_stored_notification env event s userId item taskId notificationId v :
  present (TABLE_NAME env) = Some (tableName s) → online s = true →
  present (userId_header event) = Some userId →
  table s !! initializeUser.Key userId = Some item →
  nullish (initializeUser.attribute item "defaultNotifications") = false →
  (length (Reads.starting_with ("USER#" +:+ userId) "TASK#" (table s)) ≤ pageLimit s)%nat →
  hash_free taskId = true → hash_free notificationId = true →
  table s !! notification_key userId taskId notificationId = Some v →
  ∃ resp notifications,
    initializeUser.handler env event s = (s, Ok resp) ∧
    member (member (responseBody resp) "data") "taskNotifications" = JArr notifications ∧
    JObj [("notificationId", JStr notificationId);
          ("taskId", JStr taskId);
          ("notificationEnabled", initializeUser.attribute v "notificationEnabled");
          ("reminderTimeBeforeDue", initializeUser.attribute v "reminderTimeBeforeDue");
          ("createdAt", initializeUser.attribute v "createdAt");
          ("updatedAt", initializeUser.attribute v "updatedAt")] ∈ notifications.
Proof.
  intros Htn Hon Hu Hitem Hdn Hpage Hft Hfn Hv.
  destruct (initialize_existing_run env event s userId item)
    as (settings & notifications & _ & Hall & Hrun); [done..|].
  rewrite Hrun. eexists _, notifications. split; [reflexivity|]. rewrite reply_data.
  split; [reflexivity|].
  rewrite take_ge in Hall by done.
  destruct (Forall2_elem_of_l _ _ _ (notification_key userId taskId notificationId, v) Hall)
    as (y & Hy & Hclean).
  { apply list_elem_of_filter. split.
    - apply Is_true_true. unfold initializeUser.is_notification, notification_key. cbn [fst snd].
      rewrite <- append_assoc. apply includes_joined.
    - apply elem_of_starting_with. split; [done|]. split; [done|].
      unfold notification_key. cbn [snd]. apply prefix_append. }
  revert Hclean.
  unfold initializeUser.cleanedTaskNotification, notification_key. cbn [fst snd].
  rewrite split_task_of_notification_sk by done. cbn [lookup list_lookup].
  unfold initializeUser.part. rewrite split_notification_sk by done.
  rewrite (split_joined "#") by done.
  cbn [lookup list_lookup fmap option_fmap option_map default from_option id].
  by intros [= <-].
Qed.

(** X16: when the [TASK#] items of the user fit in one page, every stored
    task whose id contains no [#] is listed with its id, title and
    completion flag, and with due date 0 when it has none. *)
Theorem initialize_lists_stored_task env event s userId item taskId v :
  present (TABLE_NAME env) = Some (tableName s) → online s = true →
  present (userId_header event) = Some userId →
  table s !! initializeUser.Key userId = Some item →
  nullish (initializeUser.attribute item "defaultNotifications") = false →
  (length (Reads.starting_with ("USER#" +:+ userId) "TASK#" (table s)) ≤ pageLimit s)%nat →
  hash_free taskId = true →
  table s !! createUserTask.taskKey userId taskId = Some v →
  ∃ resp tasks entity,
    initializeUser.handler env event s = (s, Ok resp) ∧
    member (member (responseBody resp) "data") "userTasks" = JArr tasks ∧
    entity ∈ tasks ∧
    member entity "taskId" = JStr taskId ∧
    member entity "taskTitle" = initializeUser.attribute v "taskTitle" ∧
    member entity "taskCompleted" = initializeUser.attribute v "taskCompleted" ∧
    member entity "taskDueDate"
    = (if truthy (initializeUser.attribute v "taskDueDate")
       then initializeUser.attribute v "taskDueDate" else JNum 0).
Proof.
  intros Htn Hon Hu Hitem Hdn Hpage Hft Hv.
  destruct (initialize_existing_run env event s userId item)
    as (settings & notifications & _ & _ & Hrun); [done..|].
  rewrite Hrun. eexists _, _, (initializeUser.cleanedUserTask (createUserTask.taskKey userId taskId, v)).
  split; [reflexivity|]. rewrite reply_data. split; [reflexivity|]. split.
  - apply list_elem_of_fmap. eexists. split; [reflexivity|].
    rewrite take_ge by done. apply list_elem_of_filter. split.
    + apply Is_true_true. unfold initializeUser.is_notification, createUserTask.taskKey.
      cbn [fst snd]. by rewrite task_sk_is_no_notification.
    + apply elem_of_starting_with. split; [done|]. split; [done|].
      unfold createUserTask.taskKey. cbn [snd]. apply prefix_append.
  - unfold initializeUser.cleanedUserTask, createUserTask.taskKey. cbn [fst snd].
    unfold initializeUser.part. rewrite (split_tagged "#") by done.
    split_and!; reflexivity.
Qed.

Lemma initialize_lists_one_page_witness :
  let s := initialized [Scenario.task_t1; notification_n1] in
  ∃ resp tasks notifications,
    initializeUser.handler Scenario.env (Scenario.request [] NoBody) s = (s, Ok resp) ∧
    statusCode resp = 200 ∧
    member (member (responseBody resp) "data") "userTasks" = JArr tasks ∧
    member (member (responseBody resp) "data") "taskNotifications" = JArr notifications ∧
    (length tasks + length notifications
     = length (Reads.starting_with ("USER#" +:+ "u1") "TASK#" (table s)) `min` pageLimit s)%nat.
Proof.
  apply (initialize_lists_one_page _ _ _ "u1"
           (list_to_map (initializeUser.userSettings 100))); reflexivity.
Defined.

Lemma initialize_lists_stored_notification_witness :
  let s := initialized [Scenario.task_t1; notification_n1] in
  let v := notification_n1.2 in
  ∃ resp notifications,
    initializeUser.handler Scenario.env (Scenario.request [] NoBody) s = (s, Ok resp) ∧
    member (member (responseBody resp) "data") "taskNotifications" = JArr notifications ∧
    JObj [("notificationId", JStr "n1");
          ("taskId", JStr "t1");
          ("notificationEnabled", initializeUser.attribute v "notificationEnabled");
          ("reminderTimeBeforeDue", initializeUser.attribute v "reminderTimeBeforeDue");
          ("createdAt", initializeUser.attribute v "createdAt");
          ("updatedAt", initializeUser.attribute v "updatedAt")] ∈ notifications.
Proof.
  apply (initialize_lists_stored_notification _ _ _ "u1"
           (list_to_map (initializeUser.userSettings 100))); try reflexivity.
  vm_compute. lia.
Defined.

Lemma initialize_lists_stored_task_witness :
  let s := initialized [Scenario.task_t1; notification_n1] in
  let v := Scenario.task_t1.2 in
  ∃ resp tasks entity,
    initializeUser.handler Scenario.env (Scenario.request [] NoBody) s = (s, Ok resp) ∧
    member (member (responseBody resp) "data") "userTasks" = JArr tasks ∧
    entity ∈ tasks ∧
    member entity "taskId" = JStr "t1" ∧
    member entity "taskTitle" = initializeUser.attribute v "taskTitle" ∧
    member entity "taskCompleted" = initializeUser.attribute v "taskCompleted" ∧
    member entity "taskDueDate"
    = (if truthy (initializeUser.attribute v "taskDueDate")
       then initializeUser.attribute v "taskDueDate" else JNum 0).
Proof.
  apply (initialize_lists_stored_task _ _ _ "u1"
           (list_to_map (initializeUser.userSettings 100))); try reflexivity.
  vm_compute. lia.
Defined.

(** What the handler does when the settings item lacks its
    [defaultNotifications]. *)
Lemma initialize_without_defaultNotifications_run env event s userId item :
  present (TABLE_NAME env) = Some (tableName s) → online s = true →
  present (userId_header event) = Some userId →
  table s !! initializeUser.Key userId = Some item →
  nullish (initializeUser.attribute item "defaultNotifications") = true →
  ∃ e, initializeUser.handler env event s = (s, Throw e) ∧ name e = "TypeError".
Proof.
  intros Htn Hon Hu Hitem Hdn.
  unfold initializeUser.handler. rewrite Htn, Hu.
  rewrite docClient_get_ok by done. cbn [Reads.Item]. rewrite Hitem.
  cbn [mbind Exc_bind].
  destruct (docClient_query_begins_with_ok (tableName s) ("USER#" +:+ userId) "CATEGORY#" s)
    as [tok1 ->]; [done..|].
  destruct (docClient_query_begins_with_ok (tableName s) ("USER#" +:+ userId) "TASK#" s)
    as [tok2 ->]; [done..|].
  unfold initializeUser.userData, initializeUser.cleanedUserSettings,
    initializeUser.defaultNotification, get.
  cbn [Reads.Item]. rewrite Hdn. cbn [mbind Exc_bind]. eauto.
Qed.

(** X17: for a user whose settings item exists, the handler throws a
    [TypeError] exactly when the item has no [defaultNotifications] (or a
    null one), and answers 200 without writing otherwise. *)
Theorem initialize_throws_without_defaultNotifications env event s userId item :
  present (TABLE_NAME env) = Some (tableName s) → online s = true →
  present (userId_header event) = Some userId →
  table s !! initializeUser.Key userId = Some item →
  let missing := nullish (initializeUser.attribute item "defaultNotifications") in
  (missing = true ↔
     ∃ e, initializeUser.handler env event s = (s, Throw e) ∧ name e = "TypeError") ∧
  (missing = false ↔
     ∃ resp, initializeUser.handler env event s = (s, Ok resp) ∧ statusCode resp = 200).
Proof.
  intros Htn Hon Hu Hitem. cbv zeta.
  destruct (nullish (initializeUser.attribute item "defaultNotifications")) eqn:Hdn.
  - destruct (initialize_without_defaultNotifications_run env event s userId item)
      as (e & Hrun & He); [done..|].
    split; split.
    + intros _. by exists e.
    + done.
    + done.
    + intros (resp & Hresp & _). by rewrite Hrun in Hresp.
  - destruct (initialize_existing_run env event s userId item)
      as (settings & notifications & _ & _ & Hrun); [done..|].
    split; split.
    + done.
    + intros (e & He & _). by rewrite Hrun in He.
    + intros _. rewrite Hrun. eexists. split; reflexivity.
    + done.
Qed.

Lemma initialize_throws_without_defaultNotifications_witness :
  let s := Scenario.store [(initializeUser.Key "u1", {[ "twelveHour" := JBool false ]})] in
  let missing :=
    nullish (initializeUser.attribute ({[ "twelveHour" := JBool false ]}) "defaultNotifications") in
  (missing = true ↔
     ∃ e, initializeUser.handler Scenario.env (Scenario.request [] NoBody) s = (s, Throw e) ∧
          name e = "TypeError") ∧
  (missing = false ↔
     ∃ resp, initializeUser.handler Scenario.env (Scenario.request [] NoBody) s = (s, Ok resp) ∧
             statusCode resp = 200).
Proof.
  by apply (initialize_throws_without_defaultNotifications _ _ _ "u1"
              {[ "twelveHour" := JBool false ]}).
Defined.

Lemma docClient_update_health TableName input s :
  tableName (docClient_update TableName input s).1 = tableName s ∧
  online (docClient_update TableName input s).1 = online s.
Proof. unfold docClient_update. by repeat case_match. Qed.

Lemma update_handler_health op env event s :
  tableName (update_handler op env event s).1 = tableName s ∧
  online (update_handler op env event s).1 = online s.
Proof.
  destruct op; simpl;
    unfold updateUserTask.handler, updateUserSettings.handler, updateTaskNotification.handler;
    repeat (case_match; try done);
    match goal with
    | H : docClient_update ?tn ?input s = _ |- _ =>
        pose proof (docClient_update_health tn input s) as Hh; by rewrite H in Hh
    end.
Qed.

(** X18: a settings update for a user who was never initialized creates
    the settings item without [defaultNotifications]; the next call of the
    initialize handler for that user throws a [TypeError]. *)
Theorem settings_update_before_initialize env event s userId requestBody env2 event2 :
  serving env s → update_request (UpdateSettings userId) event requestBody →
  patch_ok requestBody = true → "defaultNotifications" ∉ own_keys requestBody →
  table s !! initializeUser.Key userId = None →
  present (TABLE_NAME env2) = Some (tableName s) →
  present (userId_header event2) = Some userId →
  let updated := updateUserSettings.handler env event s in
  (∃ resp, updated.2 = Ok resp ∧ statusCode resp = 200) ∧
  ∃ e, initializeUser.handler env2 event2 updated.1 = (updated.1, Throw e) ∧ name e = "TypeError".
Proof.
  intros Hserv Hreq Hok Hdn Hnone Htn2 Hu2. cbv zeta.
  destruct (update_request_accepted (UpdateSettings userId) env event s requestBody)
    as (s' & resp & Hrun & Hst & Htab); [done..|].
  cbn [update_handler] in Hrun. rewrite Hrun. cbn [fst snd]. split; [eauto|].
  pose proof (update_handler_health (UpdateSettings userId) env event s) as [Hname Hon].
  cbn [update_handler] in Hname, Hon. rewrite Hrun in Hname, Hon. cbn [fst] in Hname, Hon.
  destruct Hserv as [Hons _].
  eapply initialize_without_defaultNotifications_run; [by rewrite Hname|by rewrite Hon|done| |].
  - rewrite Htab. apply lookup_insert_eq.
  - unfold initializeUser.attribute. rewrite apply_sets_lookup_notin.
    + change (addressed_key (UpdateSettings userId)) with (initializeUser.Key userId).
      by rewrite Hnone.
    + rewrite patch_sets_targets. apply not_elem_of_cons. by split.
Qed.

Lemma settings_update_before_initialize_witness :
  let event := Scenario.request [] (Json (JObj [("twelveHour", JBool false)])) in
  let updated := updateUserSettings.handler Scenario.env event (Scenario.store []) in
  (∃ resp, updated.2 = Ok resp ∧ statusCode resp = 200) ∧
  ∃ e, initializeUser.handler Scenario.env (Scenario.request [] NoBody) updated.1
       = (updated.1, Throw e) ∧ name e = "TypeError".
Proof.
  apply (settings_update_before_initialize _ _ _ "u1" (JObj [("twelveHour", JBool false)]));
    try reflexivity.
  - split; reflexivity.
  - split; reflexivity.
  - vm_compute. intros H. repeat (apply elem_of_cons in H as [H|H]; [discriminate|]).
    by apply elem_of_nil in H.
Defined.

(** X19: the first read of the initialize handler is outside its [try]
    block: when the store does not answer, the error is thrown, not turned
    into a 500 answer. *)
Theorem initialize_read_failure_is_thrown env event s userId :
  is_Some (present (TABLE_NAME env)) →
  present (userId_header event) = Some userId →
  online s = false →
  initializeUser.handler env event s = (s, Throw ServiceUnavailable).
Proof.
  intros [tn Htn] Hu Hoff. unfold initializeUser.handler. rewrite Htn, Hu.
  unfold Reads.docClient_get, accept_request. rewrite Hoff. reflexivity.
Qed.

Lemma initialize_read_failure_witness :
  let s := {| table := ∅; tableName := "DoneTable"; online := false; pageLimit := 100;
              eagerToken := false; log := [] |} in
  initializeUser.handler Scenario.env (Scenario.request [] NoBody) s
  = (s, Throw ServiceUnavailable).
Proof. apply (initialize_read_failure_is_thrown _ _ _ "u1"); [by eexists|done..]. Defined.

(** ** The due date change the front end sends *)

(** X20: the due date change as the front end sends it (a body with the
    one field [newDueDate], a safe integer) is accepted and stored under the
    attribute [newDueDate]; the stored [taskDueDate] is unchanged, and the
    user listing shows the task as before, [updatedAt] apart. *)
Theorem due_date_change_is_not_listed env event s userId taskId newDueDate item :
  serving env s → safe_integer newDueDate = true →
  update_request (UpdateTask userId taskId) event (due_date_change newDueDate) →
  table s !! updateUserTask.Key userId taskId = Some item →
  let out := updateUserTask.handler env event s in
  let key := updateUserTask.Key userId taskId in
  ∃ resp item',
    out.2 = Ok resp ∧ statusCode resp = 200 ∧
    table out.1 !! key = Some item' ∧
    item' !! "newDueDate" = Some (JNum newDueDate) ∧
    item' !! "taskDueDate" = item !! "taskDueDate" ∧
    initializeUser.cleanedUserTask (key, item')
    = initializeUser.cleanedUserTask (key, <["updatedAt" := JNum (now env)]> item).
Proof.
  intros Hserv Hsafe Hreq Hitem. cbv zeta.
  assert (patch_ok (due_date_change newDueDate) = true) as Hok.
  { unfold patch_ok, due_date_change.
    cbn [own_keys fmap list_fmap fst forallb member].
    rewrite assoc_cons_eq. cbn [default from_option id marshallable].
    by rewrite Hsafe. }
  destruct (update_request_accepted (UpdateTask userId taskId) env event s
              (due_date_change newDueDate)) as (s' & resp & Hrun & Hst & Htab); [done..|].
  cbn [update_handler addressed_key] in Hrun, Htab. rewrite Hrun. cbn [fst snd].
  rewrite Hitem in Htab. cbn [from_option id default] in Htab.
  change (apply_sets (patch_sets (now env) (due_date_change newDueDate)) item)
    with (<["newDueDate" := JNum newDueDate]> (<["updatedAt" := JNum (now env)]> item)) in Htab.
  exists resp. eexists. rewrite Htab, lookup_insert_eq.
  split; [done|]. split; [done|]. split; [done|].
  split; [apply lookup_insert_eq|].
  split; [by rewrite !lookup_insert_ne|].
  unfold initializeUser.cleanedUserTask, initializeUser.attribute. cbn [fst snd].
  by rewrite !(lookup_insert_ne _ "newDueDate").
Qed.

Lemma due_date_change_is_not_listed_witness :
  let event := Scenario.request [("taskId", "t1")] (Json (due_date_change 1800000000000)) in
  let s := Scenario.store [Scenario.task_t1] in
  let out := updateUserTask.handler Scenario.env event s in
  let key := updateUserTask.Key "u1" "t1" in
  ∃ resp item',
    out.2 = Ok resp ∧ statusCode resp = 200 ∧
    table out.1 !! key = Some item' ∧
    item' !! "newDueDate" = Some (JNum 1800000000000) ∧
    item' !! "taskDueDate" = Scenario.task_t1.2 !! "taskDueDate" ∧
    initializeUser.cleanedUserTask (key, item')
    = initializeUser.cleanedUserTask
        (key, <["updatedAt" := JNum (now Scenario.env)]> Scenario.task_t1.2).
Proof.
  apply due_date_change_is_not_listed.
  - split; reflexivity.
  - reflexivity.
  - repeat split; reflexivity.
  - reflexivity.
Defined.
(** ** The authorization header *)

Section Scheme.

Import lambdaAuthorizer.

Variable getSigningKeys : Exc (list SigningKey).
Variable jwt_verify : string → string → Exc JwtPayload.
Variable env : AuthEnv.

Lemma append_not_empty (x y : string) : y ≠ "" → x +:+ y ≠ "".
Proof. by destruct x, y. Qed.

(** X21: the authorizer verifies the second space-separated word of the
    [Authorization] header and does not look at the first: any scheme word
    gives the decision that [Bearer] gives. *)
Theorem authorizer_ignores_scheme (h : gmap string string) (scheme token : string) :
  space_free scheme = true → space_free token = true →
  let request value := {| headers := Some (<["Authorization" := value]> h) |} in
  split " " (scheme +:+ " " +:+ token) !! 1%nat = Some token ∧
  handler getSigningKeys jwt_verify env (request (scheme +:+ " " +:+ token))
  = handler getSigningKeys jwt_verify env (request ("Bearer " +:+ token)).
Proof.
  intros Hs Ht. cbv zeta.
  assert (∀ w, space_free w = true → split " " (w +:+ " " +:+ token) = [w; token]) as Hsplit.
  { intros w Hw. by apply (split_joined " "). }
  split; [by rewrite Hsplit|].
  unfold handler. cbn [headers mbind option_bind]. rewrite !lookup_insert_eq.
  cbn [default from_option id].
  rewrite (Hsplit scheme Hs).
  change ("Bearer " +:+ token) with ("Bearer" +:+ " " +:+ token).
  rewrite (Hsplit "Bearer") by reflexivity.
  assert (∀ w, truthy_str (Some (w +:+ " " +:+ token)) = true) as Htruthy.
  { intros w. unfold truthy_str. rewrite bool_decide_false; [done|].
    apply append_not_empty. done. }
  rewrite !Htruthy. by rewrite !(lookup_insert_ne _ "Authorization").
Qed.

(** X22: an [Authorization] header that is one word (a token with no
    scheme before it) is denied when the user id header is present, whatever
    the key set and the verifier. *)
Theorem authorizer_denies_bare_token (h : gmap string string) (value : string) :
  space_free value = true → value ≠ "" →
  truthy_str (or_else (h !! "X-User-Id") (h !! "x-user-id")) = true →
  h !! "Authorization" = Some value →
  handler getSigningKeys jwt_verify env {| headers := Some h |} = Ok defaultDenyAllPolicy.
Proof.
  intros Hfree Hne Hu Hauth. unfold handler. cbn [headers mbind option_bind].
  rewrite Hauth, Hu. unfold truthy_str at 1. rewrite bool_decide_false by done.
  cbn [negb orb default from_option id].
  unfold split. rewrite (split_go_free " ") by done. cbn [lookup list_lookup].
  unfold verifyAccessToken. destruct getSigningKeys as [[|key0 keys]|e]; reflexivity.
Qed.

End Scheme.

Lemma authorizer_ignores_scheme_witness :
  let request value :=
    {| lambdaAuthorizer.headers :=
         Some (<["Authorization" := value]> ({[ "X-User-Id" := "u1" ]} : gmap string string)) |} in
  split " " ("Basic" +:+ " " +:+ "tok-k2") !! 1%nat = Some "tok-k2" ∧
  lambdaAuthorizer.handler (Ok [Scenario.key2]) Scenario.jwt_verify Scenario.auth_env
    (request ("Basic" +:+ " " +:+ "tok-k2"))
  = lambdaAuthorizer.handler (Ok [Scenario.key2]) Scenario.jwt_verify Scenario.auth_env
      (request ("Bearer " +:+ "tok-k2")).
Proof. by apply authorizer_ignores_scheme. Defined.

Lemma authorizer_denies_bare_token_witness :
  lambdaAuthorizer.handler (Ok [Scenario.key2]) Scenario.jwt_verify Scenario.auth_env
    (Scenario.auth_request [("Authorization", "tok-k2"); ("X-User-Id", "u1")])
  = Ok lambdaAuthorizer.defaultDenyAllPolicy.
Proof. by apply (authorizer_denies_bare_token _ _ _ _ "tok-k2"). Defined.

(** ** Deleting an account while the store does not answer *)

(** X23: when the store does not answer, the account deletion issues one
    query, deletes nothing and is answered 500. *)
Theorem delete_account_store_unavailable fuel env event s userId :
  present (userId_header event) = Some userId → online s = false →
  let out := deleteAccount.handler (S fuel) env event s in
  ∃ s',
    out = Some (s', Ok (reply 500 "OPTIONS,DELETE"
                          [("message", JStr "Error deleting user items");
                           ("error", JStr (message ServiceUnavailable))])) ∧
    table s' = table s ∧
    log s' = log s ++ [CQuery ("USER#" +:+ userId) None].
Proof.
  intros Hu Hoff. cbv zeta. unfold deleteAccount.handler. rewrite Hu.
  cbn [deleteAccount.paginate]. unfold docClient_query, accept_request.
  cbn [online record forallb negb]. rewrite Hoff. cbn [negb]. eauto.
Qed.

Lemma delete_account_store_unavailable_witness :
  let s := {| table := table Scenario.crowded; tableName := "DoneTable"; online := false;
              pageLimit := 40; eagerToken := false; log := [] |} in
  let out := deleteAccount.handler 1 Scenario.env (Scenario.request [] NoBody) s in
  ∃ s',
    out = Some (s', Ok (reply 500 "OPTIONS,DELETE"
                          [("message", JStr "Error deleting user items");
                           ("error", JStr (message ServiceUnavailable))])) ∧
    table s' = table s ∧
    log s' = log s ++ [CQuery ("USER#" +:+ "u1") None].
Proof. by apply delete_account_store_unavailable. Defined.
(** ** Keys and the identifiers they carry *)

Lemma append_length_inj (a b x y : string) :
  String.length a = String.length b → a +:+ x = b +:+ y → a = b ∧ x = y.
Proof.
  revert b. induction a as [|c a IH]; intros [|d b]; try done.
  rewrite !append_cons. intros [= Hlen] [= -> H]. by destruct (IH b Hlen H) as [-> ->].
Qed.

(** X24: two notifications of a user that differ in task id or in
    notification id are stored under different keys, provided the task ids
    contain no [#]. *)
Theorem notification_keys_differ userId taskId notificationId taskId' notificationId' :
  hash_free taskId = true → hash_free taskId' = true →
  (taskId, notificationId) ≠ (taskId', notificationId') →
  notification_key userId taskId notificationId ≠ notification_key userId taskId' notificationId'.
Proof.
  intros Ht Ht' Hne [= Hsk]. apply append_inj_r in Hsk. apply Hne.
  assert (String.length taskId = String.length taskId') as Hlen.
  { apply (f_equal (first_index "#")) in Hsk.
    rewrite (first_index_append_free "#" taskId), (first_index_append_free "#" taskId') in Hsk
      by done.
    rewrite !(first_index_prefix "#" "NOTIFICATION#") in Hsk by reflexivity. lia. }
  destruct (append_length_inj _ _ _ _ Hlen Hsk) as [-> Hn].
  by apply append_inj_r in Hn as ->.
Qed.

Lemma notification_keys_differ_witness :
  notification_key "u1" "t1" "n1" ≠ notification_key "u1" "t2" "n1".
Proof. by apply notification_keys_differ. Defined.

(** X25: a delete-task request whose task id is
    [<taskId>NOTIFICATION#<notificationId>] addresses the item of that
    notification: it is answered 200 and leaves the table that the
    delete-notification request for the notification leaves. *)
Theorem delete_task_reaches_notification env event event' s userId taskId notificationId :
  present (TABLE_NAME env) = Some (tableName s) → online s = true →
  present (userId_header event) = Some userId →
  present (query_parameter event "taskId")
  = Some (taskId +:+ "NOTIFICATION#" +:+ notificationId) →
  present (userId_header event') = Some userId →
  present (query_parameter event' "taskId") = Some taskId →
  present (query_parameter event' "notificationId") = Some notificationId →
  let as_task := deleteUserTask.handler env event s in
  let as_notification := deleteTaskNotification.handler env event' s in
  (∃ resp, as_task.2 = Ok resp ∧ statusCode resp = 200) ∧
  table as_task.1 = delete (notification_key userId taskId notificationId) (table s) ∧
  table as_task.1 = table as_notification.1.
Proof.
  intros Htn Hon Hu Ht Hu' Ht' Hn'. cbv zeta.
  unfold deleteUserTask.handler, deleteTaskNotification.handler.
  rewrite Htn, Hu, Ht, Hu', Ht', Hn'.
  assert (table_name_or_empty env = tableName s) as ->.
  { unfold table_name_or_empty. by rewrite Htn. }
  unfold docClient_delete. rewrite !accept_request_ok by done.
  cbn [fst snd table with_table]. split; [eauto|]. done.
Qed.

Lemma delete_task_reaches_notification_witness :
  let s := Scenario.store [Scenario.task_t1; notification_n1] in
  let event := Scenario.request [("taskId", "t1NOTIFICATION#n1")] NoBody in
  let event' := Scenario.request [("taskId", "t1"); ("notificationId", "n1")] NoBody in
  let as_task := deleteUserTask.handler Scenario.env event s in
  let as_notification := deleteTaskNotification.handler Scenario.env event' s in
  (∃ resp, as_task.2 = Ok resp ∧ statusCode resp = 200) ∧
  table as_task.1 = delete (notification_key "u1" "t1" "n1") (table s) ∧
  table as_task.1 = table as_notification.1.
Proof. by apply (delete_task_reaches_notification _ _ _ _ "u1" "t1" "n1"). Defined.

Lemma notificationItem_sk env userId taskId currentTime i reminderTime :
  member (JObj (createUserTask.notificationItem env userId taskId currentTime i reminderTime)) "sk"
  = JStr ("TASK#" +:+ taskId +:+ "NOTIFICATION#" +:+ uuidv4 env (S i)).
Proof. reflexivity. Qed.

(** X26: for a notification item built by the create-task handler with a
    task id and a generated id that contain no [#], the entity in the
    answer carries the generated id, and it is the entity the user listing
    makes of the stored item. *)
Theorem created_task_notification_is_listed env userId taskId currentTime i reminderTime :
  hash_free taskId = true → hash_free (uuidv4 env (S i)) = true →
  let notification :=
    createUserTask.notificationItem env userId taskId currentTime i reminderTime in
  item_key notification = Some (notification_key userId taskId (uuidv4 env (S i))) ∧
  member (createUserTask.cleanedNotification taskId notification) "notificationId"
  = JStr (uuidv4 env (S i)) ∧
  initializeUser.cleanedTaskNotification
    (notification_key userId taskId (uuidv4 env (S i)), item_attrs notification)
  = Ok (createUserTask.cleanedNotification taskId notification).
Proof.
  intros Ht Hn. cbv zeta. split; [reflexivity|].
  unfold createUserTask.cleanedNotification. cbv zeta. rewrite notificationItem_sk.
  rewrite split_notification_sk by done. unfold createUserTask.notificationItem.
  cbn [lookup list_lookup fmap option_fmap option_map default from_option id].
  split; [reflexivity|].
  unfold initializeUser.cleanedTaskNotification, notification_key. cbn [fst snd].
  rewrite split_task_of_notification_sk by done. cbn [lookup list_lookup].
  unfold initializeUser.part. rewrite split_notification_sk by done.
  rewrite (split_joined "#") by done.
  cbn [lookup list_lookup fmap option_fmap option_map default from_option id].
  unfold initializeUser.attribute.
  repeat (stored_attribute; cbn [default from_option id]).
  reflexivity.
Qed.

Lemma created_task_notification_is_listed_witness :
  let notification :=
    createUserTask.notificationItem Scenario.env "u1" "uuid-0" 100 0 "15" in
  item_key notification = Some (notification_key "u1" "uuid-0" (uuidv4 Scenario.env 1)) ∧
  member (createUserTask.cleanedNotification "uuid-0" notification) "notificationId"
  = JStr (uuidv4 Scenario.env 1) ∧
  initializeUser.cleanedTaskNotification
    (notification_key "u1" "uuid-0" (uuidv4 Scenario.env 1), item_attrs notification)
  = Ok (createUserTask.cleanedNotification "uuid-0" notification).
Proof. by apply created_task_notification_is_listed. Defined.

(** X27: the task item built by the create-task handler (generated id
    without [#]) is listed with the generated id, the title, the completion
    flag false, and the notes and due date that the create answer reports:
    the body's value when it is truthy, the empty string and 0 otherwise;
    the category is listed only when the body's value is truthy. *)
Theorem created_task_is_listed userId taskId currentTime taskTitle taskNotes taskDueDate categoryId :
  hash_free taskId = true →
  let Item :=
    createUserTask.taskItem userId taskId currentTime taskTitle taskNotes taskDueDate categoryId in
  let listed :=
    initializeUser.cleanedUserTask (createUserTask.taskKey userId taskId, item_attrs Item) in
  item_key Item = Some (createUserTask.taskKey userId taskId) ∧
  member listed "taskId" = JStr taskId ∧
  member listed "taskTitle" = taskTitle ∧
  member listed "taskCompleted" = JBool false ∧
  member listed "taskNotes" = createUserTask.if_truthy taskNotes taskNotes (JStr "") ∧
  member listed "taskDueDate" = createUserTask.if_truthy taskDueDate taskDueDate (JNum 0) ∧
  member listed "categoryId" = (if truthy categoryId then categoryId else JUndefined) ∧
  member listed "createdAt" = JNum currentTime ∧
  member listed "updatedAt" = JNum currentTime.
Proof.
  intros Hfree. cbv zeta. split; [reflexivity|].
  unfold initializeUser.cleanedUserTask, createUserTask.taskKey. cbn [fst snd].
  unfold initializeUser.part. rewrite (split_tagged "#") by done.
  cbn [lookup list_lookup fmap option_fmap option_map default from_option id].
  unfold initializeUser.attribute, createUserTask.taskItem, spread_if, createUserTask.if_truthy.
  destruct (truthy taskNotes) eqn:Hn, (truthy taskDueDate) eqn:Hd, (truthy categoryId) eqn:Hc;
    cbn [app];
    repeat (stored_attribute; cbn [default from_option id]);
    rewrite ?lookup_empty; cbn [default from_option id];
    rewrite ?Hn, ?Hd, ?Hc; repeat split; reflexivity.
Qed.

Lemma created_task_is_listed_witness :
  let Item :=
    createUserTask.taskItem "u1" "uuid-0" 100 (JStr "Buy milk") (JStr "") (JNum 0) JUndefined in
  let listed :=
    initializeUser.cleanedUserTask (createUserTask.taskKey "u1" "uuid-0", item_attrs Item) in
  item_key Item = Some (createUserTask.taskKey "u1" "uuid-0") ∧
  member listed "taskId" = JStr "uuid-0" ∧
  member listed "taskTitle" = JStr "Buy milk" ∧
  member listed "taskCompleted" = JBool false ∧
  member listed "taskNotes" = createUserTask.if_truthy (JStr "") (JStr "") (JStr "") ∧
  member listed "taskDueDate" = createUserTask.if_truthy (JNum 0) (JNum 0) (JNum 0) ∧
  member listed "categoryId" = (if truthy JUndefined then JUndefined else JUndefined) ∧
  member listed "createdAt" = JNum 100 ∧
  member listed "updatedAt" = JNum 100.
Proof. by apply created_task_is_listed. Defined.
